(** * Export and CTest handler commands: a shallow embedding

    The development follows three translation units of the repository:

    - [Source/CTest/cmCTestHandlerCommand.cxx]: the generic dispatch of a
      ctest handler command, with its error-state guard;
    - [Source/CTest/cmCTestBuildCommand.cxx]: the build command's handler
      initialisation;
    - [Source/cmExportCommand.cxx]: the export command, its PACKAGE form and
      the package registry.

    Stateful code is written with explicit state passing.  Collaborators whose
    code lives in other translation units (argument parser, file system,
    generators, handlers) are fields of type classes, so every theorem holds
    for all of their implementations. *)

From stdpp Require Import base gmap strings list sorting pretty.
From Stdlib Require Import ZArith Ascii.

Local Open Scope Z_scope.

(** ** Strings *)

Module Str.

(** [std::string::empty]. *)
Definition empty (s : string) : bool := bool_decide (s = "").

(** The double-quote character, as a one-character string. *)
Definition dquote : string := String "034"%char EmptyString.

(** [s] starts with [p]. *)
Fixpoint starts_with (p s : string) : bool :=
  match p, s with
  | EmptyString, _ => true
  | String a p', String b s' => bool_decide (a = b) && starts_with p' s'
  | String _ _, EmptyString => false
  end.

(** [needle] occurs somewhere in [s] (what a non-null result of
    [cmSystemTools::FindLastString] means). *)
Fixpoint contains (needle s : string) : bool :=
  starts_with needle s ||
  match s with
  | EmptyString => false
  | String _ s' => contains needle s'
  end.

End Str.

(** ** Messages *)

(** The message kinds the three translation units issue. *)
Inductive MessageType := AUTHOR_WARNING | FATAL_ERROR | WARNING.

Global Instance MessageType_eq_dec : EqDecision MessageType.
Proof. solve_decision. Defined.

(** ** Detecting a keyword given twice *)

Module Keywords.

(** [std::sort] on the seen keywords: the order of [cm::string_view] is the
    lexicographic order on bytes, for which equal strings are identical, so
    the result is the one sorted permutation. *)
Definition sort (kws : list string) : list string := merge_sort String.le kws.

(** [std::adjacent_find]: the first element that equals its successor. *)
Fixpoint adjacent_find (l : list string) : option string :=
  match l with
  | x :: t =>
      match t with
      | y :: _ => if decide (x = y) then Some x else adjacent_find t
      | [] => None
      end
  | [] => None
  end.

(** How often a keyword was supplied. *)
Definition occurrences (k : string) (l : list string) : nat :=
  length (filter (λ x, x = k) l).

End Keywords.

(** ** The ctest handler commands *)

Module CTest.

Definition endl : string := String "010"%char "".

(** Levels of [cmCTestLog] used by the two translation units. *)
Inductive LogType := DEBUG | HANDLER_VERBOSE_OUTPUT | ERROR_MESSAGE.

(** What a command invocation reads and writes: the process-wide error
    flag of [cmSystemTools], the variables of the calling [cmMakefile], the
    error text of the [cmExecutionStatus], the messages issued, the ctest
    log, and the [cmCTest] instance (configuration type, configuration
    entries, time limit), together with the process working directory. *)
Record State := mkState {
  ErrorOccurred : bool;
  Definitions : gmap string string;
  StatusError : string;
  Messages : list (MessageType * string);
  Log : list (LogType * string);
  ConfigType : string;
  CTestConfiguration : gmap string string;
  TimeLimit : option string;
  WorkingDirectory : string;
}.

Definition set_ErrorOccurred (b : bool) (s : State) : State :=
  mkState b (Definitions s) (StatusError s) (Messages s) (Log s)
          (ConfigType s) (CTestConfiguration s) (TimeLimit s)
          (WorkingDirectory s).
Definition set_Definitions (d : gmap string string) (s : State) : State :=
  mkState (ErrorOccurred s) d (StatusError s) (Messages s) (Log s)
          (ConfigType s) (CTestConfiguration s) (TimeLimit s)
          (WorkingDirectory s).
Definition set_StatusError (e : string) (s : State) : State :=
  mkState (ErrorOccurred s) (Definitions s) e (Messages s) (Log s)
          (ConfigType s) (CTestConfiguration s) (TimeLimit s)
          (WorkingDirectory s).
Definition set_Messages (m : list (MessageType * string)) (s : State) : State :=
  mkState (ErrorOccurred s) (Definitions s) (StatusError s) m (Log s)
          (ConfigType s) (CTestConfiguration s) (TimeLimit s)
          (WorkingDirectory s).
Definition set_Log (l : list (LogType * string)) (s : State) : State :=
  mkState (ErrorOccurred s) (Definitions s) (StatusError s) (Messages s) l
          (ConfigType s) (CTestConfiguration s) (TimeLimit s)
          (WorkingDirectory s).
Definition set_ConfigType (c : string) (s : State) : State :=
  mkState (ErrorOccurred s) (Definitions s) (StatusError s) (Messages s)
          (Log s) c (CTestConfiguration s) (TimeLimit s) (WorkingDirectory s).
Definition set_CTestConfiguration (c : gmap string string) (s : State) : State :=
  mkState (ErrorOccurred s) (Definitions s) (StatusError s) (Messages s)
          (Log s) (ConfigType s) c (TimeLimit s) (WorkingDirectory s).
Definition set_TimeLimit (t : option string) (s : State) : State :=
  mkState (ErrorOccurred s) (Definitions s) (StatusError s) (Messages s)
          (Log s) (ConfigType s) (CTestConfiguration s) t (WorkingDirectory s).
Definition set_WorkingDirectory (d : string) (s : State) : State :=
  mkState (ErrorOccurred s) (Definitions s) (StatusError s) (Messages s)
          (Log s) (ConfigType s) (CTestConfiguration s) (TimeLimit s) d.

(** *** The global error flag

    Modelled from the spec: [cmSystemTools] is not among the sources at
    hand; the spec describes one process-wide error-occurred flag that can
    be read, raised and reset. *)
Definition GetErrorOccurredFlag (s : State) : bool := ErrorOccurred s.
Definition SetErrorOccurred (s : State) : State := set_ErrorOccurred true s.
Definition SetFatalErrorOccurred (s : State) : State := set_ErrorOccurred true s.
Definition ResetErrorOccurredFlag (s : State) : State := set_ErrorOccurred false s.

(** *** The calling makefile and the execution status *)

(** [cmMakefile::GetDefinition]: a [cmValue], null when undefined. *)
Definition GetDefinition (name : string) (s : State) : option string :=
  Definitions s !! name.
Definition GetSafeDefinition (name : string) (s : State) : string :=
  default "" (Definitions s !! name).
Definition AddDefinition (name value : string) (s : State) : State :=
  set_Definitions (<[name := value]> (Definitions s)) s.
(** [cmNonempty] on a [cmValue]: defined and not the empty string. *)
Definition cmNonempty (v : option string) : bool :=
  match v with
  | Some x => negb (Str.empty x)
  | None => false
  end.
(** [cmCommand::SetError] stores the text in the execution status. *)
Definition SetError (e : string) (s : State) : State := set_StatusError e s.
Definition GetError (s : State) : string := StatusError s.
(** [cmMakefile::IssueMessage]: the message is recorded; a fatal one marks
    the global error flag. *)
Definition IssueMessage (t : MessageType) (text : string) (s : State) : State :=
  let s := set_Messages (Messages s ++ [(t, text)]) s in
  match t with
  | FATAL_ERROR => SetErrorOccurred s
  | _ => s
  end.

(** *** The ctest instance

    Modelled from the spec: [cmCTest] is not among the sources at hand; the
    spec treats it as the ambient configuration store, here a map from
    entry name to value, an absent entry reading as the empty string. *)
Definition cmCTestLog (t : LogType) (text : string) (s : State) : State :=
  set_Log (Log s ++ [(t, text)]) s.
Definition cmCTestOptionalLog (t : LogType) (text : string) (suppress : bool)
    (s : State) : State :=
  if suppress then s else cmCTestLog t text s.
Definition SetConfigType (ct : string) (s : State) : State := set_ConfigType ct s.
Definition GetConfigType (s : State) : string := ConfigType s.
Definition SetCTestConfiguration (name value : string) (suppress : bool)
    (s : State) : State :=
  set_CTestConfiguration (<[name := value]> (CTestConfiguration s)) s.
Definition GetCTestConfiguration (name : string) (s : State) : string :=
  default "" (CTestConfiguration s !! name).
Definition SetTimeLimit (v : option string) (s : State) : State :=
  set_TimeLimit v s.

(** [cmSystemTools::FindLastString] used as a test. *)
Definition FindLastString (s needle : string) : bool := Str.contains needle s.

(** [std::to_string] on the handler's status code. *)
Definition to_string (z : Z) : string := pretty z.

(** *** SaveRestoreErrorState *)

Record SaveRestoreErrorState := mkGuard {
  InitialErrorState : bool;
  CaptureCMakeErrorValue : bool;
}.

(** The constructor snapshots the flag and resets it. *)
Definition SaveRestoreErrorState_new (s : State) : SaveRestoreErrorState * State :=
  (mkGuard (GetErrorOccurredFlag s) false, ResetErrorOccurredFlag s).

Definition CaptureCMakeError_call (e : SaveRestoreErrorState) : SaveRestoreErrorState :=
  mkGuard (InitialErrorState e) true.

(** The destructor, run on every return of [InitialPass]. *)
Definition SaveRestoreErrorState_delete (e : SaveRestoreErrorState) (s : State) : State :=
  if negb (CaptureCMakeErrorValue e) then
    if InitialErrorState e then SetErrorOccurred s else s
  else
    let currentState := GetErrorOccurredFlag s in
    if negb (Bool.eqb currentState (InitialErrorState e)) then
      if InitialErrorState e then SetErrorOccurred s
      else ResetErrorOccurredFlag s
    else s.

(** *** Arguments bound by every handler command ([BindArguments]) *)

Record HandlerArguments := mkHandlerArguments {
  ParsedKeywords : list string;
  Append : bool;
  Quiet : bool;
  ReturnValue : string;
  CaptureCMakeError : string;
  Source : string;
  Build : string;
  SubmitIndex : string;
}.

(** Lines 88-95 of [InitialPass]: the seen keywords are sorted and searched
    for two equal neighbours. *)
Definition CheckParsedKeywords (kws : list string) (s : State) : State :=
  match Keywords.adjacent_find (Keywords.sort kws) with
  | Some it =>
      IssueMessage FATAL_ERROR ("Called with more than one value for " +:+ it) s
  | None => s
  end.

(** *** Collaborators outside the translation unit *)

Class Collaborators := {
  (** [cmSystemTools::CollapseFullPath] *)
  CollapseFullPath : string → string;
  (** [cmWorkingDirectory]: [None] when the directory was entered, else the
      text of [GetError]. *)
  ChangeDirectory : string → State → option string;
  (** [atoi] of the C library *)
  atoi : string → Z;
  (** [cmCTestGenericHandler] and its subclasses *)
  Handler : Type;
  SetAppendXML : bool → Handler → Handler;
  PopulateCustomVectors : State → Handler → Handler;
  SetSubmitIndex : Z → Handler → Handler;
  ProcessHandler : Handler → State → Z * Handler * State;
}.

(** The virtual interface of [cmCTestHandlerCommand], over the type of the
    command's bound arguments. *)
Class HandlerCommand `{Collaborators} (Args : Type) := {
  GetName : string;
  Parse : list string → Args * list string;
  Base : Args → HandlerArguments;
  CheckArguments : Args → State → State;
  InitializeHandler : Args → State → option Handler * State;
  ProcessAdditionalValues : Handler → Args → State → State;
}.

(** The return statement through which [InitialPass] left. *)
Inductive ExitPoint := BadArgument | NoHandler | WorkdirFailed | Processed.

Global Instance ExitPoint_eq_dec : EqDecision ExitPoint.
Proof. solve_decision. Defined.

Record Outcome := mkOutcome {
  Result : bool;
  Exit : ExitPoint;
  Guard : SaveRestoreErrorState;
  Final : State;
}.

Section InitialPass.
Context `{cmd : HandlerCommand Args}.

(** Lines 124-165: configuration type, build and source directory, change
    id. *)
Definition ResolveConfiguration (a : HandlerArguments) (s : State) : State :=
  let s :=
    match GetDefinition "CTEST_CONFIGURATION_TYPE" s with
    | Some ctestConfigType => SetConfigType ctestConfigType s
    | None => s
    end in
  let s :=
    if negb (Str.empty (Build a)) then
      SetCTestConfiguration "BuildDirectory" (CollapseFullPath (Build a))
                            (Quiet a) s
    else
      let bdir := GetSafeDefinition "CTEST_BINARY_DIRECTORY" s in
      if negb (Str.empty bdir) then
        SetCTestConfiguration "BuildDirectory" (CollapseFullPath bdir)
                              (Quiet a) s
      else cmCTestLog ERROR_MESSAGE ("CTEST_BINARY_DIRECTORY not set" +:+ endl) s in
  let s :=
    if negb (Str.empty (Source a)) then
      let s := cmCTestLog DEBUG
                 ("Set source directory to: " +:+ Source a +:+ endl) s in
      SetCTestConfiguration "SourceDirectory" (CollapseFullPath (Source a))
                            (Quiet a) s
    else
      SetCTestConfiguration "SourceDirectory"
        (CollapseFullPath (GetSafeDefinition "CTEST_SOURCE_DIRECTORY" s))
        (Quiet a) s in
  match GetDefinition "CTEST_CHANGE_ID" s with
  | Some changeId => SetCTestConfiguration "ChangeId" changeId (Quiet a) s
  | None => s
  end.

(** The body of [cmCTestHandlerCommand::InitialPass] between the
    construction of the guard and its destruction.  [BindArguments] only
    allocates; sorting the seen keywords in place and [SetCMakeInstance] have
    no effect the body reads back: the handler is processed in the state
    itself. *)
Definition InitialPass_body (arguments : list string)
    (errorState : SaveRestoreErrorState) (s : State) : Outcome :=
  let '(args, unparsedArguments) := Parse arguments in
  let a := Base args in
  let s := CheckArguments args s in
  let s := CheckParsedKeywords (ParsedKeywords a) s in
  let foundBadArgument := negb (bool_decide (unparsedArguments = [])) in
  let s :=
    match unparsedArguments with
    | front :: _ =>
        SetError ("called with unknown argument " +:+ Str.dquote +:+ front
                  +:+ Str.dquote +:+ ".") s
    | [] => s
    end in
  let captureCMakeError := negb (Str.empty (CaptureCMakeError a)) in
  let errorState :=
    if captureCMakeError then CaptureCMakeError_call errorState
    else errorState in
  if foundBadArgument then
    if captureCMakeError then
      let s := AddDefinition (CaptureCMakeError a) "-1" s in
      let err := GetName +:+ " " +:+ GetError s in
      let s :=
        if negb (FindLastString err "unknown error.") then
          cmCTestLog ERROR_MESSAGE (err +:+ " error from command" +:+ endl) s
        else s in
      mkOutcome true BadArgument errorState s
    else mkOutcome false BadArgument errorState s
  else
    let s := ResolveConfiguration a s in
    let s := cmCTestLog DEBUG ("Initialize handler" +:+ endl) s in
    match InitializeHandler args s with
    | (None, s) =>
        let s := cmCTestLog ERROR_MESSAGE
                   ("Cannot instantiate test handler " +:+ GetName +:+ endl) s in
        if captureCMakeError then
          let s := AddDefinition (CaptureCMakeError a) "-1" s in
          let err := GetError s in
          let s :=
            if negb (FindLastString err "unknown error.") then
              cmCTestLog ERROR_MESSAGE (err +:+ " error from command" +:+ endl) s
            else s in
          mkOutcome true NoHandler errorState s
        else mkOutcome false NoHandler errorState s
    | (Some handler, s) =>
        let handler := SetAppendXML (Append a) handler in
        let handler := PopulateCustomVectors s handler in
        let handler :=
          if negb (Str.empty (SubmitIndex a)) then
            SetSubmitIndex (atoi (SubmitIndex a)) handler
          else handler in
        let dir := GetCTestConfiguration "BuildDirectory" s in
        match ChangeDirectory dir s with
        | Some workdirError =>
            let s := SetError workdirError s in
            if captureCMakeError then
              let s := AddDefinition (CaptureCMakeError a) "-1" s in
              let s := cmCTestLog ERROR_MESSAGE
                         (GetName +:+ " " +:+ GetError s +:+ endl) s in
              mkOutcome true WorkdirFailed errorState s
            else mkOutcome false WorkdirFailed errorState s
        | None =>
            let oldDir := WorkingDirectory s in
            let s := set_WorkingDirectory dir s in
            let s := SetTimeLimit (GetDefinition "CTEST_TIME_LIMIT" s) s in
            let '(res, handler, s) := ProcessHandler handler s in
            let s :=
              if negb (Str.empty (ReturnValue a)) then
                AddDefinition (ReturnValue a) (to_string res) s
              else s in
            let s := ProcessAdditionalValues handler args s in
            let s :=
              if captureCMakeError then
                if GetErrorOccurredFlag s then
                  let err := GetError s in
                  let s :=
                    if negb (FindLastString err "unknown error.") then
                      cmCTestLog ERROR_MESSAGE err s
                    else s in
                  AddDefinition (CaptureCMakeError a) "-1" s
                else AddDefinition (CaptureCMakeError a) "0" s
              else s in
            let s := set_WorkingDirectory oldDir s in
            mkOutcome true Processed errorState s
        end
    end.

(** The state in which the handler is initialised when the arguments are
    in order: the body up to line 167. *)
Definition StateAtInitialize (arguments : list string) (s : State) : State :=
  let args := (Parse arguments).1 in
  let s := CheckArguments args s in
  let s := CheckParsedKeywords (ParsedKeywords (Base args)) s in
  let s := ResolveConfiguration (Base args) s in
  cmCTestLog DEBUG ("Initialize handler" +:+ endl) s.

(** [cmCTestHandlerCommand::InitialPass]: the guard is built first and
    destroyed after the body has returned. *)
Definition InitialPass (arguments : list string) (s : State) : bool * State :=
  let '(errorState, s) := SaveRestoreErrorState_new s in
  let o := InitialPass_body arguments errorState s in
  (Result o, SaveRestoreErrorState_delete (Guard o) (Final o)).

(** The state in which the guard is destroyed. *)
Definition BeforeExit (arguments : list string) (s : State) : Outcome :=
  InitialPass_body arguments (SaveRestoreErrorState_new s).1
                   (SaveRestoreErrorState_new s).2.

(** The collaborators may raise the global error flag but never clear it. *)
Record KeepErrors : Prop := {
  InitializeHandler_keeps : ∀ args s,
    ErrorOccurred s = true → ErrorOccurred (InitializeHandler args s).2 = true;
  ProcessHandler_keeps : ∀ h s,
    ErrorOccurred s = true → ErrorOccurred (ProcessHandler h s).2 = true;
  ProcessAdditionalValues_keeps : ∀ h args s,
    ErrorOccurred s = true →
    ErrorOccurred (ProcessAdditionalValues h args s) = true;
}.

(** The collaborators may issue messages but never take one back. *)
Record KeepMessages : Prop := {
  InitializeHandler_keeps_messages : ∀ args s m,
    m ∈ Messages s → m ∈ Messages (InitializeHandler args s).2;
  ProcessHandler_keeps_messages : ∀ h s m,
    m ∈ Messages s → m ∈ Messages (ProcessHandler h s).2;
  ProcessAdditionalValues_keeps_messages : ∀ h args s m,
    m ∈ Messages s → m ∈ Messages (ProcessAdditionalValues h args s);
}.

End InitialPass.

(** *** The build command ([cmCTestBuildCommand]) *)

(** [BuildArguments] extends [HandlerArguments]. *)
Record BuildArguments := mkBuildArguments {
  HandlerArgs : HandlerArguments;
  NumberErrors : string;
  NumberWarnings : string;
  Target : string;
  Configuration : string;
  Flags : string;
  ProjectName : string;
  ParallelLevel : string;
}.

(** A global generator, as far as the build command uses it: target,
    configuration, parallel level, native flags, ignore-errors flag. *)
Record cmGlobalGenerator := mkGenerator {
  GenerateCMakeBuildCommand : string → string → string → string → bool → string;
}.

Class BuildCollaborators `{Collaborators} := {
  (** [GetName] of the build command (declared in its header) *)
  BuildName : string;
  (** the static [cmArgumentParser] of [InitialPass] *)
  BuildParse : list string → BuildArguments * list string;
  (** [cm::make_unique<cmCTestBuildHandler>(this->CTest)] *)
  NewBuildHandler : Handler;
  SetQuiet : bool → Handler → Handler;
  GetTotalErrors : Handler → Z;
  GetTotalWarnings : Handler → Z;
  (** [cmake::CreateGlobalGenerator] *)
  CreateGlobalGenerator : string → option cmGlobalGenerator;
  (** [cmMakefile::IgnoreErrorsCMP0061] *)
  IgnoreErrorsCMP0061 : State → bool;
}.

Definition has_no_project : string :=
  "has no project to build. If this is a " +:+ Str.dquote +:+
  "built with CMake" +:+ Str.dquote +:+
  " project, verify that CTEST_CMAKE_GENERATOR " +:+
  "is set. Otherwise, set CTEST_BUILD_COMMAND to build the project " +:+
  "with a custom command line.".

Section Build.
Context `{BuildCollaborators}.

(** Lines 57-124 of [cmCTestBuildCommand::InitializeHandler]: [inl] is
    [return nullptr], [inr] falls through to line 126. *)
Definition SelectMakeCommand (args : BuildArguments) (s : State) : State + State :=
  let a := HandlerArgs args in
  let ctestBuildCommand := GetDefinition "CTEST_BUILD_COMMAND" s in
  if cmNonempty ctestBuildCommand then
    inr (SetCTestConfiguration "MakeCommand" (default "" ctestBuildCommand)
                               (Quiet a) s)
  else
    let cmakeGeneratorName := GetDefinition "CTEST_CMAKE_GENERATOR" s in
    let ctestBuildConfiguration :=
      GetDefinition "CTEST_BUILD_CONFIGURATION" s in
    let cmakeBuildConfiguration :=
      if negb (Str.empty (Configuration args)) then Configuration args
      else if cmNonempty ctestBuildConfiguration
           then default "" ctestBuildConfiguration
           else GetConfigType s in
    let cmakeBuildAdditionalFlags :=
      if negb (Str.empty (Flags args)) then Flags args
      else GetSafeDefinition "CTEST_BUILD_FLAGS" s in
    let cmakeBuildTarget :=
      if negb (Str.empty (Target args)) then Target args
      else GetSafeDefinition "CTEST_BUILD_TARGET" s in
    if cmNonempty cmakeGeneratorName then
      let name := default "" cmakeGeneratorName in
      let cmakeBuildConfiguration :=
        if Str.empty cmakeBuildConfiguration then "Release"
        else cmakeBuildConfiguration in
      match CreateGlobalGenerator name with
      | None =>
          let e := "could not create generator named " +:+ Str.dquote
                   +:+ name +:+ Str.dquote in
          let s := IssueMessage FATAL_ERROR e s in
          inl (SetFatalErrorOccurred s)
      | Some globalGenerator =>
          let cmakeBuildConfiguration :=
            if Str.empty cmakeBuildConfiguration then "Debug"
            else cmakeBuildConfiguration in
          let buildCommand :=
            GenerateCMakeBuildCommand globalGenerator cmakeBuildTarget
              cmakeBuildConfiguration (ParallelLevel args)
              cmakeBuildAdditionalFlags (IgnoreErrorsCMP0061 s) in
          let s := cmCTestOptionalLog HANDLER_VERBOSE_OUTPUT
                     ("SetMakeCommand:" +:+ buildCommand +:+ endl)
                     (Quiet a) s in
          inr (SetCTestConfiguration "MakeCommand" buildCommand (Quiet a) s)
      end
    else inl (SetError has_no_project s).

(** [cmCTestBuildCommand::InitializeHandler] *)
Definition Build_InitializeHandler (args : BuildArguments) (s : State)
  : option Handler * State :=
  let a := HandlerArgs args in
  let handler := NewBuildHandler in
  match SelectMakeCommand args s with
  | inl s => (None, s)
  | inr s =>
      let s :=
        match GetDefinition "CTEST_USE_LAUNCHERS" s with
        | Some useLaunchers =>
            SetCTestConfiguration "UseLaunchers" useLaunchers (Quiet a) s
        | None => s
        end in
      let s :=
        match GetDefinition "CTEST_LABELS_FOR_SUBPROJECTS" s with
        | Some labelsForSubprojects =>
            SetCTestConfiguration "LabelsForSubprojects"
                                  labelsForSubprojects (Quiet a) s
        | None => s
        end in
      (Some (SetQuiet (Quiet a) handler), s)
  end.

(** [cmCTestBuildCommand::ProcessAdditionalValues] *)
Definition Build_ProcessAdditionalValues (handler : Handler)
    (args : BuildArguments) (s : State) : State :=
  let s :=
    if negb (Str.empty (NumberErrors args)) then
      AddDefinition (NumberErrors args) (to_string (GetTotalErrors handler)) s
    else s in
  if negb (Str.empty (NumberWarnings args)) then
    AddDefinition (NumberWarnings args) (to_string (GetTotalWarnings handler)) s
  else s.

(** The build command as a handler command: [InitialPass] parses with
    the static parser and hands over to the generic dispatch. *)
Global Instance cmCTestBuildCommand : HandlerCommand BuildArguments := {
  GetName := BuildName;
  Parse := BuildParse;
  Base := HandlerArgs;
  CheckArguments := λ _ s, s;
  InitializeHandler := Build_InitializeHandler;
  ProcessAdditionalValues := Build_ProcessAdditionalValues;
}.

(** The fallback chain in the words of the specification: the first
    non-empty candidate, in priority order, else the computed default. *)
Fixpoint fallback_chain (candidates : list string) (computed : string) : string :=
  match candidates with
  | [] => computed
  | c :: rest => if Str.empty c then fallback_chain rest computed else c
  end.

Definition EffectiveConfiguration (args : BuildArguments) (s : State) : string :=
  fallback_chain [Configuration args;
                  GetSafeDefinition "CTEST_BUILD_CONFIGURATION" s;
                  GetConfigType s] "Release".
Definition EffectiveFlags (args : BuildArguments) (s : State) : string :=
  fallback_chain [Flags args] (GetSafeDefinition "CTEST_BUILD_FLAGS" s).
Definition EffectiveTarget (args : BuildArguments) (s : State) : string :=
  fallback_chain [Target args] (GetSafeDefinition "CTEST_BUILD_TARGET" s).

End Build.

End CTest.

(** ** The export command *)

Module ExportCommand.

Definition endl : string := String "010"%char "".

(** [cmPolicies::PolicyStatus] *)
Inductive PolicyStatus := OLD | WARN | NEW.

(** Modelled from the spec: the target graph belongs to the project model,
    which is not among the sources at hand; the spec gives a target a name
    and a kind (library, executable, utility, alias). *)
Inductive TargetType := LIBRARY | EXECUTABLE | UTILITY | ALIAS.

Global Instance TargetType_eq_dec : EqDecision TargetType.
Proof. solve_decision. Defined.

(** [cmExportSet::PackageDependencyExportEnabled] *)
Inductive PackageDependencyExportEnabled := Auto | Off | On.

Global Instance PackageDependencyExportEnabled_eq_dec :
  EqDecision PackageDependencyExportEnabled.
Proof. solve_decision. Defined.

(** Modelled from the spec: [cmExportSet] is not among the sources at hand;
    the spec gives a package dependency record an enabled state and an
    ordered sequence of extra arguments, duplicates preserved. *)
Record PackageDependency := mkPackageDependency {
  Enabled : PackageDependencyExportEnabled;
  ExtraArguments : list string;
}.

(** [cmExportBuildFileGenerator::TargetExport]: name and framework location. *)
Record TargetExport := mkTargetExport {
  TargetName : string;
  XcFrameworkLocation : string;
}.

(** Modelled from the spec: an export set owns its target exports and a
    mapping from package name to package dependency record. *)
Record cmExportSet := mkExportSet {
  TargetExports : list TargetExport;
  PackageDependencies : gmap string PackageDependency;
}.

(** The two generator classes the command instantiates. *)
Inductive GeneratorKind := AndroidMK | CMakeConfig.

(** What the command stores in a [cmExportBuildFileGenerator]. *)
Record cmExportBuildFileGenerator := mkGenerator {
  Kind : GeneratorKind;
  AppendMode : bool;
  GenExportOld : bool;
  GenExportPackageDependencies : bool;
  ExportFile : string;
  GenNamespace : string;
  CxxModuleDirectory : string;
  GenExportSet : option string;
  GenTargets : list TargetExport;
  Configurations : list string;
}.

(** The per-user stores the package registry is written to: the HOME
    environment variable, files and directories, and the registry hive of the
    current user (key, then value name, then data). *)
Record System := mkSystem {
  Home : option string;
  Files : gmap string string;
  Directories : gset string;
  WinRegistry : gmap string (gmap string string);
}.

(** The makefile, the global generator and the execution status, as far as
    the command touches them.  Generators are owned by the makefile
    ([Generators], in creation order); the global generator refers to them by
    position, keyed by export file name. *)
Record State := mkState {
  StatusError : string;
  Messages : list (MessageType * string);
  Definitions : gmap string string;
  CurrentBinaryDirectory : string;
  Targets : gmap string TargetType;
  CMP0103 : PolicyStatus;
  CMP0090 : PolicyStatus;
  GeneratorConfigs : list string;
  Generators : list cmExportBuildFileGenerator;
  ExportSets : gmap string cmExportSet;
  BuildExportSets : gmap string nat;
  BuildExportExportSets : gmap string nat;
  Sys : System;
}.

Definition set_StatusError (e : string) (s : State) : State :=
  mkState e (Messages s) (Definitions s) (CurrentBinaryDirectory s) (Targets s)
          (CMP0103 s) (CMP0090 s) (GeneratorConfigs s) (Generators s)
          (ExportSets s) (BuildExportSets s) (BuildExportExportSets s) (Sys s).
Definition set_Messages (m : list (MessageType * string)) (s : State) : State :=
  mkState (StatusError s) m (Definitions s) (CurrentBinaryDirectory s)
          (Targets s) (CMP0103 s) (CMP0090 s) (GeneratorConfigs s)
          (Generators s) (ExportSets s) (BuildExportSets s)
          (BuildExportExportSets s) (Sys s).
Definition set_Generators (g : list cmExportBuildFileGenerator) (s : State) : State :=
  mkState (StatusError s) (Messages s) (Definitions s)
          (CurrentBinaryDirectory s) (Targets s) (CMP0103 s) (CMP0090 s)
          (GeneratorConfigs s) g (ExportSets s) (BuildExportSets s)
          (BuildExportExportSets s) (Sys s).
Definition set_ExportSets (e : gmap string cmExportSet) (s : State) : State :=
  mkState (StatusError s) (Messages s) (Definitions s)
          (CurrentBinaryDirectory s) (Targets s) (CMP0103 s) (CMP0090 s)
          (GeneratorConfigs s) (Generators s) e (BuildExportSets s)
          (BuildExportExportSets s) (Sys s).
Definition set_BuildExportSets (b : gmap string nat) (s : State) : State :=
  mkState (StatusError s) (Messages s) (Definitions s)
          (CurrentBinaryDirectory s) (Targets s) (CMP0103 s) (CMP0090 s)
          (GeneratorConfigs s) (Generators s) (ExportSets s) b
          (BuildExportExportSets s) (Sys s).
Definition set_BuildExportExportSets (b : gmap string nat) (s : State) : State :=
  mkState (StatusError s) (Messages s) (Definitions s)
          (CurrentBinaryDirectory s) (Targets s) (CMP0103 s) (CMP0090 s)
          (GeneratorConfigs s) (Generators s) (ExportSets s)
          (BuildExportSets s) b (Sys s).
Definition set_Sys (y : System) (s : State) : State :=
  mkState (StatusError s) (Messages s) (Definitions s)
          (CurrentBinaryDirectory s) (Targets s) (CMP0103 s) (CMP0090 s)
          (GeneratorConfigs s) (Generators s) (ExportSets s)
          (BuildExportSets s) (BuildExportExportSets s) y.

Definition set_Files (f : gmap string string) (y : System) : System :=
  mkSystem (Home y) f (Directories y) (WinRegistry y).
Definition set_Directories (d : gset string) (y : System) : System :=
  mkSystem (Home y) (Files y) d (WinRegistry y).
Definition set_WinRegistry (r : gmap string (gmap string string)) (y : System) : System :=
  mkSystem (Home y) (Files y) (Directories y) r.

(** [cmExecutionStatus::SetError] *)
Definition SetError (e : string) (s : State) : State := set_StatusError e s.
(** [cmMakefile::IssueMessage], for the warnings this command issues. *)
Definition IssueMessage (t : MessageType) (text : string) (s : State) : State :=
  set_Messages (Messages s ++ [(t, text)]) s.
(** [cmMakefile::GetPolicyStatus] *)
Inductive PolicyID := CMP0090_id | CMP0103_id.
Definition GetPolicyStatus (p : PolicyID) (s : State) : PolicyStatus :=
  match p with
  | CMP0090_id => CMP0090 s
  | CMP0103_id => CMP0103 s
  end.
(** [cmMakefile::IsAlias] and [cmGlobalGenerator::FindTarget], read off the
    target kinds. *)
Definition IsAlias (name : string) (s : State) : bool :=
  bool_decide (Targets s !! name = Some ALIAS).
Definition FindTarget (name : string) (s : State) : option TargetType :=
  Targets s !! name.
(** [cmGlobalGenerator::GetExportedTargetsFile]: the generator bound to a
    file name, if any. *)
Definition GetExportedTargetsFile (fname : string) (s : State) : option nat :=
  BuildExportSets s !! fname.

(** The platform the translation unit is compiled for: the preprocessor
    selects one definition of [StorePackageRegistry]. *)
Inductive Platform := Win32 | Haiku | Posix.

(** The parsed arguments of the command (the local struct [Arguments]). *)
Record Arguments := mkArguments {
  ExportSetName : string;
  ArgTargets : option (list string);
  Namespace : string;
  Filename : string;
  AndroidMKFile : string;
  CxxModulesDirectory : string;
  Append : bool;
  ExportOld : bool;
  PackageDependencyArgs : list (list string);
  ExportPackageDependencies : bool;
  TargetArgs : list (list string);
}.

(** The local struct [PackageDependencyArguments]. *)
Record PackageDependencyArguments := mkPackageDependencyArguments {
  ArgEnabled : string;
  ExtraArgs : list string;
}.

(** The local struct [TargetArguments]. *)
Record TargetArguments := mkTargetArguments {
  ArgXcFrameworkLocation : string;
}.

(** Collaborators outside the translation unit. *)
Class Collaborators := {
  (** [cmArgumentParser::Parse] for a list of bound keywords: the bound
      values and the unknown arguments *)
  Parse : list string → list string → Arguments * list string;
  ParsePackageDependency : list string → PackageDependencyArguments * list string;
  ParseTarget : list string → TargetArguments * list string;
  (** [cmExperimental::HasSupportEnabled] for ExportPackageDependencies *)
  HasSupportEnabled : State → bool;
  (** [cmIsOn], [cmIsOff] *)
  cmIsOn : string → bool;
  cmIsOff : string → bool;
  (** [cmSystemTools] path queries and [cmMakefile::CanIWriteThisFile] *)
  GetFilenameLastExtension : string → string;
  FileIsFullPath : string → bool;
  CanIWriteThisFile : string → State → bool;
  ConvertToUnixSlashes : string → string;
  (** [cmPolicies::GetPolicyWarning(CMP0103)] *)
  PolicyWarningCMP0103 : string;
  (** the enabled state of a package dependency record on creation, and
      [cmExportSet::SetXcFrameworkLocation] *)
  DefaultEnabled : PackageDependencyExportEnabled;
  SetXcFrameworkLocation : string → string → cmExportSet → cmExportSet;
  (** [cmCryptoHash(AlgoMD5).HashString] *)
  HashString : string → string;
  (** the platform compiled for, and what the operating system answers:
      [find_directory], [RegCreateKeyExW] and [RegSetValueExW] ([None] is
      ERROR_SUCCESS), [FormatMessageW], whether a [cmGeneratedFileStream]
      opens, [GetLastSystemError] *)
  HostPlatform : Platform;
  find_directory : option string;
  RegCreateKeyExW : string → option Z;
  RegSetValueExW : string → string → string → option Z;
  FormatMessageW : Z → option string;
  CanCreateFile : string → bool;
  GetLastSystemError : string;
}.

Section Command.
Context `{Collaborators}.

(** [cmMakefile::IsOn]: the variable is defined and its value is on. *)
Definition IsOn (name : string) (s : State) : bool :=
  match Definitions s !! name with
  | Some v => cmIsOn v
  | None => false
  end.

(** *** The package registry *)

(** [ReportRegistryError] (Windows only) *)
Definition ReportRegistryError (msg key : string) (err : Z) (s : State) : State :=
  let e := msg +:+ endl +:+ "  HKEY_CURRENT_USER\" +:+ key +:+ endl in
  let e :=
    match FormatMessageW err with
    | Some winmsg => e +:+ "Windows reported:" +:+ endl +:+ "  " +:+ winmsg
    | None => e
    end in
  IssueMessage WARNING e s.

(** The key of a package in the registry hive of the user. *)
Definition RegistryKey (package : string) : string :=
  "Software\Kitware\CMake\Packages\" +:+ package.

(** [StorePackageRegistry], the definition for Windows. *)
Definition StorePackageRegistry_Win32 (package content hash : string)
    (s : State) : State :=
  let key := RegistryKey package in
  match RegCreateKeyExW key with
  | Some err => ReportRegistryError "Cannot create/open registry key" key err s
  | None =>
      let values := default ∅ (WinRegistry (Sys s) !! key) in
      let s := set_Sys (set_WinRegistry (<[key := values]> (WinRegistry (Sys s)))
                                        (Sys s)) s in
      match RegSetValueExW key hash content with
      | Some err =>
          let msg := "Cannot set registry value " +:+ Str.dquote +:+ hash
                     +:+ Str.dquote +:+ " under key" in
          ReportRegistryError msg key err s
      | None =>
          set_Sys (set_WinRegistry
                     (<[key := <[hash := content]> values]> (WinRegistry (Sys s)))
                     (Sys s)) s
      end
  end.

(** [cmSystemTools::FileExists]: a file or a directory of that name. *)
Definition FileExists (fname : string) (y : System) : bool :=
  bool_decide (is_Some (Files y !! fname)) || bool_decide (fname ∈ Directories y).
(** [cmSystemTools::MakeDirectory] *)
Definition MakeDirectory (fname : string) (y : System) : System :=
  set_Directories ({[fname]} ∪ Directories y) y.

(** The part of [StorePackageRegistry] shared by Haiku and the other
    systems, from [MakeDirectory] on; [fname] is the package directory. *)
Definition StoreEntryFile (fname content hash : string) (s : State) : State :=
  let s := set_Sys (MakeDirectory fname (Sys s)) s in
  let fname := fname +:+ "/" +:+ hash in
  if negb (FileExists fname (Sys s)) then
    if CanCreateFile fname then
      set_Sys (set_Files (<[fname := content +:+ endl]> (Files (Sys s))) (Sys s)) s
    else
      IssueMessage WARNING
        ("Cannot create package registry file:" +:+ endl +:+ "  " +:+ fname
         +:+ endl +:+ GetLastSystemError +:+ endl) s
  else s.

(** [StorePackageRegistry], the definition for the other systems. *)
Definition StorePackageRegistry_Unix (haiku : bool) (package content hash : string)
    (s : State) : State :=
  if haiku then
    match find_directory with
    | None => s
    | Some dir => StoreEntryFile (dir +:+ "/cmake/packages/" +:+ package) content hash s
    end
  else
    match Home (Sys s) with
    | None => s
    | Some home =>
        let fname := ConvertToUnixSlashes home in
        let fname := fname +:+ "/.cmake/packages/" in
        let fname := fname +:+ package in
        StoreEntryFile fname content hash s
    end.

Definition StorePackageRegistry (p : Platform) (package content hash : string)
    (s : State) : State :=
  match p with
  | Win32 => StorePackageRegistry_Win32 package content hash s
  | Haiku => StorePackageRegistry_Unix true package content hash s
  | Posix => StorePackageRegistry_Unix false package content hash s
  end.

(** *** export(PACKAGE ...) *)

Inductive Doing := DoingNone | DoingPackage.

(** The argument loop of [HandlePackage], from index 1: [inl] carries the
    text of the error with which the loop returns. *)
Fixpoint ParsePackageMode (rest : list string) (doing : Doing) (package : string)
  : string + string :=
  match rest with
  | [] => inr package
  | arg :: rest =>
      match doing with
      | DoingPackage => ParsePackageMode rest DoingNone arg
      | DoingNone => inl ("PACKAGE given unknown argument: " +:+ arg)
      end
  end.

Definition packageExpr : string := "^[A-Za-z0-9_.-]+$".

Definition in_range (lo hi : nat) (c : ascii) : bool :=
  (lo <=? nat_of_ascii c)%nat && (nat_of_ascii c <=? hi)%nat.

(** A character of the class [[A-Za-z0-9_.-]]. *)
Definition package_char (c : ascii) : bool :=
  in_range 65 90 c || in_range 97 122 c || in_range 48 57 c ||
  bool_decide (c = "_"%char) || bool_decide (c = "."%char) ||
  bool_decide (c = "-"%char).

Fixpoint all_chars (p : ascii → bool) (s : string) : bool :=
  match s with
  | EmptyString => true
  | String c s' => p c && all_chars p s'
  end.

(** [packageRegex.find(package)] for the expression [packageExpr]: one or
    more characters of the class, from the first to the last. *)
Definition packageRegex_find (package : string) : bool :=
  negb (Str.empty package) && all_chars package_char package.

(** The error text for a name that does not match. *)
Definition InvalidPackageName (package : string) : string :=
  "PACKAGE given invalid package name " +:+ Str.dquote +:+ package
  +:+ Str.dquote +:+ ".  " +:+ "Package names must match " +:+ Str.dquote
  +:+ packageExpr +:+ Str.dquote +:+ ".".

(** [HandlePackage] *)
Definition HandlePackage (args : list string) (s : State) : bool * State :=
  match ParsePackageMode (tail args) DoingPackage "" with
  | inl e => (false, SetError e s)
  | inr package =>
      if Str.empty package then
        (false, SetError "PACKAGE must be given a package name." s)
      else if negb (packageRegex_find package) then
        (false, SetError (InvalidPackageName package) s)
      else
        let store :=
          let outDir := CurrentBinaryDirectory s in
          let hash := HashString outDir in
          (true, StorePackageRegistry HostPlatform package outDir hash s) in
        match GetPolicyStatus CMP0090_id s with
        | WARN | OLD =>
            if IsOn "CMAKE_EXPORT_NO_PACKAGE_REGISTRY" s then (true, s)
            else store
        | NEW =>
            if negb (IsOn "CMAKE_EXPORT_PACKAGE_REGISTRY" s) then (true, s)
            else store
        end
  end.

(** *** export(SETUP ...) *)

(** Modelled from the spec: [cmExportSet::GetPackageDependencyForSetup]
    returns the record of the package or creates it; the sources at hand fix
    neither the initial enabled state ([DefaultEnabled]) nor more than that a
    record starts without extra arguments. *)
Definition GetPackageDependencyForSetup (name : string) (e : cmExportSet) : cmExportSet :=
  match PackageDependencies e !! name with
  | Some _ => e
  | None =>
      mkExportSet (TargetExports e)
        (<[name := mkPackageDependency DefaultEnabled []]> (PackageDependencies e))
  end.

(** Assignments through the reference [packageDependency]. *)
Definition SetEnabled (name : string) (v : PackageDependencyExportEnabled)
    (e : cmExportSet) : cmExportSet :=
  mkExportSet (TargetExports e)
    (alter (λ d, mkPackageDependency v (ExtraArguments d)) name
           (PackageDependencies e)).
Definition AppendExtraArguments (name : string) (extra : list string)
    (e : cmExportSet) : cmExportSet :=
  mkExportSet (TargetExports e)
    (alter (λ d, mkPackageDependency (Enabled d) (ExtraArguments d ++ extra))
           name (PackageDependencies e)).

Definition UnknownArgument (u : string) : string :=
  "Unknown argument: " +:+ Str.dquote +:+ u +:+ Str.dquote +:+ ".".

Definition InvalidEnableSetting (v : string) : string :=
  "Invalid enable setting for package dependency: " +:+ Str.dquote +:+ v
  +:+ Str.dquote.

(** One turn of the loop over [arguments.PackageDependencyArgs]: [Some e] is
    [SetError(e); return false], with the export set as the turn left it. *)
Definition SetupPackageDependency (packageDependencyArgs : list string)
    (exportSet : cmExportSet) : option string * cmExportSet :=
  match packageDependencyArgs with
  | [] => (None, exportSet)
  | front :: rest =>
      let '(packageDependencyArguments, unknownArgs) :=
        ParsePackageDependency rest in
      match unknownArgs with
      | u :: _ => (Some (UnknownArgument u), exportSet)
      | [] =>
          let exportSet := GetPackageDependencyForSetup front exportSet in
          let enabled := ArgEnabled packageDependencyArguments in
          let assigned : string + cmExportSet :=
            if negb (Str.empty enabled) then
              if bool_decide (enabled = "AUTO") then
                inr (SetEnabled front Auto exportSet)
              else if cmIsOff enabled then inr (SetEnabled front Off exportSet)
              else if cmIsOn enabled then inr (SetEnabled front On exportSet)
              else inl (InvalidEnableSetting enabled)
            else inr exportSet in
          match assigned with
          | inl e => (Some e, exportSet)
          | inr exportSet =>
              (None,
               AppendExtraArguments front (ExtraArgs packageDependencyArguments)
                                    exportSet)
          end
      end
  end.

Fixpoint SetupPackageDependencies (groups : list (list string))
    (exportSet : cmExportSet) : option string * cmExportSet :=
  match groups with
  | [] => (None, exportSet)
  | packageDependencyArgs :: groups =>
      match SetupPackageDependency packageDependencyArgs exportSet with
      | (Some e, exportSet) => (Some e, exportSet)
      | (None, exportSet) => SetupPackageDependencies groups exportSet
      end
  end.

(** The loop over [arguments.TargetArgs]. *)
Fixpoint SetupTargets (groups : list (list string)) (exportSet : cmExportSet)
  : option string * cmExportSet :=
  match groups with
  | [] => (None, exportSet)
  | targetArgs :: groups =>
      match targetArgs with
      | [] => SetupTargets groups exportSet
      | front :: rest =>
          let '(targetArguments, unknownArgs) := ParseTarget rest in
          match unknownArgs with
          | u :: _ => (Some (UnknownArgument u), exportSet)
          | [] =>
              SetupTargets groups
                (SetXcFrameworkLocation front
                   (ArgXcFrameworkLocation targetArguments) exportSet)
          end
      end
  end.

(** The branch [args[0] == SETUP]; [setMap[name]] creates an empty export
    set when there is none, and every assignment goes through to the map. *)
Definition HandleSetup (arguments : Arguments) (s : State) : bool * State :=
  let name := ExportSetName arguments in
  let exportSet := default (mkExportSet [] ∅) (ExportSets s !! name) in
  let store e s := set_ExportSets (<[name := e]> (ExportSets s)) s in
  match SetupPackageDependencies (PackageDependencyArgs arguments) exportSet with
  | (Some e, exportSet) => (false, SetError e (store exportSet s))
  | (None, exportSet) =>
      match SetupTargets (TargetArgs arguments) exportSet with
      | (Some e, exportSet) => (false, SetError e (store exportSet s))
      | (None, exportSet) => (true, store exportSet s)
      end
  end.

(** *** export(TARGETS ...) and export(EXPORT ...) *)

(** The keywords bound before parsing, by the first argument. *)
Definition BoundKeywords (args0 : string) (s : State) : list string :=
  ["NAMESPACE"; "FILE"; "CXX_MODULES_DIRECTORY"] ++
  (if bool_decide (args0 = "EXPORT") then
     ["EXPORT"] ++
     (if HasSupportEnabled s then ["EXPORT_PACKAGE_DEPENDENCIES"] else [])
   else if bool_decide (args0 = "SETUP") then
     ["SETUP"] ++
     (if HasSupportEnabled s then ["PACKAGE_DEPENDENCY"] else []) ++
     ["TARGET"]
   else ["TARGETS"; "ANDROID_MK"; "APPEND"; "EXPORT_LINK_INTERFACE_LIBRARIES"]).

(** Lines 203-243: the file to write and whether it is an Android makefile;
    [inl] carries the error text. *)
Definition ResolveFile (args0 : string) (arguments : Arguments) (s : State)
  : string + string * bool :=
  let '(fname, android) :=
    if negb (Str.empty (AndroidMKFile arguments))
    then (AndroidMKFile arguments, true) else ("", false) in
  let named : string + string :=
    if Str.empty (Filename arguments) && Str.empty fname then
      if negb (bool_decide (args0 = "EXPORT")) then
        inl "FILE <filename> option missing."
      else inr (ExportSetName arguments +:+ ".cmake")
    else if Str.empty fname then
      if negb (bool_decide
                 (GetFilenameLastExtension (Filename arguments) = ".cmake")) then
        inl ("FILE option given filename " +:+ Str.dquote +:+ Filename arguments
             +:+ Str.dquote +:+ " which does not have an extension of "
             +:+ Str.dquote +:+ ".cmake" +:+ Str.dquote +:+ "." +:+ endl)
      else inr (Filename arguments)
    else inr fname in
  match named with
  | inl e => inl e
  | inr fname =>
      if FileIsFullPath fname then
        if negb (CanIWriteThisFile fname s) then
          inl ("FILE option given filename " +:+ Str.dquote +:+ fname
               +:+ Str.dquote +:+ " which is in the source tree." +:+ endl)
        else inr (fname, android)
      else
        let dir := CurrentBinaryDirectory s in
        inr (dir +:+ "/" +:+ fname, android)
  end.

Definition AliasNotExportable (t : string) : string :=
  "given ALIAS target " +:+ Str.dquote +:+ t +:+ Str.dquote
  +:+ " which may not be exported.".
Definition CustomTargetNotExportable (t : string) : string :=
  "given custom target " +:+ Str.dquote +:+ t +:+ Str.dquote
  +:+ " which may not be exported.".
Definition NotBuiltByThisProject (t : string) : string :=
  "given target " +:+ Str.dquote +:+ t +:+ Str.dquote
  +:+ " which is not built by this project.".

(** Lines 261-284: the loop over the listed targets, with the export list
    built so far; [inl] carries the error text. *)
Fixpoint CollectTargets (names : list string) (targets : list TargetExport)
    (s : State) : string + list TargetExport :=
  match names with
  | [] => inr targets
  | currentTarget :: names =>
      if IsAlias currentTarget s then inl (AliasNotExportable currentTarget)
      else
        match FindTarget currentTarget s with
        | Some type =>
            if bool_decide (type = UTILITY) then
              inl (CustomTargetNotExportable currentTarget)
            else
              CollectTargets names
                (targets ++ [mkTargetExport currentTarget ""]) s
        | None => inl (NotBuiltByThisProject currentTarget)
        end
  end.

(** Modelled from the spec: [cmExportBuildFileGenerator::AppendTargets]
    merges the new targets into the list of the generator, once per target
    name. *)
Definition AppendTargets (new : list TargetExport)
    (g : cmExportBuildFileGenerator) : cmExportBuildFileGenerator :=
  let merged :=
    fold_left
      (λ acc t,
         if bool_decide (TargetName t ∈ TargetName <$> acc) then acc
         else acc ++ [t])
      new (GenTargets g) in
  mkGenerator (Kind g) (AppendMode g) (GenExportOld g)
              (GenExportPackageDependencies g) (ExportFile g) (GenNamespace g)
              (CxxModuleDirectory g) (GenExportSet g) merged (Configurations g).

(** A command that has not returned yet carries on with a value. *)
Inductive Early (A : Type) :=
| Proceed (a : A)
| Return (result : bool) (s : State).
Global Arguments Proceed {A} a.
Global Arguments Return {A} result s.

(** Lines 245-295: the export set or the explicit targets. *)
Definition GatherExports (args0 : string) (arguments : Arguments)
    (fname : string) (s : State) : Early (option string * list TargetExport) :=
  if bool_decide (args0 = "EXPORT") then
    match ExportSets s !! ExportSetName arguments with
    | None =>
        Return false
          (SetError ("Export set " +:+ Str.dquote +:+ ExportSetName arguments
                     +:+ Str.dquote +:+ " not found.") s)
    | Some _ => Proceed (Some (ExportSetName arguments), [])
    end
  else
    match ArgTargets arguments with
    | Some names =>
        match CollectTargets names [] s with
        | inl e => Return false (SetError e s)
        | inr targets =>
            let appended :=
              if Append arguments then
                match GetExportedTargetsFile fname s with
                | Some ebfg =>
                    Some (set_Generators
                            (alter (AppendTargets targets) ebfg (Generators s)) s)
                | None => None
                end
              else None in
            match appended with
            | Some s => Return true s
            | None => Proceed (None, targets)
            end
        end
    | None => Return false (SetError "EXPORT or TARGETS specifier missing." s)
    end.

Definition AlreadySpecified (filename : string) : string :=
  "command already specified for the file" +:+ endl +:+ "  " +:+ filename
  +:+ endl +:+ "Did you miss 'APPEND' keyword?".

Definition AlreadySpecifiedWarning (filename : string) : string :=
  PolicyWarningCMP0103 +:+ endl +:+
  "export() command already specified for the file" +:+ endl
  +:+ "  " +:+ filename +:+ endl +:+ "Did you miss 'APPEND' keyword?".

(** Lines 297-355: the check against a generator already bound to the file
    (the default label of the switch is the status NEW), then the new
    generator, owned by the makefile and registered under the file name. *)
Definition BindFileGenerator (arguments : Arguments) (fname : string)
    (android : bool) (exportSet : option string) (targets : list TargetExport)
    (s : State) : bool * State :=
  let checked : string + State :=
    match GetExportedTargetsFile fname s with
    | Some _ =>
        match GetPolicyStatus CMP0103_id s with
        | WARN =>
            inr (IssueMessage AUTHOR_WARNING
                   (AlreadySpecifiedWarning (Filename arguments)) s)
        | OLD => inr s
        | NEW => inl (AlreadySpecified (Filename arguments))
        end
    | None => inr s
    end in
  match checked with
  | inl e => (false, SetError e s)
  | inr s =>
      let listed :=
        match exportSet with
        | Some _ => []
        | None => targets
        end in
      let ebfg :=
        if android then
          mkGenerator AndroidMK (Append arguments) false false fname
                      (Namespace arguments) (CxxModulesDirectory arguments)
                      exportSet listed (GeneratorConfigs s)
        else
          mkGenerator CMakeConfig (Append arguments) (ExportOld arguments)
                      (ExportPackageDependencies arguments) fname
                      (Namespace arguments) (CxxModulesDirectory arguments)
                      exportSet listed (GeneratorConfigs s) in
      let index := length (Generators s) in
      let s := set_BuildExportSets (<[fname := index]> (BuildExportSets s)) s in
      let s :=
        match exportSet with
        | Some _ =>
            set_BuildExportExportSets
              (<[fname := index]> (BuildExportExportSets s)) s
        | None => s
        end in
      (true, set_Generators (Generators s ++ [ebfg]) s)
  end.

(** [cmExportCommand] *)
Definition cmExportCommand (args : list string) (s : State) : bool * State :=
  match args with
  | args0 :: _ :: _ =>
      if bool_decide (args0 = "PACKAGE") then HandlePackage args s
      else
        let '(arguments, unknownArgs) := Parse (BoundKeywords args0 s) args in
        match unknownArgs with
        | u :: _ => (false, SetError (UnknownArgument u) s)
        | [] =>
            if bool_decide (args0 = "SETUP") then HandleSetup arguments s
            else
              match ResolveFile args0 arguments s with
              | inl e => (false, SetError e s)
              | inr (fname, android) =>
                  match GatherExports args0 arguments fname s with
                  | Return result s => (result, s)
                  | Proceed (exportSet, targets) =>
                      BindFileGenerator arguments fname android exportSet
                                        targets s
                  end
              end
        end
  | _ => (false, SetError "called with too few arguments" s)
  end.

(** *** Notions of the specification *)

(** The directory of the entries of a package on the file-system backends,
    as the specification gives it: the packages directory of the user, then
    the package; an entry is the file named by the digest in it. *)
Definition EntryDirectory (p : Platform) (package : string) (s : State)
  : option string :=
  match p with
  | Win32 => None
  | Haiku => (λ dir, dir +:+ "/cmake/packages/" +:+ package) <$> find_directory
  | Posix =>
      (λ home, (ConvertToUnixSlashes home +:+ "/.cmake/packages/") +:+ package)
        <$> Home (Sys s)
  end.
(** A target that may be exported: a library or an executable of the
    project. *)
Definition ordinary (s : State) (t : string) : bool :=
  match Targets s !! t with
  | Some LIBRARY | Some EXECUTABLE => true
  | _ => false
  end.

(** The error a listed target is refused with. *)
Definition TargetError (s : State) (t : string) : string :=
  match Targets s !! t with
  | Some ALIAS => AliasNotExportable t
  | Some UTILITY => CustomTargetNotExportable t
  | _ => NotBuiltByThisProject t
  end.

Definition exported (t : string) : TargetExport := mkTargetExport t "".

(** The record of a package as [GetPackageDependencyForSetup] hands it out. *)
Definition RecordFor (front : string) (e : cmExportSet) : PackageDependency :=
  default (mkPackageDependency DefaultEnabled []) (PackageDependencies e !! front).

(** The export set with the record of [front] replaced. *)
Definition WithRecord (front : string) (d : PackageDependency) (e : cmExportSet)
  : cmExportSet :=
  mkExportSet (TargetExports e) (<[front := d]> (PackageDependencies e)).

End Command.

End ExportCommand.

(** ** Sample collaborators

    Concrete collaborators on which the theorems are instantiated: a small
    keyword parser for the arguments every handler command binds, a handler
    that succeeds without doing anything, and a file system in which only the
    empty directory name cannot be entered. *)

Module Sample.
Import CTest.

Definition no_arguments : HandlerArguments :=
  mkHandlerArguments [] false false "" "" "" "" "".

Definition seen (k : string) (a : HandlerArguments) : HandlerArguments :=
  mkHandlerArguments (ParsedKeywords a ++ [k]) (Append a) (Quiet a)
    (ReturnValue a) (CaptureCMakeError a) (Source a) (Build a) (SubmitIndex a).

(** Binds one value keyword; [None] when [k] is not a value keyword. *)
Definition bind_value (k v : string) (a : HandlerArguments) : option HandlerArguments :=
  if bool_decide (k = "RETURN_VALUE") then
    Some (mkHandlerArguments (ParsedKeywords a) (Append a) (Quiet a) v
            (CaptureCMakeError a) (Source a) (Build a) (SubmitIndex a))
  else if bool_decide (k = "CAPTURE_CMAKE_ERROR") then
    Some (mkHandlerArguments (ParsedKeywords a) (Append a) (Quiet a)
            (ReturnValue a) v (Source a) (Build a) (SubmitIndex a))
  else if bool_decide (k = "SOURCE") then
    Some (mkHandlerArguments (ParsedKeywords a) (Append a) (Quiet a)
            (ReturnValue a) (CaptureCMakeError a) v (Build a) (SubmitIndex a))
  else if bool_decide (k = "BUILD") then
    Some (mkHandlerArguments (ParsedKeywords a) (Append a) (Quiet a)
            (ReturnValue a) (CaptureCMakeError a) (Source a) v (SubmitIndex a))
  else if bool_decide (k = "SUBMIT_INDEX") then
    Some (mkHandlerArguments (ParsedKeywords a) (Append a) (Quiet a)
            (ReturnValue a) (CaptureCMakeError a) (Source a) (Build a) v)
  else None.

(** Keywords with one value, the two flags, and everything else unparsed. *)
Fixpoint parse (tokens : list string) (a : HandlerArguments)
    (unparsed : list string) : HandlerArguments * list string :=
  match tokens with
  | [] => (a, unparsed)
  | k :: rest =>
      if bool_decide (k = "APPEND") then
        parse rest
          (seen k (mkHandlerArguments (ParsedKeywords a) true (Quiet a)
                     (ReturnValue a) (CaptureCMakeError a) (Source a)
                     (Build a) (SubmitIndex a))) unparsed
      else if bool_decide (k = "QUIET") then
        parse rest
          (seen k (mkHandlerArguments (ParsedKeywords a) (Append a) true
                     (ReturnValue a) (CaptureCMakeError a) (Source a)
                     (Build a) (SubmitIndex a))) unparsed
      else
        match rest with
        | v :: rest' =>
            match bind_value k v a with
            | Some a' => parse rest' (seen k a') unparsed
            | None => parse rest a (unparsed ++ [k])
            end
        | [] => (a, unparsed ++ [k])
        end
  end.

Global Instance collaborators : Collaborators := {
  CollapseFullPath := λ p, p;
  ChangeDirectory := λ dir _,
    if Str.empty dir then Some "Failed to change working directory" else None;
  atoi := λ _, 0;
  Handler := unit;
  SetAppendXML := λ _ h, h;
  PopulateCustomVectors := λ _ h, h;
  SetSubmitIndex := λ _ h, h;
  ProcessHandler := λ h s, (0, h, s);
}.

(** A handler command without arguments of its own. *)
Global Instance command : HandlerCommand HandlerArguments := {
  GetName := "ctest_sample";
  Parse := λ arguments, parse arguments no_arguments [];
  Base := λ a, a;
  CheckArguments := λ _ s, s;
  InitializeHandler := λ _ s, (Some tt, s);
  ProcessAdditionalValues := λ _ _ s, s;
}.

Definition echo_generator : cmGlobalGenerator :=
  mkGenerator (λ target config parallel flags ignore,
                 "build " +:+ target +:+ " " +:+ config +:+ " " +:+ flags).

Definition build_parse (tokens : list string) : BuildArguments * list string :=
  let '(a, unparsed) := parse tokens no_arguments [] in
  (mkBuildArguments a "" "" "" "" "" "" "", unparsed).

Global Instance build_collaborators : BuildCollaborators := {
  BuildName := "ctest_build";
  BuildParse := build_parse;
  NewBuildHandler := tt;
  SetQuiet := λ _ h, h;
  GetTotalErrors := λ _, 0;
  GetTotalWarnings := λ _, 0;
  CreateGlobalGenerator := λ name,
    if bool_decide (name = "Unix Makefiles") then Some echo_generator else None;
  IgnoreErrorsCMP0061 := λ _, false;
}.

Definition clean : State := mkState false ∅ "" [] [] "" ∅ None "/".

End Sample.

(** ** Sample collaborators for the export command

    A small keyword parser, a file system in which every file can be
    created and absolute paths below /src belong to the source tree, and a
    project with a library, an executable, a custom target and an alias. *)

Module ExportSample.
Import ExportCommand.

Definition no_arguments : Arguments :=
  mkArguments "" None "" "" "" "" false false [] false [].

(** Gives the value [v] to the single-value keyword [k]. *)
Definition bind_value (k v : string) (a : Arguments) : option Arguments :=
  if bool_decide (k = "EXPORT") || bool_decide (k = "SETUP") then
    Some (mkArguments v (ArgTargets a) (Namespace a) (Filename a)
            (AndroidMKFile a) (CxxModulesDirectory a) (Append a) (ExportOld a)
            (PackageDependencyArgs a) (ExportPackageDependencies a)
            (TargetArgs a))
  else if bool_decide (k = "NAMESPACE") then
    Some (mkArguments (ExportSetName a) (ArgTargets a) v (Filename a)
            (AndroidMKFile a) (CxxModulesDirectory a) (Append a) (ExportOld a)
            (PackageDependencyArgs a) (ExportPackageDependencies a)
            (TargetArgs a))
  else if bool_decide (k = "FILE") then
    Some (mkArguments (ExportSetName a) (ArgTargets a) (Namespace a) v
            (AndroidMKFile a) (CxxModulesDirectory a) (Append a) (ExportOld a)
            (PackageDependencyArgs a) (ExportPackageDependencies a)
            (TargetArgs a))
  else if bool_decide (k = "ANDROID_MK") then
    Some (mkArguments (ExportSetName a) (ArgTargets a) (Namespace a)
            (Filename a) v (CxxModulesDirectory a) (Append a) (ExportOld a)
            (PackageDependencyArgs a) (ExportPackageDependencies a)
            (TargetArgs a))
  else if bool_decide (k = "CXX_MODULES_DIRECTORY") then
    Some (mkArguments (ExportSetName a) (ArgTargets a) (Namespace a)
            (Filename a) (AndroidMKFile a) v (Append a) (ExportOld a)
            (PackageDependencyArgs a) (ExportPackageDependencies a)
            (TargetArgs a))
  else None.

(** Adds [v] to the list the keyword [k] collects. *)
Definition push_value (k v : string) (a : Arguments) : option Arguments :=
  if bool_decide (k = "TARGETS") then
    Some (mkArguments (ExportSetName a) (Some (default [] (ArgTargets a) ++ [v]))
            (Namespace a) (Filename a) (AndroidMKFile a)
            (CxxModulesDirectory a) (Append a) (ExportOld a)
            (PackageDependencyArgs a) (ExportPackageDependencies a)
            (TargetArgs a))
  else if bool_decide (k = "PACKAGE_DEPENDENCY") then
    Some (mkArguments (ExportSetName a) (ArgTargets a) (Namespace a)
            (Filename a) (AndroidMKFile a) (CxxModulesDirectory a) (Append a)
            (ExportOld a)
            (match reverse (PackageDependencyArgs a) with
             | g :: gs => reverse ((g ++ [v]) :: gs)
             | [] => [[v]]
             end)
            (ExportPackageDependencies a) (TargetArgs a))
  else None.

(** What seeing the keyword [k] itself binds. *)
Definition open_keyword (k : string) (a : Arguments) : Arguments :=
  if bool_decide (k = "TARGETS") then
    mkArguments (ExportSetName a) (Some (default [] (ArgTargets a)))
      (Namespace a) (Filename a) (AndroidMKFile a) (CxxModulesDirectory a)
      (Append a) (ExportOld a) (PackageDependencyArgs a)
      (ExportPackageDependencies a) (TargetArgs a)
  else if bool_decide (k = "APPEND") then
    mkArguments (ExportSetName a) (ArgTargets a) (Namespace a) (Filename a)
      (AndroidMKFile a) (CxxModulesDirectory a) true (ExportOld a)
      (PackageDependencyArgs a) (ExportPackageDependencies a) (TargetArgs a)
  else if bool_decide (k = "PACKAGE_DEPENDENCY") then
    mkArguments (ExportSetName a) (ArgTargets a) (Namespace a) (Filename a)
      (AndroidMKFile a) (CxxModulesDirectory a) (Append a) (ExportOld a)
      (PackageDependencyArgs a ++ [[]]) (ExportPackageDependencies a)
      (TargetArgs a)
  else a.

Fixpoint parse (keywords tokens : list string) (current : string)
    (a : Arguments) (unknown : list string) : Arguments * list string :=
  match tokens with
  | [] => (a, unknown)
  | t :: rest =>
      if bool_decide (t ∈ keywords) then
        parse keywords rest t (open_keyword t a) unknown
      else
        match bind_value current t a with
        | Some a' => parse keywords rest "" a' unknown
        | None =>
            match push_value current t a with
            | Some a' => parse keywords rest current a' unknown
            | None => parse keywords rest current a (unknown ++ [t])
            end
        end
  end.

(** ENABLED takes one value, EXTRA_ARGS collects what follows. *)
Fixpoint parse_dependency (tokens : list string) (current : string)
    (a : PackageDependencyArguments) (unknown : list string)
  : PackageDependencyArguments * list string :=
  match tokens with
  | [] => (a, unknown)
  | t :: rest =>
      if bool_decide (t = "ENABLED") || bool_decide (t = "EXTRA_ARGS") then
        parse_dependency rest t a unknown
      else if bool_decide (current = "ENABLED") then
        parse_dependency rest "" (mkPackageDependencyArguments t (ExtraArgs a))
                         unknown
      else if bool_decide (current = "EXTRA_ARGS") then
        parse_dependency rest current
          (mkPackageDependencyArguments (ArgEnabled a) (ExtraArgs a ++ [t]))
          unknown
      else parse_dependency rest current a (unknown ++ [t])
  end.

Definition parse_target (tokens : list string) : TargetArguments * list string :=
  match tokens with
  | [] => (mkTargetArguments "", [])
  | k :: rest =>
      if bool_decide (k = "XCFRAMEWORK_LOCATION") then
        match rest with
        | [v] => (mkTargetArguments v, [])
        | _ => (mkTargetArguments "", drop 1 rest)
        end
      else (mkTargetArguments "", [k])
  end.

(** The text from the last dot on, empty without a dot. *)
Fixpoint last_extension (s : string) : string :=
  match s with
  | EmptyString => ""
  | String c r =>
      let e := last_extension r in
      if negb (Str.empty e) then e
      else if bool_decide (c = "."%char) then s else ""
  end.

Global Instance collaborators : Collaborators := {
  Parse := λ keywords tokens, parse keywords tokens "" no_arguments [];
  ParsePackageDependency := λ tokens,
    parse_dependency tokens "" (mkPackageDependencyArguments "" []) [];
  ParseTarget := parse_target;
  HasSupportEnabled := λ _, true;
  cmIsOn := λ v, bool_decide (v ∈ ["1"; "ON"; "YES"; "TRUE"; "Y"]);
  cmIsOff := λ v,
    bool_decide (v ∈ [""; "0"; "OFF"; "NO"; "FALSE"; "N"; "IGNORE"; "NOTFOUND"]);
  GetFilenameLastExtension := last_extension;
  FileIsFullPath := Str.starts_with "/";
  CanIWriteThisFile := λ f _, negb (Str.starts_with "/src/" f);
  ConvertToUnixSlashes := λ p, p;
  PolicyWarningCMP0103 := "Policy CMP0103 is not set.";
  DefaultEnabled := Auto;
  SetXcFrameworkLocation := λ name location e,
    mkExportSet
      ((λ te, if bool_decide (TargetName te = name)
              then mkTargetExport name location else te) <$> TargetExports e)
      (PackageDependencies e);
  HashString := String.rev;
  HostPlatform := Posix;
  find_directory := Some "/boot/home/config/settings";
  RegCreateKeyExW := λ _, None;
  RegSetValueExW := λ _ _ _, None;
  FormatMessageW := λ _, None;
  CanCreateFile := λ _, true;
  GetLastSystemError := "";
}.

Definition home : System := mkSystem (Some "/home/u") ∅ ∅ ∅.

(** A project with four targets and nothing exported yet. *)
Definition project : State :=
  mkState "" [] ∅ "/build"
    {["mylib" := LIBRARY; "app" := EXECUTABLE; "docs" := UTILITY;
      "my::lib" := ALIAS]}
    NEW NEW [""] [] ∅ ∅ ∅ home.

Definition with_CMP0103 (p : PolicyStatus) (s : State) : State :=
  mkState (StatusError s) (Messages s) (Definitions s)
          (CurrentBinaryDirectory s) (Targets s) p (CMP0090 s)
          (GeneratorConfigs s) (Generators s) (ExportSets s)
          (BuildExportSets s) (BuildExportExportSets s) (Sys s).
Definition with_CMP0090 (p : PolicyStatus) (s : State) : State :=
  mkState (StatusError s) (Messages s) (Definitions s)
          (CurrentBinaryDirectory s) (Targets s) (CMP0103 s) p
          (GeneratorConfigs s) (Generators s) (ExportSets s)
          (BuildExportSets s) (BuildExportExportSets s) (Sys s).
Definition with_Definitions (d : gmap string string) (s : State) : State :=
  mkState (StatusError s) (Messages s) d
          (CurrentBinaryDirectory s) (Targets s) (CMP0103 s) (CMP0090 s)
          (GeneratorConfigs s) (Generators s) (ExportSets s)
          (BuildExportSets s) (BuildExportExportSets s) (Sys s).

End ExportSample.

(** ** The defaults of the handler command *)

Module HandlerDefaults.
Import CTest.

Section Defaults.
Context `{Collaborators}.

(** [cmCTestHandlerCommand::CheckArguments]: nothing is checked. *)
Definition CheckArguments_default (s : State) : State := s.

(** [cmCTestHandlerCommand::InitializeHandler]: [nullptr]. *)
Definition InitializeHandler_default (s : State) : option Handler * State :=
  (None, s).

(** [cmCTestHandlerCommand::ProcessAdditionalValues]: nothing is written. *)
Definition ProcessAdditionalValues_default (handler : Handler) (s : State) : State := s.

(** A command that overrides none of the three hooks; its name and its
    parser come from the subclass. *)
Definition plain_command (name : string)
    (parse : list string → HandlerArguments * list string)
  : HandlerCommand HandlerArguments :=
  {| GetName := name;
     Parse := parse;
     Base := λ a, a;
     CheckArguments := λ _, CheckArguments_default;
     InitializeHandler := λ _, InitializeHandler_default;
     ProcessAdditionalValues := λ handler _, ProcessAdditionalValues_default handler |}.

(** Lines 187-192 of [InitialPass]: what the handler is told before it is
    processed. *)
Definition PreparedHandler (a : HandlerArguments) (s : State)
    (handler : Handler) : Handler :=
  let handler := SetAppendXML (Append a) handler in
  let handler := PopulateCustomVectors s handler in
  if negb (Str.empty (SubmitIndex a)) then
    SetSubmitIndex (atoi (SubmitIndex a)) handler
  else handler.

End Defaults.

End HandlerDefaults.

(** ** Further notions for the export command *)

Module ExportNotions.
Import ExportCommand.

(** Every file name bound in the global generator refers to a generator the
    makefile owns, and that generator writes this file; a binding of an
    export set refers to a generator of an export set. *)
Definition BindingsWellFormed (s : State) : Prop :=
  (∀ f i, BuildExportSets s !! f = Some i →
          ∃ g, Generators s !! i = Some g ∧ ExportFile g = f) ∧
  (∀ f i, BuildExportExportSets s !! f = Some i →
          ∃ g, Generators s !! i = Some g ∧ ExportFile g = f ∧
               is_Some (GenExportSet g)).

(** The generators of [s] are still there in [s'], each at its index, for
    its file, of its kind and for its export set. *)
Definition GeneratorsKept (s s' : State) : Prop :=
  ∀ i g, Generators s !! i = Some g →
         ∃ g', Generators s' !! i = Some g' ∧ ExportFile g' = ExportFile g ∧
               Kind g' = Kind g ∧ GenExportSet g' = GenExportSet g.

Section Notions.
Context `{Collaborators}.

(** The extra arguments the groups of a SETUP call give for one package, in
    the order of the groups. *)
Fixpoint ExtraFor (package : string) (groups : list (list string)) : list string :=
  match groups with
  | [] => []
  | [] :: groups => ExtraFor package groups
  | (front :: rest) :: groups =>
      (if bool_decide (front = package)
       then ExtraArgs (ParsePackageDependency rest).1 else [])
      ++ ExtraFor package groups
  end.

End Notions.

End ExportNotions.

(** * Facts about the embedding *)

Module StrFacts.
Import Str.

Lemma empty_true s : empty s = true ↔ s = "".
Proof. unfold empty. by rewrite bool_decide_eq_true. Qed.

Lemma empty_false s : empty s = false ↔ s ≠ "".
Proof. unfold empty. by rewrite bool_decide_eq_false. Qed.

Lemma starts_with_app p s : starts_with p (p +:+ s) = true.
Proof.
  induction p as [|a p IH]; [done|].
  change (String a p +:+ s) with (String a (p +:+ s)). cbn [starts_with].
  rewrite bool_decide_eq_true_2 by done. exact IH.
Qed.

Lemma contains_prefix p s : contains p (p +:+ s) = true.
Proof.
  destruct (p +:+ s) as [|b r] eqn:E; cbn [contains];
    rewrite <- E, starts_with_app; done.
Qed.

Lemma contains_app_r a s c :
  contains c s = true → contains c (a +:+ s) = true.
Proof.
  intros Hc. induction a as [|x a IH]; [exact Hc|].
  change (String x a +:+ s) with (String x (a +:+ s)).
  cbn [contains]. rewrite IH. apply orb_true_r.
Qed.

End StrFacts.

(** ** Sorting the seen keywords and looking for equal neighbours *)

Module KeywordFacts.
Import Keywords.

Lemma occurrences_cons k x l :
  occurrences k (x :: l) =
  ((if decide (x = k) then 1 else 0) + occurrences k l)%nat.
Proof.
  unfold occurrences. rewrite filter_cons. by destruct (decide (x = k)).
Qed.

Lemma occurrences_perm k l1 l2 :
  l1 ≡ₚ l2 → occurrences k l1 = occurrences k l2.
Proof. unfold occurrences. by intros ->. Qed.

Lemma occurrences_pos k l : (0 < occurrences k l)%nat ↔ k ∈ l.
Proof.
  induction l as [|x l IH]; [rewrite elem_of_nil; cbn; lia|].
  rewrite occurrences_cons, elem_of_cons.
  destruct (decide (x = k)) as [->|Hne]; [intuition lia|].
  rewrite <- IH. intuition (congruence || lia).
Qed.

Lemma occurrences_NoDup l :
  NoDup l ↔ ∀ k, (occurrences k l ≤ 1)%nat.
Proof.
  induction l as [|x l IH].
  - split; [intros _ k; cbn; lia | intros _; constructor].
  - rewrite NoDup_cons, IH. split.
    + intros [Hx Hl] k. rewrite occurrences_cons.
      destruct (decide (x = k)) as [->|]; [|apply Hl].
      destruct (decide (0 < occurrences k l)%nat) as [Hp|]; [|lia].
      by apply occurrences_pos in Hp.
    + intros H. split.
      * intros Hx%occurrences_pos. specialize (H x).
        rewrite occurrences_cons, decide_True in H by done. lia.
      * intros k. specialize (H k). rewrite occurrences_cons in H. lia.
Qed.

(** A hit of [adjacent_find] is a keyword that occurs at least twice. *)
Lemma adjacent_find_Some l k :
  adjacent_find l = Some k → (2 ≤ occurrences k l)%nat.
Proof.
  induction l as [|x [|y t] IH]; cbn [adjacent_find]; try done.
  destruct (decide (x = y)) as [->|Hne].
  - intros [= ->]. rewrite !occurrences_cons, !decide_True by done. lia.
  - intros H%IH. rewrite (occurrences_cons k x). lia.
Qed.

(** On a sorted list, no hit means no keyword occurs twice. *)
Lemma adjacent_find_None l :
  StronglySorted String.le l → adjacent_find l = None → NoDup l.
Proof.
  induction 1 as [|x t Ht IH Hx]; [constructor|].
  cbn [adjacent_find]. destruct t as [|y t']; [intros _; apply NoDup_singleton|].
  destruct (decide (x = y)) as [|Hne]; [done|]. intros Hnone.
  apply NoDup_cons. split; [|by apply IH].
  intros Hin. apply Hne.
  apply StronglySorted_inv in Ht as [_ Hy].
  apply (anti_symm String.le).
  - by apply Forall_cons in Hx as [Hxy _].
  - apply elem_of_cons in Hin as [->|Hin]; [done|].
    rewrite Forall_forall in Hy. by apply Hy.
Qed.

(** On a sorted list, the hit is the least keyword that occurs twice. *)
Lemma adjacent_find_least l k k' :
  StronglySorted String.le l → adjacent_find l = Some k →
  (2 ≤ occurrences k' l)%nat → String.le k k'.
Proof.
  induction 1 as [|x t Ht IH Hx]; [done|].
  cbn [adjacent_find]. destruct t as [|y t'].
  { done. }
  destruct (decide (x = y)) as [->|Hne].
  - intros [= ->] Hk'.
    assert (k' ∈ k :: k :: t') as Hin by (apply occurrences_pos; lia).
    apply elem_of_cons in Hin as [->|Hin]; [done|].
    rewrite Forall_forall in Hx. by apply Hx.
  - intros Hfind Hk'. apply IH; [done|].
    rewrite occurrences_cons in Hk'.
    destruct (decide (x = k')) as [->|]; [|lia].
    exfalso. apply Hne.
    assert (k' ∈ y :: t') as Hin by (apply occurrences_pos; lia).
    apply StronglySorted_inv in Ht as [_ Hy].
    apply (anti_symm String.le).
    + by apply Forall_cons in Hx as [Hxy _].
    + apply elem_of_cons in Hin as [->|Hin]; [done|].
      rewrite Forall_forall in Hy. by apply Hy.
Qed.

Lemma sort_sorted kws : StronglySorted String.le (sort kws).
Proof. apply StronglySorted_merge_sort; apply _. Qed.

Lemma sort_perm kws : sort kws ≡ₚ kws.
Proof. apply merge_sort_Permutation. Qed.

(** The two passes together decide whether a keyword was given twice. *)
Lemma adjacent_find_sort_Some kws k :
  adjacent_find (sort kws) = Some k →
  (2 ≤ occurrences k kws)%nat ∧
  ∀ k', (2 ≤ occurrences k' kws)%nat → String.le k k'.
Proof.
  intros H. split.
  - rewrite <- (occurrences_perm k _ _ (sort_perm kws)).
    by apply adjacent_find_Some.
  - intros k' Hk'. apply (adjacent_find_least (sort kws)); [apply sort_sorted|done|].
    by rewrite (occurrences_perm k' _ _ (sort_perm kws)).
Qed.

Lemma adjacent_find_sort_None kws :
  adjacent_find (sort kws) = None ↔ NoDup kws.
Proof.
  split.
  - intros H. rewrite <- (sort_perm kws).
    apply adjacent_find_None; [apply sort_sorted|done].
  - intros Hnd. destruct (adjacent_find (sort kws)) as [k|] eqn:E; [|done].
    apply adjacent_find_sort_Some in E as [E _].
    apply occurrences_NoDup with (k := k) in Hnd. lia.
Qed.

End KeywordFacts.

(** ** The dispatch of a handler command *)

Module CTestTheory.
Import Keywords KeywordFacts CTest.

Lemma unique_keywords_pass (kws : list string) (s : State) :
  NoDup kws ↔ CheckParsedKeywords kws s = s ∧ adjacent_find (sort kws) = None.
Proof.
  rewrite <- adjacent_find_sort_None. unfold CheckParsedKeywords.
  destruct (adjacent_find (sort kws)); [|by split].
  split; [done|]. by intros [_ ?].
Qed.


(** *** The error-capture contract *)

Section Contract.
Context `{cmd : HandlerCommand Args}.

Lemma flag_after_delete (e : SaveRestoreErrorState) (s : State) :
  ErrorOccurred (SaveRestoreErrorState_delete e s) =
  if CaptureCMakeErrorValue e then InitialErrorState e
  else InitialErrorState e || ErrorOccurred s.
Proof.
  unfold SaveRestoreErrorState_delete.
  destruct e as [[] []], s as [[] ? ? ? ? ? ? ? ?]; reflexivity.
Qed.

Lemma Definitions_after_delete (e : SaveRestoreErrorState) (s : State) :
  Definitions (SaveRestoreErrorState_delete e s) = Definitions s.
Proof.
  unfold SaveRestoreErrorState_delete.
  destruct e as [[] []], s as [[] ? ? ? ? ? ? ? ?]; reflexivity.
Qed.

(** The guard handed to the destructor records whether a capture variable
    was supplied, and still holds the flag found on entry. *)
Lemma Guard_of_body (arguments : list string) (e : SaveRestoreErrorState) (s : State) :
  Guard (InitialPass_body arguments e s) =
  if Str.empty (CaptureCMakeError (Base (Parse arguments).1))
  then e else CaptureCMakeError_call e.
Proof.
  unfold InitialPass_body. destruct (Parse arguments) as [args unparsed]. cbn [fst].
  destruct (Str.empty (CaptureCMakeError (Base args))); cbn [negb];
    repeat case_match; reflexivity.
Qed.



(** What the body leaves when a capture variable was supplied: the variable
    holds -1 unless the handler was processed and the flag is still clear. *)
Lemma body_with_capture (arguments : list string) (e : SaveRestoreErrorState) (s : State) :
  let V := CaptureCMakeError (Base (Parse arguments).1) in
  let o := InitialPass_body arguments e s in
  V ≠ "" →
  Result o = true ∧
  Definitions (Final o) !! V =
    Some (if bool_decide (Exit o = Processed) && negb (ErrorOccurred (Final o))
          then "0" else "-1").
Proof.
  intros V o HV. subst V o. unfold InitialPass_body.
  destruct (Parse arguments) as [args unparsed]. cbn [fst] in *.
  apply StrFacts.empty_false in HV. rewrite HV. cbn [negb].
  destruct unparsed as [|u unparsed].
  2:{ rewrite bool_decide_eq_false_2 by done. cbn [negb].
      case_match; cbn; by rewrite lookup_insert_eq. }
  rewrite bool_decide_eq_true_2 by done. cbn [negb].
  destruct (InitializeHandler _ _) as [[handler|] s0].
  2:{ case_match; cbn; by rewrite lookup_insert_eq. }
  destruct (ChangeDirectory _ _) as [workdirError|].
  { cbn. by rewrite lookup_insert_eq. }
  destruct (ProcessHandler _ _) as [[res handler'] s1].
  set (s2 := ProcessAdditionalValues _ _ _).
  unfold GetErrorOccurredFlag.
  destruct (ErrorOccurred s2) eqn:Hflag.
  - case_match; cbn; rewrite ?Hflag; by rewrite lookup_insert_eq.
  - cbn. rewrite Hflag. by rewrite lookup_insert_eq.
Qed.

(** What the body leaves without a capture variable. *)
Lemma body_without_capture (arguments : list string) (e : SaveRestoreErrorState) (s : State) :
  let o := InitialPass_body arguments e s in
  CaptureCMakeError (Base (Parse arguments).1) = "" →
  Result o = bool_decide (Exit o = Processed).
Proof.
  intros o HV. subst o. unfold InitialPass_body.
  destruct (Parse arguments) as [args unparsed]. cbn [fst] in *.
  apply StrFacts.empty_true in HV. rewrite HV. cbn [negb].
  repeat case_match; reflexivity.
Qed.

Lemma InitialPass_unfold (arguments : list string) (s : State) :
  InitialPass arguments s =
  (Result (BeforeExit arguments s),
   SaveRestoreErrorState_delete (Guard (BeforeExit arguments s))
                                (Final (BeforeExit arguments s))).
Proof. reflexivity. Qed.




End Contract.



(** A build directory that no argument and no variable names is logged and
    nothing more: with a directory configured earlier and a capture variable,
    the run completes and the variable holds 0. *)
Lemma missing_binary_directory_is_only_logged :
  let s := set_CTestConfiguration {["BuildDirectory" := "/b"]} Sample.clean in
  let r := InitialPass (cmd := Sample.command) ["CAPTURE_CMAKE_ERROR"; "ERR"] s in
  r.1 = true ∧
  Definitions r.2 !! "ERR" = Some "0" ∧
  (ERROR_MESSAGE, "CTEST_BINARY_DIRECTORY not set" +:+ endl) ∈ Log r.2.
Proof. vm_compute. split; [done|]. split; [done|]. set_solver. Qed.

(** *** Errors raised early reach the end of the call *)

Section Persistence.
Context `{cmd : HandlerCommand Args}.

Lemma ResolveConfiguration_flag (a : HandlerArguments) (s : State) :
  ErrorOccurred (ResolveConfiguration a s) = ErrorOccurred s.
Proof. unfold ResolveConfiguration. repeat case_match; reflexivity. Qed.

Lemma raised_flag_persists (arguments : list string)
    (e : SaveRestoreErrorState) (s : State) :
  KeepErrors →
  ErrorOccurred
    (CheckParsedKeywords (ParsedKeywords (Base (Parse arguments).1))
       (CheckArguments (Parse arguments).1 s)) = true →
  ErrorOccurred (Final (InitialPass_body arguments e s)) = true.
Proof.
  intros [Hinit Hproc Hadd]. unfold InitialPass_body.
  destruct (Parse arguments) as [args unparsed]. cbn [fst].
  set (s1 := CheckParsedKeywords _ _). intros Hs1.
  destruct unparsed as [|u unparsed].
  2:{ rewrite bool_decide_eq_false_2 by done. cbn [negb].
      repeat case_match; exact Hs1. }
  rewrite bool_decide_eq_true_2 by done. cbn [negb].
  set (s2 := cmCTestLog DEBUG _ _).
  assert (ErrorOccurred s2 = true) as Hs2
    by (subst s2; cbn; by rewrite ResolveConfiguration_flag).
  pose proof (Hinit args s2 Hs2) as Hs3.
  destruct (InitializeHandler args s2) as [[handler|] s3]; cbn [snd] in Hs3.
  2:{ repeat case_match; exact Hs3. }
  destruct (ChangeDirectory _ s3) as [workdirError|].
  { repeat case_match; exact Hs3. }
  match goal with
  | |- context [ProcessHandler ?h ?st] =>
      pose proof (Hproc h st Hs3) as Hs4;
      destruct (ProcessHandler h st) as [[res handler'] s4]
  end.
  cbn [snd] in Hs4.
  match goal with
  | |- context [ProcessAdditionalValues ?h ?a ?st] =>
      assert (ErrorOccurred (ProcessAdditionalValues h a st) = true) as Hs5
        by (apply Hadd; case_match; exact Hs4);
      set (s5 := ProcessAdditionalValues h a st) in *
  end.
  unfold GetErrorOccurredFlag. rewrite Hs5.
  repeat case_match; exact Hs5.
Qed.

(** X2. A keyword given twice, seen from the caller: without a capture variable
    the global error flag is set on return, with one the variable holds -1. *)
Lemma duplicate_keyword_reaches_caller (arguments : list string) (k : string) (s : State) :
  let a := Base (Parse arguments).1 in
  let r := InitialPass arguments s in
  KeepErrors →
  (2 ≤ occurrences k (ParsedKeywords a))%nat →
  (CaptureCMakeError a = "" → ErrorOccurred r.2 = true) ∧
  (CaptureCMakeError a ≠ "" →
   r.1 = true ∧ Definitions r.2 !! CaptureCMakeError a = Some "-1").
Proof.
  intros a r Hkeep Hk. subst r.
  assert (ErrorOccurred (Final (BeforeExit arguments s)) = true) as Hflag.
  { apply raised_flag_persists; [done|].
    unfold CheckParsedKeywords.
    destruct (adjacent_find _) as [it|] eqn:E; [done|].
    apply adjacent_find_sort_None in E.
    apply occurrences_NoDup with (k := k) in E. fold a in E. lia. }
  rewrite InitialPass_unfold. cbn [fst snd].
  rewrite flag_after_delete, Definitions_after_delete.
  unfold BeforeExit in *. rewrite Guard_of_body. fold a. split.
  - intros HV. apply StrFacts.empty_true in HV. rewrite HV, Hflag.
    cbn. apply orb_true_r.
  - intros HV.
    destruct (body_with_capture arguments (SaveRestoreErrorState_new s).1
                (SaveRestoreErrorState_new s).2 HV) as [Hr Hd].
    split; [done|]. fold a in Hd. rewrite Hd, Hflag.
    by rewrite andb_false_r.
Qed.

Lemma Messages_after_delete (e : SaveRestoreErrorState) (s : State) :
  Messages (SaveRestoreErrorState_delete e s) = Messages s.
Proof.
  unfold SaveRestoreErrorState_delete.
  destruct e as [[] []], s as [[] ? ? ? ? ? ? ? ?]; reflexivity.
Qed.

Lemma ResolveConfiguration_Messages (a : HandlerArguments) (s : State) :
  Messages (ResolveConfiguration a s) = Messages s.
Proof. unfold ResolveConfiguration. repeat case_match; reflexivity. Qed.

(** A message issued by the check is still there when the body returns. *)
Lemma issued_message_persists (arguments : list string)
    (e : SaveRestoreErrorState) (s : State) (m : MessageType * string) :
  KeepMessages →
  m ∈ Messages
        (CheckParsedKeywords (ParsedKeywords (Base (Parse arguments).1))
           (CheckArguments (Parse arguments).1 s)) →
  m ∈ Messages (Final (InitialPass_body arguments e s)).
Proof.
  intros [Hinit Hproc Hadd]. unfold InitialPass_body.
  destruct (Parse arguments) as [args unparsed]. cbn [fst].
  set (s1 := CheckParsedKeywords _ _). intros Hs1.
  destruct unparsed as [|u unparsed].
  2:{ rewrite bool_decide_eq_false_2 by done. cbn [negb].
      repeat case_match; exact Hs1. }
  rewrite bool_decide_eq_true_2 by done. cbn [negb].
  set (s2 := cmCTestLog DEBUG _ _).
  assert (m ∈ Messages s2) as Hs2
    by (subst s2; cbn; by rewrite ResolveConfiguration_Messages).
  pose proof (Hinit args s2 m Hs2) as Hs3.
  destruct (InitializeHandler args s2) as [[handler|] s3]; cbn [snd] in Hs3.
  2:{ repeat case_match; exact Hs3. }
  destruct (ChangeDirectory _ s3) as [workdirError|].
  { repeat case_match; exact Hs3. }
  match goal with
  | |- context [ProcessHandler ?h ?st] =>
      pose proof (Hproc h st m Hs3) as Hs4;
      destruct (ProcessHandler h st) as [[res handler'] s4]
  end.
  cbn [snd] in Hs4.
  match goal with
  | |- context [ProcessAdditionalValues ?h ?a ?st] =>
      assert (m ∈ Messages (ProcessAdditionalValues h a st)) as Hs5
        by (apply Hadd; case_match; exact Hs4);
      set (s5 := ProcessAdditionalValues h a st) in *
  end.
  repeat case_match; exact Hs5.
Qed.

(** On an unknown argument nothing is issued after the check. *)
Lemma bad_argument_Messages (arguments : list string)
    (e : SaveRestoreErrorState) (s : State) :
  (Parse arguments).2 ≠ [] →
  Messages (Final (InitialPass_body arguments e s)) =
  Messages (CheckParsedKeywords (ParsedKeywords (Base (Parse arguments).1))
              (CheckArguments (Parse arguments).1 s)).
Proof.
  unfold InitialPass_body.
  destruct (Parse arguments) as [args unparsed]. cbn [fst snd]. intros Hun.
  rewrite bool_decide_eq_false_2 by done. cbn [negb].
  repeat case_match; reflexivity.
Qed.

(** A flag raised by the check, seen from the caller. *)
Lemma raised_flag_reaches_caller (arguments : list string) (s : State) :
  let a := Base (Parse arguments).1 in
  let r := InitialPass arguments s in
  KeepErrors →
  ErrorOccurred
    (CheckParsedKeywords (ParsedKeywords a)
       (CheckArguments (Parse arguments).1 (ResetErrorOccurredFlag s))) = true →
  (CaptureCMakeError a = "" → ErrorOccurred r.2 = true) ∧
  (CaptureCMakeError a ≠ "" →
   r.1 = true ∧ Definitions r.2 !! CaptureCMakeError a = Some "-1").
Proof.
  intros a r Hkeep Hraised. subst r.
  assert (ErrorOccurred (Final (BeforeExit arguments s)) = true) as Hflag
    by (by apply raised_flag_persists).
  rewrite InitialPass_unfold. cbn [fst snd].
  rewrite flag_after_delete, Definitions_after_delete.
  unfold BeforeExit in *. rewrite Guard_of_body. fold a. split.
  - intros HV. apply StrFacts.empty_true in HV. rewrite HV, Hflag.
    cbn. apply orb_true_r.
  - intros HV.
    destruct (body_with_capture arguments (SaveRestoreErrorState_new s).1
                (SaveRestoreErrorState_new s).2 HV) as [Hr Hd].
    split; [done|]. fold a in Hd. rewrite Hd, Hflag.
    by rewrite andb_false_r.
Qed.

(** C9. In every invocation the keywords seen are sorted and searched for
    two equal neighbours.  When a keyword was given more than once the search
    finds the least such keyword and the fatal message naming it is issued,
    raising the global error flag, in whatever state the check is made.
    Seen from the caller: on an unknown argument the messages on return are
    those argument checking left, followed by this one; when the handler and
    the hooks of the command take no message back, the message is among those
    on return; and when they do not clear the error flag, the flag is set on
    return, or with a capture variable the call succeeds with the variable
    at -1. *)
Theorem duplicate_keyword_is_fatal (arguments : list string) (k : string)
    (s : State) :
  let a := Base (Parse arguments).1 in
  let kws := ParsedKeywords a in
  let checked := CheckArguments (Parse arguments).1 (ResetErrorOccurredFlag s) in
  let r := InitialPass arguments s in
  (2 ≤ occurrences k kws)%nat →
  ∃ it,
    let fatal := (FATAL_ERROR, "Called with more than one value for " +:+ it) in
    adjacent_find (sort kws) = Some it ∧
    (2 ≤ occurrences it kws)%nat ∧
    (∀ k', (2 ≤ occurrences k' kws)%nat → String.le it k') ∧
    (∀ s0,
       CheckParsedKeywords kws s0 = IssueMessage FATAL_ERROR fatal.2 s0 ∧
       Messages (CheckParsedKeywords kws s0) = Messages s0 ++ [fatal] ∧
       ErrorOccurred (CheckParsedKeywords kws s0) = true) ∧
    ((Parse arguments).2 ≠ [] → Messages r.2 = Messages checked ++ [fatal]) ∧
    (KeepMessages → fatal ∈ Messages r.2) ∧
    (KeepErrors →
     (CaptureCMakeError a = "" → ErrorOccurred r.2 = true) ∧
     (CaptureCMakeError a ≠ "" →
      r.1 = true ∧ Definitions r.2 !! CaptureCMakeError a = Some "-1")).
Proof.
  intros a kws checked r Hk.
  destruct (adjacent_find (sort kws)) as [it|] eqn:E.
  2:{ apply adjacent_find_sort_None in E.
      apply occurrences_NoDup with (k := k) in E. lia. }
  exists it. intros fatal.
  destruct (adjacent_find_sort_Some kws it E) as [Hit Hleast].
  assert (∀ s0, CheckParsedKeywords kws s0 =
                IssueMessage FATAL_ERROR fatal.2 s0) as Hcheck.
  { intros s0. unfold CheckParsedKeywords. by rewrite E. }
  split; [done|]. split; [done|]. split; [done|].
  split; [intros s0; by rewrite Hcheck|].
  assert (Messages r.2 = Messages (Final (BeforeExit arguments s))) as Hr.
  { subst r. rewrite InitialPass_unfold. cbn [fst snd].
    apply Messages_after_delete. }
  split; [|split].
  - intros Hun. rewrite Hr. unfold BeforeExit.
    rewrite bad_argument_Messages by done.
    cbn [SaveRestoreErrorState_new fst snd]. fold a kws checked.
    by rewrite Hcheck.
  - intros Hkeep. rewrite Hr. unfold BeforeExit.
    apply issued_message_persists; [done|].
    cbn [SaveRestoreErrorState_new fst snd]. fold a kws checked.
    rewrite Hcheck. cbn. apply elem_of_app. right. constructor.
  - intros Hkeep.
    apply (raised_flag_reaches_caller arguments s Hkeep).
    fold a kws checked. by rewrite Hcheck.
Qed.

End Persistence.

(** QUIET is given twice and BOGUS is not a keyword: the message for QUIET
    follows what was there, and since the sample handler keeps messages and
    flag, the error reaches the caller. *)
Lemma duplicate_keyword_is_fatal_witness :
  let r := InitialPass (cmd := Sample.command) ["QUIET"; "BOGUS"; "QUIET"]
             Sample.clean in
  Messages r.2 = [(FATAL_ERROR, "Called with more than one value for QUIET")] ∧
  ErrorOccurred r.2 = true.
Proof.
  intros r.
  destruct (duplicate_keyword_is_fatal (cmd := Sample.command)
              ["QUIET"; "BOGUS"; "QUIET"] "QUIET" Sample.clean)
    as (it & Hfound & _ & _ & _ & Hbad & _ & Hflag).
  { vm_compute. lia. }
  vm_compute in Hfound. injection Hfound as <-.
  split.
  - apply Hbad. discriminate.
  - apply Hflag; [|reflexivity]. split; intros; assumption.
Defined.

(** *** The build command *)

Section BuildFacts.
Context `{BuildCollaborators}.

Lemma fallback_chain_head (c : string) (rest : list string) (d : string) :
  fallback_chain (c :: rest) d =
  if negb (Str.empty c) then c else fallback_chain rest d.
Proof. cbn. by destruct (Str.empty c). Qed.

Lemma cmNonempty_safe (name : string) (s : State) :
  cmNonempty (GetDefinition name s) = negb (Str.empty (GetSafeDefinition name s)).
Proof.
  unfold cmNonempty, GetDefinition, GetSafeDefinition.
  by destruct (Definitions s !! name).
Qed.

Lemma default_safe (name : string) (s : State) :
  default "" (GetDefinition name s) = GetSafeDefinition name s.
Proof. reflexivity. Qed.

(** The configuration, flags and target computed by lines 71-88 are the
    fallback chains of the specification. *)
Lemma SelectMakeCommand_generated (args : BuildArguments) (s : State)
    (name : string) (gg : cmGlobalGenerator) :
  cmNonempty (GetDefinition "CTEST_BUILD_COMMAND" s) = false →
  GetDefinition "CTEST_CMAKE_GENERATOR" s = Some name →
  name ≠ "" →
  CreateGlobalGenerator name = Some gg →
  ∃ s',
    SelectMakeCommand args s = inr s' ∧
    Definitions s' = Definitions s ∧
    CTestConfiguration s' =
      <["MakeCommand" :=
          GenerateCMakeBuildCommand gg (EffectiveTarget args s)
            (EffectiveConfiguration args s) (ParallelLevel args)
            (EffectiveFlags args s) (IgnoreErrorsCMP0061 s)]>
        (CTestConfiguration s).
Proof.
  intros Hcmd Hgen Hname Hgg. unfold SelectMakeCommand.
  rewrite Hcmd, Hgen. cbn [cmNonempty from_option id].
  apply StrFacts.empty_false in Hname. rewrite Hname. cbn [negb]. rewrite Hgg.
  unfold EffectiveTarget, EffectiveConfiguration, EffectiveFlags.
  rewrite cmNonempty_safe, default_safe. cbn [fallback_chain].
  unfold cmCTestOptionalLog.
  destruct (Str.empty (Configuration args)) eqn:E1;
    destruct (Str.empty (GetSafeDefinition "CTEST_BUILD_CONFIGURATION" s)) eqn:E2;
    destruct (Str.empty (GetConfigType s)) eqn:E3;
    cbn [negb]; rewrite ?E1, ?E2, ?E3; cbn [Str.empty bool_decide];
    destruct (Str.empty (Target args)), (Str.empty (Flags args)),
             (Quiet (HandlerArgs args));
    (eexists; split; [reflexivity|by split]).
Qed.

(** C7. With no explicit build command and a generator that can be created,
    the handler is initialised and the make command is the generator's build
    command for the target, configuration and flags picked by the fallback
    chains: CONFIGURATION, else CTEST_BUILD_CONFIGURATION, else the ctest
    configuration type, else Release; FLAGS over CTEST_BUILD_FLAGS; TARGET
    over CTEST_BUILD_TARGET.  The configuration type itself is seeded by the
    dispatch from CTEST_CONFIGURATION_TYPE whenever that variable is
    defined. *)
Theorem build_configuration_chain (args : BuildArguments) (s : State)
    (name : string) (gg : cmGlobalGenerator) :
  cmNonempty (GetDefinition "CTEST_BUILD_COMMAND" s) = false →
  GetDefinition "CTEST_CMAKE_GENERATOR" s = Some name →
  name ≠ "" →
  CreateGlobalGenerator name = Some gg →
  (∃ handler s',
     Build_InitializeHandler args s = (Some handler, s') ∧
     GetCTestConfiguration "MakeCommand" s' =
       GenerateCMakeBuildCommand gg (EffectiveTarget args s)
         (EffectiveConfiguration args s) (ParallelLevel args)
         (EffectiveFlags args s) (IgnoreErrorsCMP0061 s)) ∧
  (∀ (a : HandlerArguments) (s0 : State),
     GetConfigType (ResolveConfiguration a s0) =
     default (GetConfigType s0) (GetDefinition "CTEST_CONFIGURATION_TYPE" s0)).
Proof.
  intros Hcmd Hgen Hname Hgg. split.
  - destruct (SelectMakeCommand_generated args s name gg Hcmd Hgen Hname Hgg)
      as (s' & Hsel & Hdefs & Hconf).
    unfold Build_InitializeHandler. rewrite Hsel.
    eexists _, _. split; [reflexivity|].
    unfold GetCTestConfiguration.
    repeat case_match; cbn; rewrite ?lookup_insert_ne by done;
      by rewrite Hconf, lookup_insert_eq.
  - intros a s0. unfold ResolveConfiguration, GetConfigType.
    repeat case_match; reflexivity.
Qed.

Lemma CheckParsedKeywords_Definitions (kws : list string) (s : State) :
  Definitions (CheckParsedKeywords kws s) = Definitions s.
Proof. unfold CheckParsedKeywords. by case_match. Qed.

Lemma ResolveConfiguration_Definitions (a : HandlerArguments) (s : State) :
  Definitions (ResolveConfiguration a s) = Definitions s.
Proof. unfold ResolveConfiguration. repeat case_match; reflexivity. Qed.

(** Without a build command and without a generator name the handler is
    not initialised, whatever else the state holds. *)
Lemma Build_InitializeHandler_no_project (args : BuildArguments) (s : State) :
  cmNonempty (GetDefinition "CTEST_BUILD_COMMAND" s) = false →
  cmNonempty (GetDefinition "CTEST_CMAKE_GENERATOR" s) = false →
  Build_InitializeHandler args s = (None, SetError has_no_project s).
Proof.
  intros Hcmd Hgen. unfold Build_InitializeHandler, SelectMakeCommand.
  by rewrite Hcmd, Hgen.
Qed.

Lemma no_project_body (arguments : list string) (e : SaveRestoreErrorState) (s : State) :
  let o := InitialPass_body (cmd := cmCTestBuildCommand) arguments e s in
  cmNonempty (GetDefinition "CTEST_BUILD_COMMAND" s) = false →
  cmNonempty (GetDefinition "CTEST_CMAKE_GENERATOR" s) = false →
  Exit o ≠ Processed ∧
  ((BuildParse arguments).2 = [] →
   Exit o = NoHandler ∧ StatusError (Final o) = has_no_project).
Proof.
  intros o Hcmd Hgen. subst o. unfold InitialPass_body.
  cbn [Parse Base CheckArguments InitializeHandler cmCTestBuildCommand].
  destruct (BuildParse arguments) as [args unparsed]. cbn [snd].
  destruct unparsed as [|u unparsed].
  2:{ rewrite bool_decide_eq_false_2 by done. cbn [negb].
      split; [by case_match|done]. }
  rewrite bool_decide_eq_true_2 by done. cbn [negb].
  rewrite Build_InitializeHandler_no_project.
  - split; [by case_match|]. intros _.
    repeat case_match; by split.
  - unfold cmNonempty, GetDefinition in *. cbn [Definitions cmCTestLog set_Log].
    by rewrite ResolveConfiguration_Definitions, CheckParsedKeywords_Definitions.
  - unfold cmNonempty, GetDefinition in *. cbn [Definitions cmCTestLog set_Log].
    by rewrite ResolveConfiguration_Definitions, CheckParsedKeywords_Definitions.
Qed.

(** C8. With neither CTEST_BUILD_COMMAND nor CTEST_CMAKE_GENERATOR set to a
    non-empty value, handler initialisation of the build command fails with
    the diagnostic that starts with the words has no project to build, and
    the command returns failure, or, with a capture variable, success with
    the variable set to -1. *)
Theorem no_project_to_build (arguments : list string) (s : State) :
  let a := HandlerArgs (BuildParse arguments).1 in
  let r := InitialPass (cmd := cmCTestBuildCommand) arguments s in
  cmNonempty (GetDefinition "CTEST_BUILD_COMMAND" s) = false →
  cmNonempty (GetDefinition "CTEST_CMAKE_GENERATOR" s) = false →
  (∀ args : BuildArguments,
     Build_InitializeHandler args s = (None, SetError has_no_project s)) ∧
  Str.contains "has no project to build" has_no_project = true ∧
  ((BuildParse arguments).2 = [] → StatusError r.2 = has_no_project) ∧
  (CaptureCMakeError a = "" → r.1 = false) ∧
  (CaptureCMakeError a ≠ "" →
   r.1 = true ∧ Definitions r.2 !! CaptureCMakeError a = Some "-1").
Proof.
  intros a r Hcmd Hgen. subst r.
  split; [intros args; by apply Build_InitializeHandler_no_project|].
  split; [reflexivity|].
  rewrite InitialPass_unfold. cbn [fst snd].
  rewrite Definitions_after_delete. unfold BeforeExit.
  destruct (no_project_body arguments (SaveRestoreErrorState_new s).1
              (SaveRestoreErrorState_new s).2 Hcmd Hgen) as [Hexit Hstatus].
  split; [|split].
  - intros Hun. destruct (Hstatus Hun) as [_ Hs].
    unfold SaveRestoreErrorState_delete.
    repeat case_match; exact Hs.
  - intros HV.
    rewrite (body_without_capture (cmd := cmCTestBuildCommand) arguments
               (SaveRestoreErrorState_new s).1 (SaveRestoreErrorState_new s).2 HV).
    by apply bool_decide_eq_false_2.
  - intros HV.
    destruct (body_with_capture (cmd := cmCTestBuildCommand) arguments
                (SaveRestoreErrorState_new s).1 (SaveRestoreErrorState_new s).2 HV)
      as [Hr Hd].
    split; [exact Hr|].
    rewrite bool_decide_eq_false_2 in Hd by done. exact Hd.
Qed.

End BuildFacts.

Lemma build_configuration_chain_witness :
  let s := set_ConfigType "Debug"
             (set_Definitions
                {["CTEST_CMAKE_GENERATOR" := "Unix Makefiles";
                  "CTEST_BUILD_FLAGS" := "-j4"]} Sample.clean) in
  let args := mkBuildArguments Sample.no_arguments "" "" "all" "" "" "" "" in
  (∃ handler s',
     Build_InitializeHandler args s = (Some handler, s') ∧
     GetCTestConfiguration "MakeCommand" s' = "build all Debug -j4") ∧
  (∀ (a : HandlerArguments) (s0 : State),
     GetConfigType (ResolveConfiguration a s0) =
     default (GetConfigType s0) (GetDefinition "CTEST_CONFIGURATION_TYPE" s0)).
Proof.
  intros s args.
  refine (build_configuration_chain (H0 := Sample.build_collaborators)
            args s "Unix Makefiles" Sample.echo_generator _ _ _ _);
    vm_compute; done.
Defined.

Lemma no_project_to_build_witness :
  let r := InitialPass (cmd := cmCTestBuildCommand)
             ["CAPTURE_CMAKE_ERROR"; "ERR"] Sample.clean in
  (∀ args : BuildArguments,
     Build_InitializeHandler args Sample.clean =
     (None, SetError has_no_project Sample.clean)) ∧
  Str.contains "has no project to build" has_no_project = true ∧
  StatusError r.2 = has_no_project ∧
  r.1 = true ∧ Definitions r.2 !! "ERR" = Some "-1".
Proof.
  intros r.
  destruct (no_project_to_build (H0 := Sample.build_collaborators)
              ["CAPTURE_CMAKE_ERROR"; "ERR"] Sample.clean)
    as (Hinit & Htext & Hstatus & _ & Hcapture); [reflexivity..|].
  split; [exact Hinit|]. split; [exact Htext|].
  split; [apply Hstatus; reflexivity|].
  apply Hcapture. vm_compute. discriminate.
Defined.

End CTestTheory.

(** ** The export command *)

Module ExportTheory.
Import ExportCommand.

Section Package.
Context `{Collaborators}.

Lemma cmExportCommand_PACKAGE (name : string) (s : State) :
  cmExportCommand ["PACKAGE"; name] s = HandlePackage ["PACKAGE"; name] s.
Proof. reflexivity. Qed.

(** A call that fails leaves everything but the error text as it was. *)
Lemma HandlePackage_failure (args : list string) (s : State) :
  (HandlePackage args s).1 = false →
  ∃ e, (HandlePackage args s).2 = SetError e s.
Proof.
  unfold HandlePackage. repeat case_match; cbn [fst snd]; try done; eauto.
Qed.

(** C6. The package name is checked before anything else happens: the empty
    name is refused with the text asking for a package name, a name that
    does not match the expression (such as one with a space) with the text
    naming the expression, and a refused call stores nothing: the state
    differs from the one on entry in the error text only. *)
Theorem package_name_validated (name : string) (s : State) :
  (name = "" →
   cmExportCommand ["PACKAGE"; name] s =
   (false, SetError "PACKAGE must be given a package name." s)) ∧
  (name ≠ "" → packageRegex_find name = false →
   cmExportCommand ["PACKAGE"; name] s =
   (false, SetError (InvalidPackageName name) s) ∧
   Str.contains packageExpr (InvalidPackageName name) = true) ∧
  packageRegex_find "Foo Bar" = false ∧
  (∀ args, (HandlePackage args s).1 = false →
           Sys (HandlePackage args s).2 = Sys s ∧
           Messages (HandlePackage args s).2 = Messages s ∧
           ExportSets (HandlePackage args s).2 = ExportSets s).
Proof.
  split; [|split; [|split]].
  - intros ->. reflexivity.
  - intros Hne Hre. rewrite cmExportCommand_PACKAGE. unfold HandlePackage.
    cbn [tail ParsePackageMode].
    apply StrFacts.empty_false in Hne. rewrite Hne, Hre. cbn [negb].
    split; [reflexivity|].
    unfold InvalidPackageName.
    repeat first [apply StrFacts.contains_prefix | apply StrFacts.contains_app_r].
  - reflexivity.
  - intros args Hfail. destruct (HandlePackage_failure args s Hfail) as [e ->].
    by repeat split.
Qed.

(** C3. For a valid package name the command succeeds, and policy CMP0090
    decides whether the registry is written: under OLD and WARN it is, unless
    CMAKE_EXPORT_NO_PACKAGE_REGISTRY is on; under NEW it is not, unless
    CMAKE_EXPORT_PACKAGE_REGISTRY is on.  What is stored is the current
    build directory under its own digest. *)
Theorem package_registry_gate (name : string) (s : State) :
  name ≠ "" →
  packageRegex_find name = true →
  let stored :=
    StorePackageRegistry HostPlatform name (CurrentBinaryDirectory s)
                         (HashString (CurrentBinaryDirectory s)) s in
  cmExportCommand ["PACKAGE"; name] s =
  (true,
   match GetPolicyStatus CMP0090_id s with
   | OLD | WARN =>
       if IsOn "CMAKE_EXPORT_NO_PACKAGE_REGISTRY" s then s else stored
   | NEW => if IsOn "CMAKE_EXPORT_PACKAGE_REGISTRY" s then stored else s
   end).
Proof.
  intros Hne Hre stored. rewrite cmExportCommand_PACKAGE. unfold HandlePackage.
  cbn [tail ParsePackageMode].
  apply StrFacts.empty_false in Hne. rewrite Hne, Hre. cbn [negb].
  destruct (GetPolicyStatus CMP0090_id s);
    by destruct (IsOn _ s).
Qed.

(** *** The registry *)

Lemma StoreEntryFile_Sys (fname content hash : string) (s : State) :
  Sys (StoreEntryFile fname content hash s) =
  let y := MakeDirectory fname (Sys s) in
  if negb (FileExists (fname +:+ "/" +:+ hash) y)
     && CanCreateFile (fname +:+ "/" +:+ hash)
  then set_Files (<[fname +:+ "/" +:+ hash := content +:+ endl]> (Files y)) y
  else y.
Proof.
  unfold StoreEntryFile. cbn [Sys set_Sys].
  destruct (FileExists _ _); cbn [negb andb]; [done|].
  by destruct (CanCreateFile _).
Qed.

Lemma FileExists_insert (f v : string) (y : System) :
  FileExists f (set_Files (<[f := v]> (Files y)) y) = true.
Proof.
  unfold FileExists. cbn. rewrite lookup_insert_eq.
  by rewrite bool_decide_eq_true_2 by eauto.
Qed.

Lemma MakeDirectory_twice (fname : string) (y : System) :
  MakeDirectory fname (MakeDirectory fname y) = MakeDirectory fname y.
Proof.
  unfold MakeDirectory, set_Directories. cbn. f_equal.
  by rewrite (assoc_L (∪)), (idemp_L (∪)).
Qed.

Lemma StoreEntryFile_twice (fname content hash : string) (s : State) :
  Sys (StoreEntryFile fname content hash (StoreEntryFile fname content hash s)) =
  Sys (StoreEntryFile fname content hash s).
Proof.
  rewrite (StoreEntryFile_Sys fname content hash (StoreEntryFile _ _ _ s)).
  rewrite (StoreEntryFile_Sys fname content hash s). cbn zeta.
  set (f := fname +:+ "/" +:+ hash). set (y := MakeDirectory fname (Sys s)).
  destruct (FileExists f y) eqn:Hex; cbn [negb andb].
  - subst y. rewrite MakeDirectory_twice. fold (MakeDirectory fname (Sys s)).
    by rewrite Hex.
  - destruct (CanCreateFile f) eqn:Hcan.
    + assert (MakeDirectory fname
                (set_Files (<[f := content +:+ endl]> (Files y)) y) =
              set_Files (<[f := content +:+ endl]> (Files y)) y) as ->.
      { subst y. unfold MakeDirectory, set_Directories, set_Files. cbn.
        f_equal. by rewrite (assoc_L (∪)), (idemp_L (∪)). }
      by rewrite FileExists_insert.
    + subst y. rewrite MakeDirectory_twice. fold (MakeDirectory fname (Sys s)).
      by rewrite Hex.
Qed.

Lemma ReportRegistryError_Sys (msg key : string) (err : Z) (s : State) :
  Sys (ReportRegistryError msg key err s) = Sys s.
Proof. reflexivity. Qed.

Lemma IssueMessage_not_quiet (t : MessageType) (text : string) (s s' : State) :
  Messages s' = Messages s → Messages (IssueMessage t text s') ≠ Messages s.
Proof.
  unfold IssueMessage. cbn. intros -> Hm.
  apply (f_equal length) in Hm. rewrite length_app in Hm. cbn in Hm. lia.
Qed.

Lemma set_Sys_set_Sys (y y' : System) (s : State) :
  set_Sys y (set_Sys y' s) = set_Sys y s.
Proof. reflexivity. Qed.

(** A call that raised no warning leaves a state on which a second call
    changes nothing. *)
Lemma StoreEntryFile_quiet_twice (fname content hash : string) (s : State) :
  Messages (StoreEntryFile fname content hash s) = Messages s →
  StoreEntryFile fname content hash (StoreEntryFile fname content hash s) =
  StoreEntryFile fname content hash s.
Proof.
  unfold StoreEntryFile. cbn [Sys set_Sys].
  set (f := fname +:+ "/" +:+ hash). set (y := MakeDirectory fname (Sys s)).
  destruct (FileExists f y) eqn:Hex; cbn [negb].
  - intros _. cbn [Sys set_Sys]. subst y. rewrite MakeDirectory_twice.
    fold (MakeDirectory fname (Sys s)). by rewrite Hex.
  - destruct (CanCreateFile f) eqn:Hcan.
    + intros _. cbn [Sys set_Sys].
      assert (MakeDirectory fname
                (set_Files (<[f := content +:+ endl]> (Files y)) y) =
              set_Files (<[f := content +:+ endl]> (Files y)) y) as ->.
      { subst y. unfold MakeDirectory, set_Directories, set_Files. cbn.
        f_equal. by rewrite (assoc_L (∪)), (idemp_L (∪)). }
      by rewrite FileExists_insert.
    + intros Hm. exfalso. by eapply IssueMessage_not_quiet; [|exact Hm].
Qed.

(** What the Windows definition leaves in the hive. *)
Lemma Win32_registry (package content hash : string) (s : State) :
  let key := RegistryKey package in
  let values := default ∅ (WinRegistry (Sys s) !! key) in
  Sys (StorePackageRegistry_Win32 package content hash s) =
  match RegCreateKeyExW key with
  | Some _ => Sys s
  | None =>
      match RegSetValueExW key hash content with
      | Some _ => set_WinRegistry (<[key := values]> (WinRegistry (Sys s))) (Sys s)
      | None =>
          set_WinRegistry
            (<[key := <[hash := content]> values]> (WinRegistry (Sys s))) (Sys s)
      end
  end.
Proof.
  intros key values. unfold StorePackageRegistry_Win32. fold key.
  destruct (RegCreateKeyExW key); [done|]. fold values.
  destruct (RegSetValueExW key hash content); [done|].
  cbn. by rewrite insert_insert_eq.
Qed.

Lemma Win32_twice (package content hash : string) (s : State) :
  Sys (StorePackageRegistry_Win32 package content hash
         (StorePackageRegistry_Win32 package content hash s)) =
  Sys (StorePackageRegistry_Win32 package content hash s).
Proof.
  rewrite (Win32_registry package content hash (StorePackageRegistry_Win32 _ _ _ s)).
  rewrite (Win32_registry package content hash s). cbn zeta.
  destruct (RegCreateKeyExW _); [done|].
  destruct (RegSetValueExW _ _ _); cbn;
    rewrite lookup_insert_eq; cbn; by rewrite ?insert_insert_eq.
Qed.

Lemma Win32_quiet_twice (package content hash : string) (s : State) :
  Messages (StorePackageRegistry_Win32 package content hash s) = Messages s →
  StorePackageRegistry_Win32 package content hash
    (StorePackageRegistry_Win32 package content hash s) =
  StorePackageRegistry_Win32 package content hash s.
Proof.
  unfold StorePackageRegistry_Win32, ReportRegistryError.
  destruct (RegCreateKeyExW _).
  { intros Hm. exfalso. by eapply IssueMessage_not_quiet; [|exact Hm]. }
  destruct (RegSetValueExW _ _ _).
  { intros Hm. exfalso. by eapply IssueMessage_not_quiet; [|exact Hm]. }
  intros _. cbn. rewrite !lookup_insert_eq. cbn.
  by rewrite !insert_insert_eq.
Qed.

Lemma Unix_twice (haiku : bool) (package content hash : string) (s : State) :
  Sys (StorePackageRegistry_Unix haiku package content hash
         (StorePackageRegistry_Unix haiku package content hash s)) =
  Sys (StorePackageRegistry_Unix haiku package content hash s).
Proof.
  unfold StorePackageRegistry_Unix. destruct haiku.
  - destruct find_directory; [apply StoreEntryFile_twice|done].
  - destruct (Home (Sys s)) as [home|] eqn:Hhome.
    + cbn zeta.
      match goal with
      | |- context [StoreEntryFile ?d content hash s] =>
          assert (Home (Sys (StoreEntryFile d content hash s)) = Some home) as ->
      end.
      { rewrite StoreEntryFile_Sys. cbn zeta. by case_match. }
      apply StoreEntryFile_twice.
    + by rewrite Hhome.
Qed.

Lemma Unix_quiet_twice (haiku : bool) (package content hash : string) (s : State) :
  Messages (StorePackageRegistry_Unix haiku package content hash s) = Messages s →
  StorePackageRegistry_Unix haiku package content hash
    (StorePackageRegistry_Unix haiku package content hash s) =
  StorePackageRegistry_Unix haiku package content hash s.
Proof.
  unfold StorePackageRegistry_Unix. destruct haiku.
  - destruct find_directory; [apply StoreEntryFile_quiet_twice|done].
  - destruct (Home (Sys s)) as [home|] eqn:Hhome.
    + cbn zeta.
      match goal with
      | |- context [StoreEntryFile ?d content hash s] =>
          assert (Home (Sys (StoreEntryFile d content hash s)) = Some home) as ->
      end.
      { rewrite StoreEntryFile_Sys. cbn zeta. by case_match. }
      apply StoreEntryFile_quiet_twice.
    + by rewrite Hhome.
Qed.

Lemma Store_twice (p : Platform) (package content hash : string) (s : State) :
  Sys (StorePackageRegistry p package content hash
         (StorePackageRegistry p package content hash s)) =
  Sys (StorePackageRegistry p package content hash s).
Proof. destruct p; [apply Win32_twice|apply Unix_twice..]. Qed.

Lemma Store_quiet_twice (p : Platform) (package content hash : string) (s : State) :
  Messages (StorePackageRegistry p package content hash s) = Messages s →
  StorePackageRegistry p package content hash
    (StorePackageRegistry p package content hash s) =
  StorePackageRegistry p package content hash s.
Proof. destruct p; [apply Win32_quiet_twice|apply Unix_quiet_twice..]. Qed.

Lemma StoreEntryFile_existing (fname content hash old : string) (s : State) :
  Files (Sys s) !! (fname +:+ "/" +:+ hash) = Some old →
  StoreEntryFile fname content hash s = set_Sys (MakeDirectory fname (Sys s)) s.
Proof.
  intros Hold. unfold StoreEntryFile. cbn [Sys set_Sys].
  assert (FileExists (fname +:+ "/" +:+ hash) (MakeDirectory fname (Sys s)) = true)
    as ->; [|done].
  unfold FileExists. cbn. rewrite Hold.
  by rewrite bool_decide_eq_true_2 by eauto.
Qed.

Lemma StoreEntryFile_fresh (fname content hash : string) (s : State) :
  FileExists (fname +:+ "/" +:+ hash) (MakeDirectory fname (Sys s)) = false →
  CanCreateFile (fname +:+ "/" +:+ hash) = true →
  Files (Sys (StoreEntryFile fname content hash s)) =
  <[fname +:+ "/" +:+ hash := content +:+ endl]> (Files (Sys s)).
Proof.
  intros Hex Hcan. rewrite StoreEntryFile_Sys. cbn zeta.
  by rewrite Hex, Hcan.
Qed.

Lemma Store_unfold_files (p : Platform) (package content hash dir : string) (s : State) :
  EntryDirectory p package s = Some dir →
  StorePackageRegistry p package content hash s =
  StoreEntryFile dir content hash s.
Proof.
  unfold EntryDirectory, StorePackageRegistry, StorePackageRegistry_Unix.
  destruct p; [done|..].
  - destruct find_directory; [|done]. by intros [= <-].
  - destruct (Home (Sys s)); [|done]. by intros [= <-].
Qed.

(** C4, as the code has it.  Storing is idempotent on what is stored, on
    every backend: a second call with the same package, content and digest
    leaves the stores of the user as the first call left them, and changes
    nothing at all when the first call raised no warning.  The file-system
    backends look for the entry before writing: one that exists is left as it
    is, and one that does not is created with the content and a newline.
    The Windows backend does not look: it sets the value named by the
    digest, whatever the key held before. *)
Theorem store_is_idempotent (p : Platform) (package content hash : string)
    (s : State) :
  let store := StorePackageRegistry p package content hash in
  Sys (store (store s)) = Sys (store s) ∧
  (Messages (store s) = Messages s → store (store s) = store s) ∧
  (∀ dir old,
     EntryDirectory p package s = Some dir →
     Files (Sys s) !! (dir +:+ "/" +:+ hash) = Some old →
     Files (Sys (store s)) = Files (Sys s) ∧
     Messages (store s) = Messages s) ∧
  (∀ dir,
     EntryDirectory p package s = Some dir →
     FileExists (dir +:+ "/" +:+ hash) (MakeDirectory dir (Sys s)) = false →
     CanCreateFile (dir +:+ "/" +:+ hash) = true →
     Files (Sys (store s)) =
     <[dir +:+ "/" +:+ hash := content +:+ endl]> (Files (Sys s))) ∧
  (p = Win32 →
   RegCreateKeyExW (RegistryKey package) = None →
   RegSetValueExW (RegistryKey package) hash content = None →
   WinRegistry (Sys (store s)) =
   <[RegistryKey package :=
       <[hash := content]>
         (default ∅ (WinRegistry (Sys s) !! RegistryKey package))]>
     (WinRegistry (Sys s))).
Proof.
  intros store. subst store.
  split; [apply Store_twice|].
  split; [apply Store_quiet_twice|].
  split; [|split].
  - intros dir old Hdir Hold.
    rewrite (Store_unfold_files p package content hash dir s Hdir).
    by rewrite (StoreEntryFile_existing dir content hash old s Hold).
  - intros dir Hdir Hex Hcan.
    rewrite (Store_unfold_files p package content hash dir s Hdir).
    by apply StoreEntryFile_fresh.
  - intros -> Hcreate Hset. cbn [StorePackageRegistry].
    rewrite Win32_registry. cbn zeta. by rewrite Hcreate, Hset.
Qed.

End Package.

(** C4 as the specification words it fails on the Windows backend: there is
    no look-up before the write, so an entry that exists under the digest is
    not left alone but overwritten. *)
Lemma windows_store_overwrites :
  let key := RegistryKey "Foo" in
  let s := set_Sys (set_WinRegistry {[key := {["d1" := "/elsewhere"]}]}
                                    ExportSample.home) ExportSample.project in
  let s' := StorePackageRegistry Win32 "Foo" "/build" "d1" s in
  WinRegistry (Sys s) !! key = Some {["d1" := "/elsewhere"]} ∧
  WinRegistry (Sys s') !! key = Some {["d1" := "/build"]}.
Proof. vm_compute. done. Qed.

Lemma package_registry_gate_witness :
  let s := ExportSample.with_Definitions
             {["CMAKE_EXPORT_PACKAGE_REGISTRY" := "ON"]} ExportSample.project in
  cmExportCommand ["PACKAGE"; "Foo"] s =
  (true, StorePackageRegistry Posix "Foo" "/build" (String.rev "/build") s).
Proof.
  intros s.
  refine (package_registry_gate (H := ExportSample.collaborators) "Foo" s _ _);
    vm_compute; done.
Defined.

(** Under the status OLD the registry is written by default and left
    alone when the variable that disables it is on. *)
Lemma package_registry_sample_old :
  let s := ExportSample.with_CMP0090 OLD ExportSample.project in
  let off := ExportSample.with_Definitions
               {["CMAKE_EXPORT_NO_PACKAGE_REGISTRY" := "ON"]} s in
  cmExportCommand ["PACKAGE"; "Foo"] s =
    (true, StorePackageRegistry Posix "Foo" "/build" (String.rev "/build") s) ∧
  cmExportCommand ["PACKAGE"; "Foo"] off = (true, off).
Proof. vm_compute. done. Qed.

(** What the sample call leaves: one entry, in the home of the user. *)
Lemma package_registry_sample_entry :
  let s := ExportSample.with_Definitions
             {["CMAKE_EXPORT_PACKAGE_REGISTRY" := "ON"]} ExportSample.project in
  Files (Sys (cmExportCommand ["PACKAGE"; "Foo"] s).2) =
  {["/home/u/.cmake/packages/Foo/dliub/" := "/build" +:+ endl]}.
Proof. vm_compute. done. Qed.

(** *** The listed targets *)

Section ListedTargets.
Context `{Collaborators}.

Lemma CollectTargets_step (t : string) (names : list string)
    (acc : list TargetExport) (s : State) :
  CollectTargets (t :: names) acc s =
  if ordinary s t then CollectTargets names (acc ++ [exported t]) s
  else inl (TargetError s t).
Proof.
  cbn [CollectTargets]. unfold IsAlias, FindTarget, ordinary, TargetError.
  destruct (Targets s !! t) as [[]|] eqn:E; try done.
Qed.

Lemma CollectTargets_app (pre names : list string) (acc : list TargetExport)
    (s : State) :
  forallb (ordinary s) pre = true →
  CollectTargets (pre ++ names) acc s =
  CollectTargets names (acc ++ (exported <$> pre)) s.
Proof.
  revert acc. induction pre as [|t pre IH]; intros acc Hpre.
  - cbn. by rewrite app_nil_r.
  - cbn [forallb] in Hpre. apply andb_true_iff in Hpre as [Ht Hpre].
    cbn [app]. rewrite CollectTargets_step, Ht, IH by done.
    by rewrite fmap_cons, <- app_assoc.
Qed.

(** The loop succeeds on ordinary targets only. *)
Lemma CollectTargets_inr (names : list string) (acc targets : list TargetExport)
    (s : State) :
  CollectTargets names acc s = inr targets →
  forallb (ordinary s) names = true.
Proof.
  revert acc. induction names as [|t names IH]; intros acc; [done|].
  rewrite CollectTargets_step. cbn [forallb].
  destruct (ordinary s t); [|done]. intros Hok. by rewrite (IH _ Hok).
Qed.

(** C5. In the TARGETS form the listed names are checked in order.  The
    first name that is not an ordinary target of the project ends the
    command with an error: the ALIAS error for an alias, the custom target
    error for a utility target, the not built by this project error for a
    name that resolves to no target.  Only when every name is ordinary is
    the export list built, one entry per name in the order given; a command
    that lists anything else fails. *)
Theorem export_targets_validated (s : State) (pre post : list string)
    (t : string) (acc : list TargetExport) :
  forallb (ordinary s) pre = true →
  (Targets s !! t = Some ALIAS →
   CollectTargets (pre ++ t :: post) acc s = inl (AliasNotExportable t)) ∧
  (Targets s !! t = Some UTILITY →
   CollectTargets (pre ++ t :: post) acc s = inl (CustomTargetNotExportable t)) ∧
  (Targets s !! t = None →
   CollectTargets (pre ++ t :: post) acc s = inl (NotBuiltByThisProject t)) ∧
  (ordinary s t = true →
   CollectTargets (pre ++ t :: post) acc s =
   CollectTargets post (acc ++ (exported <$> pre) ++ [exported t]) s) ∧
  CollectTargets pre acc s = inr (acc ++ (exported <$> pre)) ∧
  (∀ args0 a1 rest arguments unknownArgs names,
     args0 ≠ "PACKAGE" → args0 ≠ "SETUP" → args0 ≠ "EXPORT" →
     Parse (BoundKeywords args0 s) (args0 :: a1 :: rest) = (arguments, unknownArgs) →
     ArgTargets arguments = Some names →
     forallb (ordinary s) names = false →
     (cmExportCommand (args0 :: a1 :: rest) s).1 = false) ∧
  (∀ args0 a1 rest arguments fname android,
     args0 ≠ "PACKAGE" → args0 ≠ "SETUP" → args0 ≠ "EXPORT" →
     Parse (BoundKeywords args0 s) (args0 :: a1 :: rest) = (arguments, []) →
     ResolveFile args0 arguments s = inr (fname, android) →
     ArgTargets arguments = Some (pre ++ t :: post) →
     ordinary s t = false →
     cmExportCommand (args0 :: a1 :: rest) s = (false, SetError (TargetError s t) s)).
Proof.
  intros Hpre.
  assert (ordinary s t = false →
          ∀ acc', CollectTargets (pre ++ t :: post) acc' s = inl (TargetError s t))
    as Hbad.
  { intros Ht acc'. rewrite CollectTargets_app, CollectTargets_step by done.
    by rewrite Ht. }
  repeat split.
  - intros Ht. rewrite Hbad; unfold ordinary, TargetError; by rewrite Ht.
  - intros Ht. rewrite Hbad; unfold ordinary, TargetError; by rewrite Ht.
  - intros Ht. rewrite Hbad; unfold ordinary, TargetError; by rewrite Ht.
  - intros Ht. rewrite CollectTargets_app, CollectTargets_step by done.
    by rewrite Ht, <- app_assoc.
  - rewrite <- (app_nil_r pre) at 1. by rewrite CollectTargets_app.
  - intros args0 a1 rest arguments unknownArgs names Hp Hs He Hparse Hnames Hnot.
    unfold cmExportCommand.
    rewrite !bool_decide_eq_false_2 by done. rewrite Hparse.
    destruct unknownArgs; [|done].
    destruct (ResolveFile _ _ _) as [e|[fname android]]; [done|].
    unfold GatherExports. rewrite bool_decide_eq_false_2 by done.
    rewrite Hnames.
    destruct (CollectTargets names [] s) as [e|targets] eqn:Hc; [done|].
    apply CollectTargets_inr in Hc. congruence.
  - intros args0 a1 rest arguments fname android Hp Hs He Hparse Hfile Hnames Ht.
    unfold cmExportCommand.
    rewrite !bool_decide_eq_false_2 by done. rewrite Hparse, Hfile.
    unfold GatherExports. rewrite bool_decide_eq_false_2 by done.
    by rewrite Hnames, Hbad.
Qed.

End ListedTargets.

Lemma export_targets_validated_witness :
  CollectTargets ["mylib"; "my::lib"; "app"] [] ExportSample.project =
    inl (AliasNotExportable "my::lib") ∧
  CollectTargets ["mylib"; "docs"; "app"] [] ExportSample.project =
    inl (CustomTargetNotExportable "docs") ∧
  CollectTargets ["mylib"; "nope"; "app"] [] ExportSample.project =
    inl (NotBuiltByThisProject "nope") ∧
  CollectTargets ["mylib"; "app"] [] ExportSample.project =
    inr [exported "mylib"; exported "app"].
Proof.
  destruct (export_targets_validated (H := ExportSample.collaborators)
              ExportSample.project ["mylib"] ["app"] "my::lib" [] eq_refl)
    as (Halias & _).
  destruct (export_targets_validated (H := ExportSample.collaborators)
              ExportSample.project ["mylib"] ["app"] "docs" [] eq_refl)
    as (_ & Hcustom & _).
  destruct (export_targets_validated (H := ExportSample.collaborators)
              ExportSample.project ["mylib"] ["app"] "nope" [] eq_refl)
    as (_ & _ & Hunknown & _).
  destruct (export_targets_validated (H := ExportSample.collaborators)
              ExportSample.project ["mylib"; "app"] [] "x" [] eq_refl)
    as (_ & _ & _ & _ & Hall & _).
  split; [apply Halias; reflexivity|].
  split; [apply Hcustom; reflexivity|].
  split; [apply Hunknown; reflexivity|].
  exact Hall.
Defined.

(** *** A file bound twice *)

Section BoundTwice.
Context `{Collaborators}.

(** When the explicit targets or the export set are in order, the command
    goes on to bind the generator. *)
Lemma GatherExports_targets (args0 : string) (arguments : Arguments)
    (fname : string) (names : list string) (s : State) :
  args0 ≠ "EXPORT" →
  ArgTargets arguments = Some names →
  forallb (ordinary s) names = true →
  Append arguments = false →
  GatherExports args0 arguments fname s = Proceed (None, exported <$> names).
Proof.
  intros He Hnames Hok Happ. unfold GatherExports.
  rewrite bool_decide_eq_false_2 by done. rewrite Hnames, Happ.
  rewrite <- (app_nil_r names) at 1. by rewrite CollectTargets_app.
Qed.

Lemma GatherExports_export (arguments : Arguments) (fname : string)
    (e : cmExportSet) (s : State) :
  ExportSets s !! ExportSetName arguments = Some e →
  GatherExports "EXPORT" arguments fname s =
  Proceed (Some (ExportSetName arguments), []).
Proof. intros He. unfold GatherExports. cbn. by rewrite He. Qed.

(** With APPEND and a generator bound to the file, the TARGETS form merges
    the targets into that generator and succeeds. *)
Lemma GatherExports_append (args0 : string) (arguments : Arguments)
    (fname : string) (names : list string) (index : nat) (s : State) :
  args0 ≠ "EXPORT" →
  ArgTargets arguments = Some names →
  forallb (ordinary s) names = true →
  Append arguments = true →
  GetExportedTargetsFile fname s = Some index →
  GatherExports args0 arguments fname s =
  Return true
    (set_Generators
       (alter (AppendTargets (exported <$> names)) index (Generators s)) s).
Proof.
  intros He Hnames Hok Happ Hgen. unfold GatherExports.
  rewrite bool_decide_eq_false_2 by done. rewrite Hnames, Happ, Hgen.
  rewrite <- (app_nil_r names) at 1. by rewrite CollectTargets_app.
Qed.

(** C2. In the TARGETS and EXPORT forms, once the file and the targets or
    the export set are in order, a generator already bound to the file and no
    APPEND make the command fail under policy CMP0103 NEW, with the text
    that the command was already specified for the file and the question
    about APPEND; under OLD the command succeeds in silence and under WARN
    with an author warning, and either way the new generator takes the place
    of the old one for that file. *)
Theorem duplicate_export_file (args0 a1 : string) (rest : list string)
    (s : State) (arguments : Arguments) (fname : string) (android : bool)
    (exportSet : option string) (targets : list TargetExport) (index : nat) :
  args0 ≠ "PACKAGE" →
  args0 ≠ "SETUP" →
  Parse (BoundKeywords args0 s) (args0 :: a1 :: rest) = (arguments, []) →
  ResolveFile args0 arguments s = inr (fname, android) →
  GatherExports args0 arguments fname s = Proceed (exportSet, targets) →
  Append arguments = false →
  GetExportedTargetsFile fname s = Some index →
  match GetPolicyStatus CMP0103_id s with
  | NEW =>
      cmExportCommand (args0 :: a1 :: rest) s =
      (false, SetError (AlreadySpecified (Filename arguments)) s)
  | OLD =>
      ∃ s', cmExportCommand (args0 :: a1 :: rest) s = (true, s') ∧
            Messages s' = Messages s ∧
            StatusError s' = StatusError s ∧
            GetExportedTargetsFile fname s' = Some (length (Generators s))
  | WARN =>
      ∃ s', cmExportCommand (args0 :: a1 :: rest) s = (true, s') ∧
            Messages s' =
              Messages s ++
              [(AUTHOR_WARNING, AlreadySpecifiedWarning (Filename arguments))] ∧
            StatusError s' = StatusError s ∧
            GetExportedTargetsFile fname s' = Some (length (Generators s))
  end.
Proof.
  intros Hp Hs Hparse Hfile Hgather Happ Hbound.
  unfold cmExportCommand.
  rewrite !bool_decide_eq_false_2 by done.
  rewrite Hparse, Hfile, Hgather. unfold BindFileGenerator. rewrite Hbound.
  unfold GetExportedTargetsFile.
  destruct (GetPolicyStatus CMP0103_id s).
  - eexists. split; [reflexivity|].
    destruct exportSet; cbn; by rewrite lookup_insert_eq.
  - eexists. split; [reflexivity|].
    destruct exportSet; cbn; by rewrite lookup_insert_eq.
  - reflexivity.
Qed.

End BoundTwice.

Lemma duplicate_export_file_witness :
  let once := (cmExportCommand ["TARGETS"; "mylib"; "FILE"; "out.cmake"]
                               ExportSample.project).2 in
  GetExportedTargetsFile "/build/out.cmake" once = Some 0%nat ∧
  cmExportCommand ["TARGETS"; "mylib"; "FILE"; "out.cmake"] once =
  (false, SetError (AlreadySpecified "out.cmake") once).
Proof.
  intros once. split; [reflexivity|].
  refine (duplicate_export_file (H := ExportSample.collaborators)
            "TARGETS" "mylib" ["FILE"; "out.cmake"] once
            (mkArguments "" (Some ["mylib"]) "" "out.cmake" "" "" false false
                         [] false [])
            "/build/out.cmake" false None [exported "mylib"] 0 _ _ _ _ _ _ _);
    vm_compute; done.
Defined.

(** The same second call under the policy statuses OLD and WARN. *)
Lemma duplicate_export_file_old_and_warn :
  let once := (cmExportCommand ["TARGETS"; "mylib"; "FILE"; "out.cmake"]
                               ExportSample.project).2 in
  let old := cmExportCommand ["TARGETS"; "mylib"; "FILE"; "out.cmake"]
                             (ExportSample.with_CMP0103 OLD once) in
  let warn := cmExportCommand ["TARGETS"; "mylib"; "FILE"; "out.cmake"]
                              (ExportSample.with_CMP0103 WARN once) in
  old.1 = true ∧ Messages old.2 = [] ∧
  warn.1 = true ∧
  Messages warn.2 = [(AUTHOR_WARNING, AlreadySpecifiedWarning "out.cmake")].
Proof. vm_compute. done. Qed.

(** *** Package dependencies of an export set *)

Section Setup.
Context `{Collaborators}.

Lemma GetPackageDependencyForSetup_lookup (front : string) (e : cmExportSet) :
  PackageDependencies (GetPackageDependencyForSetup front e) !! front =
  Some (RecordFor front e).
Proof.
  unfold GetPackageDependencyForSetup, RecordFor.
  destruct (PackageDependencies e !! front) as [d|] eqn:E; cbn; [done|].
  by rewrite lookup_insert_eq.
Qed.

Lemma GetPackageDependencyForSetup_insert (front : string) (e : cmExportSet) :
  GetPackageDependencyForSetup front e = WithRecord front (RecordFor front e) e.
Proof.
  unfold GetPackageDependencyForSetup, RecordFor, WithRecord.
  destruct (PackageDependencies e !! front) as [d|] eqn:E; cbn; [|done].
  rewrite insert_id by done. by destruct e.
Qed.

Lemma SetEnabled_WithRecord (front : string) (v : PackageDependencyExportEnabled)
    (d : PackageDependency) (e : cmExportSet) :
  SetEnabled front v (WithRecord front d e) =
  WithRecord front (mkPackageDependency v (ExtraArguments d)) e.
Proof.
  unfold SetEnabled, WithRecord. cbn. f_equal.
  apply map_eq. intros k. rewrite lookup_alter, !lookup_insert.
  repeat case_decide; by simplify_eq.
Qed.

Lemma AppendExtraArguments_WithRecord (front : string) (extra : list string)
    (d : PackageDependency) (e : cmExportSet) :
  AppendExtraArguments front extra (WithRecord front d e) =
  WithRecord front (mkPackageDependency (Enabled d) (ExtraArguments d ++ extra)) e.
Proof.
  unfold AppendExtraArguments, WithRecord. cbn. f_equal.
  apply map_eq. intros k. rewrite lookup_alter, !lookup_insert.
  repeat case_decide; by simplify_eq.
Qed.

(** The loop stops at the first group that fails. *)
Lemma SetupPackageDependencies_app (pre post : list (list string))
    (g : list string) (e0 e : cmExportSet) :
  SetupPackageDependencies pre e0 = (None, e) →
  SetupPackageDependencies (pre ++ g :: post) e0 =
  match SetupPackageDependency g e with
  | (Some err, e') => (Some err, e')
  | (None, e') => SetupPackageDependencies post e'
  end.
Proof.
  revert e0. induction pre as [|g0 pre IH]; intros e0.
  - cbn. by intros [= ->].
  - cbn [app SetupPackageDependencies].
    destruct (SetupPackageDependency g0 e0) as [[err|] e1]; [done|]. apply IH.
Qed.

(** One PACKAGE_DEPENDENCY group whose arguments parse, by the value of
    ENABLED. *)
Lemma SetupPackageDependency_cases (front : string) (rest : list string)
    (e : cmExportSet) (pda : PackageDependencyArguments) :
  ParsePackageDependency rest = (pda, []) →
  let d0 := RecordFor front e in
  let v := ArgEnabled pda in
  let updated enabled :=
    WithRecord front
      (mkPackageDependency enabled (ExtraArguments d0 ++ ExtraArgs pda)) e in
  let step := SetupPackageDependency (front :: rest) e in
  (v = "AUTO" → step = (None, updated Auto)) ∧
  (v ≠ "" → v ≠ "AUTO" → cmIsOff v = true → step = (None, updated Off)) ∧
  (v ≠ "" → v ≠ "AUTO" → cmIsOff v = false → cmIsOn v = true →
   step = (None, updated On)) ∧
  (v = "" → step = (None, updated (Enabled d0))) ∧
  (v ≠ "" → v ≠ "AUTO" → cmIsOff v = false → cmIsOn v = false →
   step = (Some (InvalidEnableSetting v), WithRecord front d0 e) ∧
   (∀ pre post e0,
      SetupPackageDependencies pre e0 = (None, e) →
      SetupPackageDependencies (pre ++ (front :: rest) :: post) e0 =
      (Some (InvalidEnableSetting v), WithRecord front d0 e)) ∧
   (∀ pre post arguments s,
      PackageDependencyArgs arguments = pre ++ (front :: rest) :: post →
      SetupPackageDependencies pre
        (default (mkExportSet [] ∅) (ExportSets s !! ExportSetName arguments))
        = (None, e) →
      HandleSetup arguments s =
      (false,
       SetError (InvalidEnableSetting v)
         (set_ExportSets
            (<[ExportSetName arguments := WithRecord front d0 e]> (ExportSets s))
            s)))).
Proof.
  intros Hparse d0 v updated step. subst step updated.
  assert (∀ b : bool, bool_decide (v = "AUTO") = b ↔
                      (if b then v = "AUTO" else v ≠ "AUTO")) as Hauto.
  { intros []; [apply bool_decide_eq_true|apply bool_decide_eq_false]. }
  assert (SetupPackageDependency (front :: rest) e =
          let assigned : string + cmExportSet :=
            if negb (Str.empty v) then
              if bool_decide (v = "AUTO") then
                inr (WithRecord front (mkPackageDependency Auto (ExtraArguments d0)) e)
              else if cmIsOff v then
                inr (WithRecord front (mkPackageDependency Off (ExtraArguments d0)) e)
              else if cmIsOn v then
                inr (WithRecord front (mkPackageDependency On (ExtraArguments d0)) e)
              else inl (InvalidEnableSetting v)
            else inr (WithRecord front d0 e) in
          match assigned with
          | inl err => (Some err, WithRecord front d0 e)
          | inr e' => (None, AppendExtraArguments front (ExtraArgs pda) e')
          end) as Hstep.
  { unfold SetupPackageDependency. rewrite Hparse. fold v.
    rewrite GetPackageDependencyForSetup_insert. fold d0.
    by rewrite !SetEnabled_WithRecord. }
  split; [|split; [|split; [|split]]]; [rewrite Hstep; cbn zeta..|].
  - intros Hv.
    assert (Str.empty v = false) as -> by (apply StrFacts.empty_false; by rewrite Hv).
    apply (Hauto true) in Hv. rewrite Hv. cbn [negb].
    by rewrite AppendExtraArguments_WithRecord.
  - intros Hne Hna Hoff. apply StrFacts.empty_false in Hne.
    apply (Hauto false) in Hna. rewrite Hne, Hna, Hoff. cbn [negb].
    by rewrite AppendExtraArguments_WithRecord.
  - intros Hne Hna Hoff Hon. apply StrFacts.empty_false in Hne.
    apply (Hauto false) in Hna. rewrite Hne, Hna, Hoff, Hon. cbn [negb].
    by rewrite AppendExtraArguments_WithRecord.
  - intros Hv. apply StrFacts.empty_true in Hv. rewrite Hv. cbn [negb].
    rewrite AppendExtraArguments_WithRecord. by destruct d0.
  - intros Hne Hna Hoff Hon. apply StrFacts.empty_false in Hne.
    apply (Hauto false) in Hna.
    assert (SetupPackageDependency (front :: rest) e =
            (Some (InvalidEnableSetting v), WithRecord front d0 e)) as Hfail.
    { rewrite Hstep. cbn zeta. by rewrite Hne, Hna, Hoff, Hon. }
    split; [exact Hfail|]. split.
    + intros pre post e0 Hpre.
      by rewrite (SetupPackageDependencies_app pre post _ e0 e Hpre), Hfail.
    + intros pre post arguments s Hargs Hpre. unfold HandleSetup.
      by rewrite Hargs, (SetupPackageDependencies_app pre post _ _ e Hpre), Hfail.
Qed.

(** C10. For one PACKAGE_DEPENDENCY group whose arguments parse: the
    value AUTO sets the record to Auto, a value recognised as off sets it to
    Off, a value recognised as on sets it to On, and in each case, as with no
    ENABLED value at all, where the enabled state stays as it was, the extra
    arguments are appended in order with duplicates kept.  Any other
    non-empty value is the invalid enable setting error: the record exists
    but is otherwise untouched, later groups are not processed, and the
    command fails with what the earlier groups did left in the export set.
    What a group that is in order makes of the export set is what the SETUP
    call records in the global generator under the name of the set: with the
    group as the last one and no target group after it, the call succeeds
    and that export set is the one stored. *)
Theorem setup_package_dependency (front : string) (rest : list string)
    (e : cmExportSet) (pda : PackageDependencyArguments) :
  ParsePackageDependency rest = (pda, []) →
  let d0 := RecordFor front e in
  let v := ArgEnabled pda in
  let updated enabled :=
    WithRecord front
      (mkPackageDependency enabled (ExtraArguments d0 ++ ExtraArgs pda)) e in
  let step := SetupPackageDependency (front :: rest) e in
  let recorded enabled :=
    ∀ pre arguments s a1 more,
      Parse (BoundKeywords "SETUP" s) ("SETUP" :: a1 :: more) = (arguments, []) →
      PackageDependencyArgs arguments = pre ++ [front :: rest] →
      TargetArgs arguments = [] →
      SetupPackageDependencies pre
        (default (mkExportSet [] ∅) (ExportSets s !! ExportSetName arguments))
        = (None, e) →
      cmExportCommand ("SETUP" :: a1 :: more) s =
      (true,
       set_ExportSets
         (<[ExportSetName arguments := updated enabled]> (ExportSets s)) s) in
  (v = "AUTO" → step = (None, updated Auto) ∧ recorded Auto) ∧
  (v ≠ "" → v ≠ "AUTO" → cmIsOff v = true →
   step = (None, updated Off) ∧ recorded Off) ∧
  (v ≠ "" → v ≠ "AUTO" → cmIsOff v = false → cmIsOn v = true →
   step = (None, updated On) ∧ recorded On) ∧
  (v = "" → step = (None, updated (Enabled d0)) ∧ recorded (Enabled d0)) ∧
  (v ≠ "" → v ≠ "AUTO" → cmIsOff v = false → cmIsOn v = false →
   step = (Some (InvalidEnableSetting v), WithRecord front d0 e) ∧
   (∀ pre post e0,
      SetupPackageDependencies pre e0 = (None, e) →
      SetupPackageDependencies (pre ++ (front :: rest) :: post) e0 =
      (Some (InvalidEnableSetting v), WithRecord front d0 e)) ∧
   (∀ pre post arguments s,
      PackageDependencyArgs arguments = pre ++ (front :: rest) :: post →
      SetupPackageDependencies pre
        (default (mkExportSet [] ∅) (ExportSets s !! ExportSetName arguments))
        = (None, e) →
      HandleSetup arguments s =
      (false,
       SetError (InvalidEnableSetting v)
         (set_ExportSets
            (<[ExportSetName arguments := WithRecord front d0 e]> (ExportSets s))
            s))) ∧
   (∀ pre post arguments s a1 more,
      Parse (BoundKeywords "SETUP" s) ("SETUP" :: a1 :: more) = (arguments, []) →
      PackageDependencyArgs arguments = pre ++ (front :: rest) :: post →
      SetupPackageDependencies pre
        (default (mkExportSet [] ∅) (ExportSets s !! ExportSetName arguments))
        = (None, e) →
      cmExportCommand ("SETUP" :: a1 :: more) s =
      (false,
       SetError (InvalidEnableSetting v)
         (set_ExportSets
            (<[ExportSetName arguments := WithRecord front d0 e]> (ExportSets s))
            s)))).
Proof.
  intros Hparse d0 v updated step recorded.
  assert (∀ enabled, step = (None, updated enabled) → recorded enabled)
    as Hrecorded.
  { intros enabled Hstep pre arguments s a1 more Hcall Hargs Htargets Hpre.
    unfold cmExportCommand.
    rewrite bool_decide_eq_false_2 by done. rewrite Hcall.
    rewrite bool_decide_eq_true_2 by done. unfold HandleSetup.
    rewrite Hargs, (SetupPackageDependencies_app pre [] _ _ e Hpre).
    fold step. rewrite Hstep. cbn [SetupPackageDependencies].
    by rewrite Htargets. }
  destruct (SetupPackageDependency_cases front rest e pda Hparse)
    as (Hauto & Hoff & Hon & Hnone & Hbad).
  fold d0 v in Hauto, Hoff, Hon, Hnone, Hbad.
  split_and!.
  - intros Hv. split; [by apply Hauto|]. by apply Hrecorded, Hauto.
  - intros ? ? ?. split; [by apply Hoff|]. by apply Hrecorded, Hoff.
  - intros ? ? ? ?. split; [by apply Hon|]. by apply Hrecorded, Hon.
  - intros Hv. split; [by apply Hnone|]. by apply Hrecorded, Hnone.
  - intros Hne Hna Hoff' Hon'.
    destruct (Hbad Hne Hna Hoff' Hon') as (Hstep & Hloop & Hsetup).
    split_and!; [done..|].
    intros pre post arguments s a1 more Hcall Hargs Hpre.
    unfold cmExportCommand.
    rewrite bool_decide_eq_false_2 by done. rewrite Hcall.
    rewrite bool_decide_eq_true_2 by done. by apply (Hsetup pre post).
Qed.

End Setup.

(** A SETUP call with one group for a package the set does not know yet. *)
Lemma setup_package_dependency_witness :
  cmExportCommand
    ["SETUP"; "myset"; "PACKAGE_DEPENDENCY"; "Foo"; "ENABLED"; "ON";
     "EXTRA_ARGS"; "a"; "x"; "a"]
    ExportSample.project =
  (true,
   set_ExportSets
     (<["myset" :=
          mkExportSet [] (<["Foo" := mkPackageDependency On ["a"; "x"; "a"]]> ∅)]>
        (ExportSets ExportSample.project))
     ExportSample.project).
Proof.
  destruct (setup_package_dependency (H := ExportSample.collaborators)
              "Foo" ["ENABLED"; "ON"; "EXTRA_ARGS"; "a"; "x"; "a"]
              (mkExportSet [] ∅)
              (mkPackageDependencyArguments "ON" ["a"; "x"; "a"]) eq_refl)
    as (_ & _ & Hon & _).
  destruct Hon as [_ Hrecorded];
    [discriminate|discriminate|reflexivity|reflexivity|].
  exact (Hrecorded []
           (mkArguments "myset" None "" "" "" "" false false
              [["Foo"; "ENABLED"; "ON"; "EXTRA_ARGS"; "a"; "x"; "a"]] false [])
           ExportSample.project "myset"
           ["PACKAGE_DEPENDENCY"; "Foo"; "ENABLED"; "ON"; "EXTRA_ARGS"; "a";
            "x"; "a"]
           eq_refl eq_refl eq_refl eq_refl).
Defined.

(** A group with an unrecognised value after one that is in order: the
    command fails, the first package is set up, the second has its record
    and nothing more, the third is not reached. *)
Lemma setup_stops_at_invalid_setting :
  let r := cmExportCommand
             ["SETUP"; "myset";
              "PACKAGE_DEPENDENCY"; "Foo"; "ENABLED"; "OFF"; "EXTRA_ARGS"; "a";
              "PACKAGE_DEPENDENCY"; "Bar"; "ENABLED"; "maybe"; "EXTRA_ARGS"; "b";
              "PACKAGE_DEPENDENCY"; "Baz"; "ENABLED"; "AUTO"]
             ExportSample.project in
  r.1 = false ∧
  StatusError r.2 = InvalidEnableSetting "maybe" ∧
  PackageDependencies <$> (ExportSets r.2 !! "myset") =
  Some {["Foo" := mkPackageDependency Off ["a"];
         "Bar" := mkPackageDependency Auto []]}.
Proof. vm_compute. done. Qed.

Lemma package_name_validated_witness :
  cmExportCommand ["PACKAGE"; "Foo Bar"] ExportSample.project =
  (false, SetError (InvalidPackageName "Foo Bar") ExportSample.project) ∧
  Str.contains packageExpr (InvalidPackageName "Foo Bar") = true.
Proof.
  apply (package_name_validated (H := ExportSample.collaborators) "Foo Bar"
           ExportSample.project); [discriminate|reflexivity].
Defined.

End ExportTheory.

(** ** More on the dispatch of a handler command *)

Module CTestExtra.
Import Keywords KeywordFacts CTest CTestTheory.

(** X1. The keyword check raises no false alarm: it leaves the state exactly
    as it was if and only if no keyword was seen twice. *)
Theorem keyword_check_silent_iff_unique (kws : list string) (s : State) :
  CheckParsedKeywords kws s = s ↔ NoDup kws.
Proof.
  rewrite <- adjacent_find_sort_None. unfold CheckParsedKeywords.
  destruct (adjacent_find (sort kws)) as [it|]; [|done].
  split; [|done]. intros Heq. apply (f_equal Messages) in Heq.
  cbn in Heq. apply (f_equal length) in Heq.
  rewrite length_app in Heq. cbn in Heq. lia.
Qed.

Lemma delete_only_flag (e : SaveRestoreErrorState) (s : State) :
  SaveRestoreErrorState_delete e s =
  set_ErrorOccurred (ErrorOccurred (SaveRestoreErrorState_delete e s)) s.
Proof.
  unfold SaveRestoreErrorState_delete.
  destruct e as [[] []], s as [[] ? ? ? ? ? ? ? ?]; reflexivity.
Qed.

Lemma CheckParsedKeywords_rest (kws : list string) (s : State) :
  StatusError (CheckParsedKeywords kws s) = StatusError s ∧
  ConfigType (CheckParsedKeywords kws s) = ConfigType s ∧
  CTestConfiguration (CheckParsedKeywords kws s) = CTestConfiguration s ∧
  TimeLimit (CheckParsedKeywords kws s) = TimeLimit s ∧
  WorkingDirectory (CheckParsedKeywords kws s) = WorkingDirectory s ∧
  Log (CheckParsedKeywords kws s) = Log s.
Proof. unfold CheckParsedKeywords. by case_match. Qed.

Lemma ResolveConfiguration_WorkingDirectory `{Collaborators}
    (a : HandlerArguments) (s : State) :
  WorkingDirectory (ResolveConfiguration a s) = WorkingDirectory s.
Proof. unfold ResolveConfiguration. repeat case_match; reflexivity. Qed.

Section Dispatch.
Context `{cmd : HandlerCommand Args}.

(** X3. An unknown argument ends the call before anything is run: the ctest
    instance (configuration type, configuration entries, time limit) and the
    working directory are as argument checking left them, and the error text
    names the first unknown argument. *)
Theorem unknown_argument_runs_nothing (arguments : list string) (s : State)
    (front : string) (others : list string) :
  (Parse arguments).2 = front :: others →
  let checked := CheckArguments (Parse arguments).1 (ResetErrorOccurredFlag s) in
  let r := InitialPass arguments s in
  ConfigType r.2 = ConfigType checked ∧
  CTestConfiguration r.2 = CTestConfiguration checked ∧
  TimeLimit r.2 = TimeLimit checked ∧
  WorkingDirectory r.2 = WorkingDirectory checked ∧
  StatusError r.2 =
    "called with unknown argument " +:+ Str.dquote +:+ front +:+ Str.dquote +:+ ".".
Proof.
  intros Hun checked r. subst r. rewrite InitialPass_unfold. cbn [fst snd].
  rewrite delete_only_flag. cbn [ConfigType CTestConfiguration TimeLimit
    WorkingDirectory StatusError set_ErrorOccurred].
  unfold BeforeExit, InitialPass_body. cbn [SaveRestoreErrorState_new fst snd].
  fold checked. destruct (Parse arguments) as [args unparsed].
  cbn [fst snd] in *. subst unparsed.
  rewrite bool_decide_eq_false_2 by done. cbn [negb].
  destruct (CheckParsedKeywords_rest (ParsedKeywords (Base args)) checked)
    as (Hs & Hc & Hconf & Ht & Hw & _).
  repeat case_match; cbn; by rewrite ?Hs, ?Hc, ?Hconf, ?Ht, ?Hw.
Qed.

(** X4. The change of the working directory is undone on every way out: if
    argument checking and handler initialisation leave the working directory
    alone, so does the whole call, whatever the handler does while it runs. *)
Theorem working_directory_restored (arguments : list string) (s : State) :
  (∀ args s', WorkingDirectory (CheckArguments args s') = WorkingDirectory s') →
  (∀ args s', WorkingDirectory (InitializeHandler args s').2 = WorkingDirectory s') →
  WorkingDirectory (InitialPass arguments s).2 = WorkingDirectory s.
Proof.
  intros Hcheck Hinit. rewrite InitialPass_unfold. cbn [fst snd].
  rewrite delete_only_flag. cbn [WorkingDirectory set_ErrorOccurred].
  unfold BeforeExit, InitialPass_body. cbn [SaveRestoreErrorState_new fst snd].
  destruct (Parse arguments) as [args unparsed].
  set (s1 := CheckParsedKeywords _ _).
  assert (WorkingDirectory s1 = WorkingDirectory s) as Hs1.
  { subst s1.
    destruct (CheckParsedKeywords_rest (ParsedKeywords (Base args))
                (CheckArguments args (ResetErrorOccurredFlag s)))
      as (_ & _ & _ & _ & -> & _).
    by rewrite Hcheck. }
  destruct unparsed as [|u unparsed].
  2:{ rewrite bool_decide_eq_false_2 by done. cbn [negb].
      repeat case_match; exact Hs1. }
  rewrite bool_decide_eq_true_2 by done. cbn [negb].
  set (s2 := cmCTestLog DEBUG _ _).
  assert (WorkingDirectory s2 = WorkingDirectory s) as Hs2.
  { subst s2. cbn. by rewrite ResolveConfiguration_WorkingDirectory. }
  pose proof (Hinit args s2) as Hs3.
  destruct (InitializeHandler args s2) as [[handler|] s3]; cbn [snd] in Hs3.
  2:{ repeat case_match; cbn; congruence. }
  destruct (ChangeDirectory _ s3) as [workdirError|].
  { repeat case_match; cbn; congruence. }
  destruct (ProcessHandler _ _) as [[res handler'] s4].
  cbn. congruence.
Qed.


End Dispatch.

Lemma unknown_argument_runs_nothing_witness :
  let s := set_CTestConfiguration {["BuildDirectory" := "/b"]}
             (set_ErrorOccurred true Sample.clean) in
  let r := InitialPass (cmd := Sample.command) ["BUILD"; "/x"; "BOGUS"; "WORSE"] s in
  ConfigType r.2 = "" ∧
  CTestConfiguration r.2 = {["BuildDirectory" := "/b"]} ∧
  TimeLimit r.2 = None ∧
  WorkingDirectory r.2 = "/" ∧
  StatusError r.2 =
    "called with unknown argument " +:+ Str.dquote +:+ "BOGUS" +:+ Str.dquote +:+ ".".
Proof.
  intros s r.
  exact (unknown_argument_runs_nothing (cmd := Sample.command)
           ["BUILD"; "/x"; "BOGUS"; "WORSE"] s "BOGUS" ["WORSE"] eq_refl).
Defined.

Lemma working_directory_restored_witness :
  let s := set_CTestConfiguration {["BuildDirectory" := "/b"]} Sample.clean in
  WorkingDirectory (InitialPass (cmd := Sample.command) ["QUIET"] s).2 = "/".
Proof.
  intros s.
  apply (working_directory_restored (cmd := Sample.command) ["QUIET"] s);
    intros; reflexivity.
Defined.

Lemma duplicate_keyword_reaches_caller_witness :
  ErrorOccurred
    (InitialPass (cmd := Sample.command) ["QUIET"; "QUIET"]
       (set_CTestConfiguration {["BuildDirectory" := "/b"]} Sample.clean)).2 = true.
Proof.
  apply (duplicate_keyword_reaches_caller (cmd := Sample.command)
           ["QUIET"; "QUIET"] "QUIET"
           (set_CTestConfiguration {["BuildDirectory" := "/b"]} Sample.clean)).
  - split; intros; assumption.
  - vm_compute. lia.
  - reflexivity.
Defined.

(** *** A command without a handler of its own *)

Section Defaults.
Context `{Collaborators}.

(** X6. A command that does not override InitializeHandler never gets to
    process a handler: it ends on an unknown argument or on the handler that
    cannot be instantiated, which is logged under the name of the command;
    it returns failure, or, with a capture variable, success with the
    variable at -1. *)
Theorem default_handler_never_runs (name : string)
    (parse : list string → HandlerArguments * list string)
    (arguments : list string) (s : State) :
  let base := HandlerDefaults.plain_command name parse in
  let o := BeforeExit (cmd := base) arguments s in
  let r := InitialPass (cmd := base) arguments s in
  let V := CaptureCMakeError (parse arguments).1 in
  Exit o ≠ Processed ∧
  ((parse arguments).2 = [] →
   Exit o = NoHandler ∧
   (ERROR_MESSAGE, "Cannot instantiate test handler " +:+ name +:+ endl) ∈ Log r.2) ∧
  (V = "" → r.1 = false) ∧
  (V ≠ "" → r.1 = true ∧ Definitions r.2 !! V = Some "-1").
Proof.
  intros base o r V.
  assert (Exit o ≠ Processed ∧
          ((parse arguments).2 = [] →
           Exit o = NoHandler ∧
           (ERROR_MESSAGE, "Cannot instantiate test handler " +:+ name +:+ endl)
             ∈ Log (Final o))) as [Hexit Hlog].
  { subst o. unfold BeforeExit, InitialPass_body.
    cbn [Parse Base CheckArguments InitializeHandler GetName base
         HandlerDefaults.plain_command HandlerDefaults.InitializeHandler_default].
    destruct (parse arguments) as [args unparsed]. cbn [fst snd].
    destruct unparsed as [|u unparsed].
    - rewrite bool_decide_eq_true_2 by done. cbn [negb].
      split; [by case_match|]. intros _.
      repeat case_match; cbn; (split; [done|]); set_solver.
    - rewrite bool_decide_eq_false_2 by done. cbn [negb].
      split; [by case_match|done]. }
  split; [exact Hexit|]. subst r. rewrite InitialPass_unfold. cbn [fst snd].
  rewrite Definitions_after_delete. subst o. unfold BeforeExit in *.
  split; [|split].
  - intros Hun. destruct (Hlog Hun) as [He Hl]. split; [exact He|].
    rewrite delete_only_flag. exact Hl.
  - intros HV.
    rewrite (body_without_capture (cmd := base) arguments
               (SaveRestoreErrorState_new s).1 (SaveRestoreErrorState_new s).2 HV).
    by apply bool_decide_eq_false_2.
  - intros HV.
    destruct (body_with_capture (cmd := base) arguments
                (SaveRestoreErrorState_new s).1 (SaveRestoreErrorState_new s).2 HV)
      as [Hr Hd].
    split; [exact Hr|].
    rewrite bool_decide_eq_false_2 in Hd by done. exact Hd.
Qed.

End Defaults.

(** *** More on the build command *)

Section BuildMore.
Context `{BuildCollaborators}.

(** X7. A build command given in CTEST_BUILD_COMMAND is taken as it is:
    the handler is initialised with it as the make command whatever the
    generator, the configuration, the flags and the target say, and no
    message, error text or error flag results.  What the ctest instance logs
    when an entry is set is not in the sources at hand and is left open. *)
Theorem explicit_build_command_wins (args : BuildArguments) (s : State)
    (command : string) :
  GetDefinition "CTEST_BUILD_COMMAND" s = Some command →
  command ≠ "" →
  ∃ s',
    Build_InitializeHandler args s =
      (Some (SetQuiet (Quiet (HandlerArgs args)) NewBuildHandler), s') ∧
    GetCTestConfiguration "MakeCommand" s' = command ∧
    Messages s' = Messages s ∧
    StatusError s' = StatusError s ∧
    ErrorOccurred s' = ErrorOccurred s.
Proof.
  intros Hcmd Hne. apply StrFacts.empty_false in Hne.
  unfold Build_InitializeHandler, SelectMakeCommand. rewrite Hcmd.
  cbn [cmNonempty from_option id]. rewrite Hne. cbn [negb].
  eexists. split; [reflexivity|].
  unfold GetCTestConfiguration.
  repeat case_match; cbn; rewrite ?lookup_insert_ne by done;
    by rewrite lookup_insert_eq.
Qed.

(** What handler initialisation does in every case. *)
Lemma Build_InitializeHandler_cases (args : BuildArguments) (s : State) :
  let command := GetDefinition "CTEST_BUILD_COMMAND" s in
  let name := GetDefinition "CTEST_CMAKE_GENERATOR" s in
  let r := Build_InitializeHandler args s in
  Definitions r.2 = Definitions s ∧
  (∀ k, k ≠ "MakeCommand" → k ≠ "UseLaunchers" → k ≠ "LabelsForSubprojects" →
        CTestConfiguration r.2 !! k = CTestConfiguration s !! k) ∧
  if cmNonempty command then
    r.1 = Some (SetQuiet (Quiet (HandlerArgs args)) NewBuildHandler) ∧
    ErrorOccurred r.2 = ErrorOccurred s
  else if cmNonempty name then
    match CreateGlobalGenerator (default "" name) with
    | Some _ =>
        r.1 = Some (SetQuiet (Quiet (HandlerArgs args)) NewBuildHandler) ∧
        ErrorOccurred r.2 = ErrorOccurred s
    | None =>
        r.1 = None ∧ ErrorOccurred r.2 = true ∧
        StatusError r.2 = StatusError s ∧
        CTestConfiguration r.2 = CTestConfiguration s ∧
        Messages r.2 =
          Messages s ++
          [(FATAL_ERROR,
            "could not create generator named " +:+ Str.dquote
            +:+ default "" name +:+ Str.dquote)]
    end
  else
    r.1 = None ∧ ErrorOccurred r.2 = ErrorOccurred s ∧
    CTestConfiguration r.2 = CTestConfiguration s.
Proof.
  intros command name r. subst command name r.
  unfold Build_InitializeHandler, SelectMakeCommand.
  destruct (cmNonempty (GetDefinition "CTEST_BUILD_COMMAND" s)).
  - split; [by repeat case_match|]. split; [|by repeat case_match].
    intros k H1 H2 H3.
    repeat case_match; cbn; by rewrite ?lookup_insert_ne by done.
  - destruct (cmNonempty (GetDefinition "CTEST_CMAKE_GENERATOR" s)).
    + destruct (CreateGlobalGenerator _); [|done].
      unfold cmCTestOptionalLog.
      split; [by repeat case_match|]. split; [|by repeat case_match].
      intros k H1 H2 H3.
      repeat case_match; cbn; by rewrite ?lookup_insert_ne by done.
    + done.
Qed.

(** X9. The handler of the build command is initialised exactly when
    CTEST_BUILD_COMMAND is non-empty, or CTEST_CMAKE_GENERATOR is non-empty
    and names a generator that can be created; the error flag is raised by
    initialisation exactly when the generator is needed and cannot be
    created.  The variables of the script are never changed. *)
Theorem build_handler_initialised_iff (args : BuildArguments) (s : State) :
  let command := GetDefinition "CTEST_BUILD_COMMAND" s in
  let name := GetDefinition "CTEST_CMAKE_GENERATOR" s in
  let r := Build_InitializeHandler args s in
  Definitions r.2 = Definitions s ∧
  (is_Some r.1 ↔
   cmNonempty command = true ∨
   (cmNonempty name = true ∧
    is_Some (CreateGlobalGenerator (GetSafeDefinition "CTEST_CMAKE_GENERATOR" s)))) ∧
  (ErrorOccurred r.2 = true ↔
   ErrorOccurred s = true ∨
   (cmNonempty command = false ∧ cmNonempty name = true ∧
    CreateGlobalGenerator (GetSafeDefinition "CTEST_CMAKE_GENERATOR" s) = None)).
Proof.
  intros command name r.
  destruct (Build_InitializeHandler_cases args s) as (Hdefs & _ & Hcases).
  fold command name r in Hdefs, Hcases.
  change (GetSafeDefinition "CTEST_CMAKE_GENERATOR" s) with (default "" name).
  split; [exact Hdefs|].
  destruct (cmNonempty command).
  { destruct Hcases as [-> ->]. split; [|intuition congruence].
    split; [by left|by eauto]. }
  destruct (cmNonempty name).
  - destruct (CreateGlobalGenerator (default "" name)) as [gg|].
    + destruct Hcases as [-> ->]. split; [|intuition congruence].
      split; [by right; eauto|by eauto].
    + destruct Hcases as (-> & -> & _). split; [|intuition congruence].
      split; [by intros [? ?]|]. intros [?|[_ [? ?]]]; done.
  - destruct Hcases as (-> & -> & _). split; [|intuition congruence].
    split; [by intros [? ?]|]. intros [?|[? _]]; done.
Qed.

(** X11. Handler initialisation of the build command writes no
    configuration entry but the make command, the launchers setting and the
    labels for subprojects; in particular the build directory, which the
    dispatch reads next, is as it was.  On success the launchers setting
    follows CTEST_USE_LAUNCHERS and the labels CTEST_LABELS_FOR_SUBPROJECTS
    whenever these are defined. *)
Theorem build_handler_configuration_entries (args : BuildArguments) (s : State) :
  let r := Build_InitializeHandler args s in
  (∀ k, k ≠ "MakeCommand" → k ≠ "UseLaunchers" → k ≠ "LabelsForSubprojects" →
        CTestConfiguration r.2 !! k = CTestConfiguration s !! k) ∧
  GetCTestConfiguration "BuildDirectory" r.2 =
    GetCTestConfiguration "BuildDirectory" s ∧
  (is_Some r.1 →
   (∀ v, GetDefinition "CTEST_USE_LAUNCHERS" s = Some v →
         CTestConfiguration r.2 !! "UseLaunchers" = Some v) ∧
   (∀ v, GetDefinition "CTEST_LABELS_FOR_SUBPROJECTS" s = Some v →
         CTestConfiguration r.2 !! "LabelsForSubprojects" = Some v)).
Proof.
  intros r.
  destruct (Build_InitializeHandler_cases args s) as (Hdefs & Hother & _).
  fold r in Hdefs, Hother.
  split; [exact Hother|]. split.
  { unfold GetCTestConfiguration. by rewrite Hother. }
  subst r. unfold Build_InitializeHandler in *.
  destruct (SelectMakeCommand args s) as [s1|s1] eqn:Hsel.
  { by intros [? ?]. }
  intros _. cbn [fst snd] in *.
  match type of Hdefs with
  | context [GetDefinition "CTEST_LABELS_FOR_SUBPROJECTS" ?x] => set (s2 := x) in *
  end.
  assert (Definitions s2 = Definitions s1 ∧
          ∀ v, GetDefinition "CTEST_USE_LAUNCHERS" s1 = Some v →
               CTestConfiguration s2 !! "UseLaunchers" = Some v) as [Hs2 Hlaunch].
  { subst s2. destruct (GetDefinition "CTEST_USE_LAUNCHERS" s1) as [w|].
    - split; [done|]. intros v [= ->]. cbn. by rewrite lookup_insert_eq.
    - by split. }
  assert (Definitions s1 = Definitions s) as Hs1.
  { rewrite <- Hdefs, <- Hs2. by case_match. }
  unfold GetDefinition in *. rewrite Hs1 in Hlaunch. rewrite Hs2, Hs1. split.
  - intros v Hv. specialize (Hlaunch v Hv).
    destruct (Definitions s !! "CTEST_LABELS_FOR_SUBPROJECTS");
      cbn; rewrite ?lookup_insert_ne by done; exact Hlaunch.
  - intros v Hv. rewrite Hv. cbn. by rewrite lookup_insert_eq.
Qed.

(** X10. The counts of the build are written after the return value, errors
    first and warnings last, each only under a non-empty variable name: the
    warnings variable holds the warnings, the errors variable the errors
    unless it is the warnings variable too, and no other variable
    changes. *)
Theorem build_counts_written (handler : Handler) (args : BuildArguments)
    (s : State) :
  let s' := Build_ProcessAdditionalValues handler args s in
  (NumberWarnings args ≠ "" →
   Definitions s' !! NumberWarnings args =
   Some (to_string (GetTotalWarnings handler))) ∧
  (NumberErrors args ≠ "" → NumberErrors args ≠ NumberWarnings args →
   Definitions s' !! NumberErrors args =
   Some (to_string (GetTotalErrors handler))) ∧
  (∀ k, k ≠ NumberErrors args → k ≠ NumberWarnings args →
        Definitions s' !! k = Definitions s !! k) ∧
  (NumberErrors args = "" → NumberWarnings args = "" → s' = s) ∧
  s' = set_Definitions (Definitions s') s.
Proof.
  intros s'. subst s'. unfold Build_ProcessAdditionalValues.
  destruct (Str.empty (NumberErrors args)) eqn:He;
    destruct (Str.empty (NumberWarnings args)) eqn:Hw; cbn [negb];
    repeat split; intros;
    repeat match goal with
    | H : _ ≠ "" |- _ => apply StrFacts.empty_false in H
    | H : _ = "" |- _ => apply StrFacts.empty_true in H
    end; try congruence; cbn;
    rewrite ?lookup_insert_ne by done; rewrite ?lookup_insert_eq;
    try done; by destruct s.
Qed.

(** X8. A generator that is named but cannot be created is a fatal error
    of the build command: the message naming the generator is issued, and
    the call returns failure with the global error flag set, or, with a
    capture variable, success with the variable at -1 and the flag as it was
    on entry. *)
Theorem uncreatable_generator_is_fatal (arguments : list string) (s : State)
    (name : string) :
  cmNonempty (GetDefinition "CTEST_BUILD_COMMAND" s) = false →
  GetDefinition "CTEST_CMAKE_GENERATOR" s = Some name →
  name ≠ "" →
  CreateGlobalGenerator name = None →
  (BuildParse arguments).2 = [] →
  let V := CaptureCMakeError (HandlerArgs (BuildParse arguments).1) in
  let r := InitialPass (cmd := cmCTestBuildCommand) arguments s in
  (FATAL_ERROR,
   "could not create generator named " +:+ Str.dquote +:+ name +:+ Str.dquote)
    ∈ Messages r.2 ∧
  (V = "" → r.1 = false ∧ ErrorOccurred r.2 = true) ∧
  (V ≠ "" →
   r.1 = true ∧ Definitions r.2 !! V = Some "-1" ∧
   ErrorOccurred r.2 = ErrorOccurred s).
Proof.
  intros Hcmd Hgen Hname Hgg Hun V r. subst V r.
  rewrite InitialPass_unfold. cbn [fst snd].
  unfold BeforeExit, InitialPass_body.
  cbn [Parse Base CheckArguments InitializeHandler cmCTestBuildCommand
       SaveRestoreErrorState_new fst snd].
  destruct (BuildParse arguments) as [args unparsed]. cbn [fst snd] in *.
  subst unparsed. rewrite bool_decide_eq_true_2 by done. cbn [negb].
  set (s2 := cmCTestLog DEBUG _ _).
  assert (Definitions s2 = Definitions s) as Hdefs.
  { subst s2. cbn [Definitions cmCTestLog set_Log].
    by rewrite ResolveConfiguration_Definitions, CheckParsedKeywords_Definitions. }
  destruct (Build_InitializeHandler_cases args s2) as (_ & _ & Hcases).
  unfold GetDefinition in *. rewrite Hdefs, Hcmd, Hgen in Hcases.
  cbn [cmNonempty from_option id] in Hcases.
  apply StrFacts.empty_false in Hname. rewrite Hname, Hgg in Hcases.
  cbn [negb] in Hcases.
  destruct (Build_InitializeHandler args s2) as [o s3]. cbn [fst snd] in Hcases.
  destruct Hcases as (-> & Hflag & _ & _ & Hmsg).
  destruct (Str.empty (CaptureCMakeError (HandlerArgs args))) eqn:HV; cbn [negb].
  - cbn [Result Guard Final]. split; [|split].
    + rewrite delete_only_flag.
      cbn [Messages set_ErrorOccurred cmCTestLog set_Log]. rewrite Hmsg.
      apply elem_of_app. right. constructor.
    + intros _. split; [done|]. rewrite flag_after_delete. cbn.
      rewrite Hflag. apply orb_true_r.
    + intros HV'. by apply StrFacts.empty_false in HV'; congruence.
  - split; [|split].
    + rewrite delete_only_flag.
      case_match;
        cbn [Messages set_ErrorOccurred cmCTestLog set_Log AddDefinition
             set_Definitions Final];
        rewrite Hmsg; apply elem_of_app; right; constructor.
    + intros HV'. by apply StrFacts.empty_true in HV'; congruence.
    + intros _. split; [by case_match|].
      rewrite Definitions_after_delete, flag_after_delete.
      split; [case_match; cbn; by rewrite lookup_insert_eq|].
      by case_match.
Qed.

End BuildMore.

Lemma explicit_build_command_wins_witness :
  let s := set_Definitions
             {["CTEST_BUILD_COMMAND" := "make -k";
               "CTEST_CMAKE_GENERATOR" := "No Such Generator"]} Sample.clean in
  let args := mkBuildArguments Sample.no_arguments "" "" "all" "Debug" "" "" "" in
  ∃ s',
    Build_InitializeHandler (H0 := Sample.build_collaborators) args s =
      (Some tt, s') ∧
    GetCTestConfiguration "MakeCommand" s' = "make -k" ∧
    Messages s' = [] ∧ StatusError s' = "" ∧ ErrorOccurred s' = false.
Proof.
  intros s args.
  exact (explicit_build_command_wins (H0 := Sample.build_collaborators)
           args s "make -k" eq_refl ltac:(discriminate)).
Defined.

Lemma uncreatable_generator_is_fatal_witness :
  let s := set_CTestConfiguration {["BuildDirectory" := "/b"]}
             (set_Definitions {["CTEST_CMAKE_GENERATOR" := "No Such Generator"]}
                              Sample.clean) in
  let r := InitialPass (cmd := cmCTestBuildCommand) ["QUIET"] s in
  (FATAL_ERROR,
   "could not create generator named " +:+ Str.dquote +:+ "No Such Generator"
   +:+ Str.dquote) ∈ Messages r.2 ∧
  r.1 = false ∧ ErrorOccurred r.2 = true.
Proof.
  intros s r.
  destruct (uncreatable_generator_is_fatal (H0 := Sample.build_collaborators)
              ["QUIET"] s "No Such Generator" eq_refl eq_refl
              ltac:(discriminate) eq_refl eq_refl) as (Hmsg & Hplain & _).
  split; [exact Hmsg|]. apply Hplain. reflexivity.
Defined.

(** *** The build directory and the run of the handler *)

Section Run.
Context `{cmd : HandlerCommand Args}.

(** X12. A build directory that cannot be entered ends the call before the
    handler is processed: the error text is the one of the working
    directory, the time limit is not read again and the return value is not
    written.  Without a capture variable the call fails and variables and log
    are as handler initialisation left them; with one it succeeds, the
    variable holds -1 and the error is logged under the name of the
    command. *)
Theorem unenterable_build_directory (arguments : list string) (s : State)
    (handler : Handler) (s1 : State) (err : string) :
  (Parse arguments).2 = [] →
  InitializeHandler (Parse arguments).1
    (StateAtInitialize arguments (ResetErrorOccurredFlag s)) = (Some handler, s1) →
  ChangeDirectory (GetCTestConfiguration "BuildDirectory" s1) s1 = Some err →
  let V := CaptureCMakeError (Base (Parse arguments).1) in
  let r := InitialPass arguments s in
  StatusError r.2 = err ∧
  TimeLimit r.2 = TimeLimit s1 ∧
  WorkingDirectory r.2 = WorkingDirectory s1 ∧
  CTestConfiguration r.2 = CTestConfiguration s1 ∧
  (V = "" →
   r.1 = false ∧ Definitions r.2 = Definitions s1 ∧ Log r.2 = Log s1) ∧
  (V ≠ "" →
   r.1 = true ∧ Definitions r.2 = <[V := "-1"]> (Definitions s1) ∧
   Log r.2 = Log s1 ++ [(ERROR_MESSAGE, GetName +:+ " " +:+ err +:+ endl)]).
Proof.
  intros Hun Hinit Hdir V r. subst V r.
  rewrite InitialPass_unfold. cbn [fst snd].
  rewrite delete_only_flag.
  cbn [StatusError TimeLimit WorkingDirectory CTestConfiguration Definitions
       Log set_ErrorOccurred].
  unfold BeforeExit, InitialPass_body. cbn [SaveRestoreErrorState_new fst snd].
  unfold StateAtInitialize in Hinit.
  destruct (Parse arguments) as [args unparsed]. cbn [fst snd] in *.
  subst unparsed. rewrite bool_decide_eq_true_2 by done. cbn [negb].
  rewrite Hinit, Hdir.
  destruct (Str.empty (CaptureCMakeError (Base args))) eqn:Hempty;
    cbn [negb Result Final];
    (split; [done|]); (split; [done|]); (split; [done|]); (split; [done|]);
    split; intros HV;
    [apply StrFacts.empty_true in HV | apply StrFacts.empty_false in HV
    |apply StrFacts.empty_true in HV | apply StrFacts.empty_false in HV];
    first [congruence | by repeat split].
Qed.

(** X13. When the build directory is entered the handler is processed there,
    told about APPEND, the custom vectors and the submit index, and with the
    time limit read again from CTEST_TIME_LIMIT.  The call succeeds and the
    working directory is put back.  The result of the handler is written to
    the RETURN_VALUE variable before the additional values of the command:
    unless the capture variable has the same name, the variable holds on
    return what the additional values left in it, which is the result when
    they did not write it in this call; a capture variable of the same name
    is written last and wins. *)
Theorem handler_result_recorded (arguments : list string) (s : State)
    (handler : Handler) (s1 : State) :
  (Parse arguments).2 = [] →
  InitializeHandler (Parse arguments).1
    (StateAtInitialize arguments (ResetErrorOccurredFlag s)) = (Some handler, s1) →
  ChangeDirectory (GetCTestConfiguration "BuildDirectory" s1) s1 = None →
  let a := Base (Parse arguments).1 in
  let R := ReturnValue a in
  let V := CaptureCMakeError a in
  let run :=
    ProcessHandler
      (HandlerDefaults.PreparedHandler a s1 handler)
      (SetTimeLimit (GetDefinition "CTEST_TIME_LIMIT" s1)
         (set_WorkingDirectory (GetCTestConfiguration "BuildDirectory" s1) s1)) in
  let written :=
    if negb (Str.empty R) then AddDefinition R (to_string run.1.1) run.2
    else run.2 in
  let added := ProcessAdditionalValues run.1.2 (Parse arguments).1 written in
  let r := InitialPass arguments s in
  r.1 = true ∧
  WorkingDirectory r.2 = WorkingDirectory s1 ∧
  (R ≠ "" → Definitions written !! R = Some (to_string run.1.1)) ∧
  (R ≠ V → Definitions r.2 !! R = Definitions added !! R) ∧
  (R ≠ "" → R ≠ V →
   Definitions added !! R = Definitions written !! R →
   Definitions r.2 !! R = Some (to_string run.1.1)) ∧
  (V ≠ "" → R = V →
   Definitions r.2 !! R = Some (if ErrorOccurred added then "-1" else "0")).
Proof.
  intros Hun Hinit Hdir a R V run written added r.
  assert (r.1 = true ∧ WorkingDirectory r.2 = WorkingDirectory s1 ∧
          Definitions r.2 =
            if negb (Str.empty V)
            then <[V := if ErrorOccurred added then "-1" else "0"]>
                   (Definitions added)
            else Definitions added) as (Hresult & Hworkdir & Hdefs).
  { subst r added written run R V a.
    rewrite InitialPass_unfold. cbn [fst snd].
    rewrite delete_only_flag.
    cbn [WorkingDirectory Definitions set_ErrorOccurred].
    unfold BeforeExit, InitialPass_body, HandlerDefaults.PreparedHandler.
    cbn [SaveRestoreErrorState_new fst snd].
    unfold StateAtInitialize in Hinit.
    destruct (Parse arguments) as [args unparsed]. cbn [fst snd] in *.
    subst unparsed. rewrite bool_decide_eq_true_2 by done. cbn [negb].
    rewrite Hinit, Hdir.
    destruct (ProcessHandler _ _) as [[res handler'] s2]. cbn [fst snd].
    cbn [Result Final WorkingDirectory set_WorkingDirectory].
    split; [done|]. split; [done|].
    destruct (negb (Str.empty (CaptureCMakeError (Base args)))); [|done].
    unfold GetErrorOccurredFlag.
    destruct (ErrorOccurred _); [destruct (negb (FindLastString _ _))|];
      reflexivity. }
  split; [done|]. split; [done|].
  assert (R ≠ "" → Definitions written !! R = Some (to_string run.1.1))
    as Hwritten.
  { intros HR. apply StrFacts.empty_false in HR. subst written.
    rewrite HR. cbn. by rewrite lookup_insert_eq. }
  assert (R ≠ V → Definitions r.2 !! R = Definitions added !! R) as Hkept.
  { intros Hne. rewrite Hdefs.
    destruct (negb (Str.empty V)); [|done]. by rewrite lookup_insert_ne. }
  split; [done|]. split; [done|]. split.
  - intros HR Hne Hsame. by rewrite Hkept, Hsame, Hwritten.
  - intros HV Heq. rewrite Hdefs. apply StrFacts.empty_false in HV.
    rewrite HV, Heq. cbn [negb]. by rewrite lookup_insert_eq.
Qed.

End Run.

Lemma unenterable_build_directory_witness :
  let r := InitialPass (cmd := Sample.command)
             ["RETURN_VALUE"; "rv"; "CAPTURE_CMAKE_ERROR"; "err"] Sample.clean in
  StatusError r.2 = "Failed to change working directory" ∧
  r.1 = true ∧ Definitions r.2 = {["err" := "-1"]} ∧
  Log r.2 =
    Log (StateAtInitialize (cmd := Sample.command)
           ["RETURN_VALUE"; "rv"; "CAPTURE_CMAKE_ERROR"; "err"] Sample.clean) ++
    [(ERROR_MESSAGE,
      "ctest_sample" +:+ " " +:+ "Failed to change working directory" +:+ endl)].
Proof.
  intros r.
  destruct (unenterable_build_directory (cmd := Sample.command)
              ["RETURN_VALUE"; "rv"; "CAPTURE_CMAKE_ERROR"; "err"] Sample.clean
              tt
              (StateAtInitialize (cmd := Sample.command)
                 ["RETURN_VALUE"; "rv"; "CAPTURE_CMAKE_ERROR"; "err"]
                 Sample.clean)
              "Failed to change working directory" eq_refl eq_refl eq_refl)
    as (Herr & _ & _ & _ & _ & Hcapture).
  split; [exact Herr|]. apply Hcapture. discriminate.
Defined.

(** The build command with a build command given and a directory to build
    in: the status of the handler is in the variable on return. *)
Lemma handler_result_recorded_witness :
  let s := set_CTestConfiguration {["BuildDirectory" := "/b"]}
             (set_Definitions {["CTEST_BUILD_COMMAND" := "make -k"]}
                              Sample.clean) in
  let r := InitialPass (cmd := cmCTestBuildCommand (H0 := Sample.build_collaborators))
             ["RETURN_VALUE"; "rv"; "CAPTURE_CMAKE_ERROR"; "err"] s in
  r.1 = true ∧ WorkingDirectory r.2 = "/" ∧
  Definitions r.2 !! "rv" = Some (to_string 0).
Proof.
  intros s r.
  destruct (handler_result_recorded
              (cmd := cmCTestBuildCommand (H0 := Sample.build_collaborators))
              ["RETURN_VALUE"; "rv"; "CAPTURE_CMAKE_ERROR"; "err"] s tt
              (InitializeHandler
                 (HandlerCommand :=
                    cmCTestBuildCommand (H0 := Sample.build_collaborators))
                 (Sample.build_parse
                    ["RETURN_VALUE"; "rv"; "CAPTURE_CMAKE_ERROR"; "err"]).1
                 (StateAtInitialize
                    (cmd := cmCTestBuildCommand
                              (H0 := Sample.build_collaborators))
                    ["RETURN_VALUE"; "rv"; "CAPTURE_CMAKE_ERROR"; "err"]
                    (ResetErrorOccurredFlag s))).2)
    as (Hresult & Hdir & _ & _ & Hvalue & _); [vm_compute; reflexivity..|].
  vm_compute in Hresult, Hdir, Hvalue. vm_compute.
  split; [exact Hresult|]. split; [exact Hdir|].
  apply Hvalue; first [discriminate | reflexivity].
Defined.

End CTestExtra.

(** ** More on the export command *)

Module ExportExtra.
Import ExportCommand ExportNotions ExportTheory.

Section Frame.
Context `{Collaborators}.

Lemma SetError_twice (e : string) (s : State) :
  SetError e (SetError e s) = SetError e s.
Proof. reflexivity. Qed.

(** What the steps after parsing return when they fail. *)
Lemma GatherExports_Return_false (args0 : string) (arguments : Arguments)
    (fname : string) (s s' : State) :
  GatherExports args0 arguments fname s = Return false s' →
  ∃ e, s' = SetError e s.
Proof.
  unfold GatherExports.
  repeat case_match; intros [= <-]; eauto.
Qed.

Lemma BindFileGenerator_false (arguments : Arguments) (fname : string)
    (android : bool) (exportSet : option string) (targets : list TargetExport)
    (s : State) :
  (BindFileGenerator arguments fname android exportSet targets s).1 = false →
  ∃ e, (BindFileGenerator arguments fname android exportSet targets s).2 =
       SetError e s.
Proof.
  unfold BindFileGenerator. repeat case_match; cbn [fst snd]; try done; eauto.
Qed.

(** X14. Outside the SETUP form a command that fails has changed nothing
    but the error text: no generator, no binding, no export set and no
    registry entry is left behind by a failed call. *)
Theorem failed_export_changes_nothing (args : list string) (s : State) :
  head args ≠ Some "SETUP" →
  (cmExportCommand args s).1 = false →
  ∃ e, (cmExportCommand args s).2 = SetError e s.
Proof.
  intros Hsetup. unfold cmExportCommand.
  destruct args as [|args0 [|a1 rest]]; [cbn; eauto..|].
  cbn [head] in Hsetup.
  destruct (bool_decide (args0 = "PACKAGE")); [apply HandlePackage_failure|].
  destruct (Parse _ _) as [arguments [|u unknownArgs]]; [|cbn; eauto].
  rewrite bool_decide_eq_false_2 by congruence.
  destruct (ResolveFile _ _ _) as [e|[fname android]]; [cbn; eauto|].
  destruct (GatherExports _ _ _ _) as [[exportSet targets]|result s'] eqn:Hg.
  - apply BindFileGenerator_false.
  - cbn [fst snd]. intros ->. by apply GatherExports_Return_false in Hg.
Qed.

End Frame.

Lemma failed_export_changes_nothing_witness :
  ∃ e, (cmExportCommand ["TARGETS"; "mylib"; "docs"; "FILE"; "out.cmake"]
                        ExportSample.project).2 =
       SetError e ExportSample.project.
Proof.
  apply (failed_export_changes_nothing (H := ExportSample.collaborators)
           ["TARGETS"; "mylib"; "docs"; "FILE"; "out.cmake"] ExportSample.project);
    [discriminate|reflexivity].
Defined.

(** *** What a command leaves alone *)

Section Untouched.
Context `{Collaborators}.

(** Storing touches the stores of the user and the messages, nothing else,
    and what it adds to the messages is at most one warning. *)
Lemma Store_shape (p : Platform) (package content hash : string) (s : State) :
  let s' := StorePackageRegistry p package content hash s in
  s' = set_Sys (Sys s') (set_Messages (Messages s') s) ∧
  (Messages s' = Messages s ∨
   ∃ text, Messages s' = Messages s ++ [(WARNING, text)]).
Proof.
  intros s'. subst s'.
  unfold StorePackageRegistry, StorePackageRegistry_Win32,
    StorePackageRegistry_Unix, StoreEntryFile, ReportRegistryError, IssueMessage.
  destruct s. repeat case_match; cbn; split; eauto.
Qed.

Lemma HandlePackage_shape (args : list string) (s : State) :
  let s' := (HandlePackage args s).2 in
  s' = set_Sys (Sys s')
         (set_Messages (Messages s') (set_StatusError (StatusError s') s)).
Proof.
  intros s'. subst s'. unfold HandlePackage.
  pose proof (Store_shape HostPlatform) as Hstore. cbv zeta in Hstore.
  repeat case_match; cbn [fst snd]; try (by destruct s);
    match goal with
    | |- context [StorePackageRegistry ?p ?a ?b ?c s] =>
        destruct (Hstore a b c s) as [Hs _];
        generalize dependent (StorePackageRegistry p a b c s);
        intros s' ->; by destruct s
    end.
Qed.

Lemma HandleSetup_shape (arguments : Arguments) (s : State) :
  let s' := (HandleSetup arguments s).2 in
  s' = set_ExportSets (ExportSets s') (set_StatusError (StatusError s') s).
Proof.
  intros s'. subst s'. unfold HandleSetup.
  repeat case_match; cbn [fst snd]; by destruct s.
Qed.

Lemma GatherExports_shape (args0 : string) (arguments : Arguments)
    (fname : string) (result : bool) (s s' : State) :
  GatherExports args0 arguments fname s = Return result s' →
  s' = set_Generators (Generators s') (set_StatusError (StatusError s') s).
Proof.
  unfold GatherExports.
  repeat case_match; intros Heq; simplify_eq; by destruct s.
Qed.

Lemma BindFileGenerator_shape (arguments : Arguments) (fname : string)
    (android : bool) (exportSet : option string) (targets : list TargetExport)
    (s : State) :
  let s' := (BindFileGenerator arguments fname android exportSet targets s).2 in
  s' = set_Generators (Generators s')
         (set_BuildExportSets (BuildExportSets s')
            (set_BuildExportExportSets (BuildExportExportSets s')
               (set_Messages (Messages s')
                  (set_StatusError (StatusError s') s)))).
Proof.
  intros s'. subst s'. unfold BindFileGenerator.
  destruct s.
  repeat case_match; simplify_eq; cbn [fst snd]; done.
Qed.

(** X15. What each form of the command leaves alone.  No form changes the
    variables, the targets, the policies, the binary directory or the
    configurations of the project.  Only the SETUP form changes the export
    sets, only the PACKAGE form the stores of the user, and neither of these
    two forms creates or rebinds a generator. *)
Theorem export_command_frame (args : list string) (s : State) :
  let r := cmExportCommand args s in
  (Definitions r.2 = Definitions s ∧ Targets r.2 = Targets s ∧
   CurrentBinaryDirectory r.2 = CurrentBinaryDirectory s ∧
   CMP0103 r.2 = CMP0103 s ∧ CMP0090 r.2 = CMP0090 s ∧
   GeneratorConfigs r.2 = GeneratorConfigs s) ∧
  (head args ≠ Some "SETUP" → ExportSets r.2 = ExportSets s) ∧
  (head args ≠ Some "PACKAGE" → Sys r.2 = Sys s) ∧
  (head args = Some "PACKAGE" ∨ head args = Some "SETUP" →
   Generators r.2 = Generators s ∧
   BuildExportSets r.2 = BuildExportSets s ∧
   BuildExportExportSets r.2 = BuildExportExportSets s).
Proof.
  intros r. subst r. unfold cmExportCommand.
  destruct args as [|args0 [|a1 rest]];
    [cbn; by repeat split..|].
  cbn [head].
  destruct (bool_decide (args0 = "PACKAGE")) eqn:Hp.
  { apply bool_decide_eq_true in Hp as ->.
    rewrite (HandlePackage_shape ("PACKAGE" :: a1 :: rest) s).
    repeat split; done. }
  apply bool_decide_eq_false in Hp.
  destruct (Parse _ _) as [arguments [|u unknownArgs]];
    [|cbn; repeat split; try done; intuition congruence].
  destruct (bool_decide (args0 = "SETUP")) eqn:Hs.
  { apply bool_decide_eq_true in Hs as ->.
    rewrite (HandleSetup_shape arguments s).
    repeat split; done. }
  apply bool_decide_eq_false in Hs.
  assert (∀ s' : State,
            s' = set_Generators (Generators s')
                   (set_BuildExportSets (BuildExportSets s')
                      (set_BuildExportExportSets (BuildExportExportSets s')
                         (set_Messages (Messages s')
                            (set_StatusError (StatusError s') s)))) →
            (Definitions s' = Definitions s ∧ Targets s' = Targets s ∧
             CurrentBinaryDirectory s' = CurrentBinaryDirectory s ∧
             CMP0103 s' = CMP0103 s ∧ CMP0090 s' = CMP0090 s ∧
             GeneratorConfigs s' = GeneratorConfigs s) ∧
            (Some args0 ≠ Some "SETUP" → ExportSets s' = ExportSets s) ∧
            (Some args0 ≠ Some "PACKAGE" → Sys s' = Sys s) ∧
            (Some args0 = Some "PACKAGE" ∨ Some args0 = Some "SETUP" →
             Generators s' = Generators s ∧
             BuildExportSets s' = BuildExportSets s ∧
             BuildExportExportSets s' = BuildExportExportSets s)) as Hshape.
  { intros s' ->. repeat split; try done; intuition congruence. }
  destruct (ResolveFile _ _ _) as [e|[fname android]];
    [apply Hshape; by destruct s|].
  destruct (GatherExports _ _ _ _) as [[exportSet targets]|result s'] eqn:Hg.
  - apply Hshape, BindFileGenerator_shape.
  - apply Hshape. cbn [snd]. apply GatherExports_shape in Hg.
    clear -Hg. destruct s, s'. cbv in Hg |- *. congruence.
Qed.

End Untouched.

(** *** What storing never destroys *)

Section Stored.
Context `{Collaborators}.

Lemma StoreEntryFile_keeps (fname content hash : string) (s : State) :
  let s' := StoreEntryFile fname content hash s in
  Home (Sys s') = Home (Sys s) ∧
  Directories (Sys s) ⊆ Directories (Sys s') ∧
  (∀ f v, Files (Sys s) !! f = Some v → Files (Sys s') !! f = Some v) ∧
  WinRegistry (Sys s') = WinRegistry (Sys s).
Proof.
  intros s'. subst s'. unfold StoreEntryFile. cbv zeta.
  destruct (negb (FileExists _ _)) eqn:Hexists;
    [destruct (CanCreateFile _)|]; cbn; repeat split; try done;
    try (apply union_subseteq_r).
  intros f v Hf.
  apply negb_true_iff, orb_false_iff in Hexists as [Hfile _].
  apply bool_decide_eq_false in Hfile. cbn in Hfile.
  rewrite lookup_insert_ne; [done|].
  intros <-. apply Hfile. by rewrite Hf.
Qed.

(** X16. Storing a package never destroys what the user has: beside the
    stores and the messages it changes nothing, it raises at most one
    warning, no directory and no file of the user is removed or rewritten,
    and in the registry of Windows every value keeps its content except the
    one named by the digest under the key of the package.  The Windows
    definition leaves the file system alone, the other definitions leave the
    registry alone. *)
Theorem store_keeps_what_is_there (p : Platform) (package content hash : string)
    (s : State) :
  let s' := StorePackageRegistry p package content hash s in
  s' = set_Sys (Sys s') (set_Messages (Messages s') s) ∧
  (Messages s' = Messages s ∨
   ∃ text, Messages s' = Messages s ++ [(WARNING, text)]) ∧
  Home (Sys s') = Home (Sys s) ∧
  Directories (Sys s) ⊆ Directories (Sys s') ∧
  (∀ f v, Files (Sys s) !! f = Some v → Files (Sys s') !! f = Some v) ∧
  (∀ key values name v,
     WinRegistry (Sys s) !! key = Some values →
     values !! name = Some v →
     key ≠ RegistryKey package ∨ name ≠ hash →
     ∃ values', WinRegistry (Sys s') !! key = Some values' ∧
                values' !! name = Some v) ∧
  (p = Win32 →
   Files (Sys s') = Files (Sys s) ∧
   Directories (Sys s') = Directories (Sys s)) ∧
  (p ≠ Win32 → WinRegistry (Sys s') = WinRegistry (Sys s)).
Proof.
  intros s'.
  destruct (Store_shape p package content hash s) as [Hshape Hmsg].
  split; [done|]. split; [done|]. clear Hshape Hmsg. subst s'.
  assert (∀ fname,
            let s' := StoreEntryFile fname content hash s in
            Home (Sys s') = Home (Sys s) ∧
            Directories (Sys s) ⊆ Directories (Sys s') ∧
            (∀ f v, Files (Sys s) !! f = Some v → Files (Sys s') !! f = Some v) ∧
            (∀ key values name v,
               WinRegistry (Sys s) !! key = Some values →
               values !! name = Some v →
               key ≠ RegistryKey package ∨ name ≠ hash →
               ∃ values', WinRegistry (Sys s') !! key = Some values' ∧
                          values' !! name = Some v) ∧
            (Haiku = Win32 →
             Files (Sys s') = Files (Sys s) ∧
             Directories (Sys s') = Directories (Sys s)) ∧
            (WinRegistry (Sys s') = WinRegistry (Sys s))) as Hfile.
  { intros fname s'.
    destruct (StoreEntryFile_keeps fname content hash s) as (Hh & Hd & Hf & Hr).
    subst s'. rewrite Hr. repeat split; try done. eauto. }
  assert (Home (Sys s) = Home (Sys s) ∧
          Directories (Sys s) ⊆ Directories (Sys s) ∧
          (∀ f v, Files (Sys s) !! f = Some v → Files (Sys s) !! f = Some v) ∧
          (∀ key values name v,
             WinRegistry (Sys s) !! key = Some values →
             values !! name = Some v →
             key ≠ RegistryKey package ∨ name ≠ hash →
             ∃ values', WinRegistry (Sys s) !! key = Some values' ∧
                        values' !! name = Some v)) as Hsame.
  { repeat split; eauto. }
  destruct p; cbn [StorePackageRegistry].
  - unfold StorePackageRegistry_Win32, ReportRegistryError, IssueMessage.
    cbv zeta.
    destruct (RegCreateKeyExW _); [cbn; intuition eauto|].
    assert (∀ key values name v,
              WinRegistry (Sys s) !! key = Some values →
              values !! name = Some v →
              ∃ values',
                (<[RegistryKey package :=
                     default ∅ (WinRegistry (Sys s) !! RegistryKey package)]>
                   (WinRegistry (Sys s))) !! key = Some values' ∧
                values' !! name = Some v) as Hopen.
    { intros key values name v Hkey Hname.
      destruct (decide (key = RegistryKey package)) as [->|Hne].
      - rewrite lookup_insert_eq, Hkey. eauto.
      - rewrite lookup_insert_ne by done. eauto. }
    destruct (RegSetValueExW _ _ _); cbn;
      (split; [done|]); (split; [done|]); (split; [done|]);
      (split; [|done]).
    + intros key values name v Hkey Hname _. by eapply Hopen.
    + intros key values name v Hkey Hname Hother.
      destruct (decide (key = RegistryKey package)) as [->|Hne].
      * rewrite insert_insert_eq, lookup_insert_eq.
        eexists; split; [done|].
        rewrite Hkey. cbn.
        destruct Hother as [?|?]; [done|].
        by rewrite lookup_insert_ne.
      * rewrite insert_insert_eq, lookup_insert_ne by done. eauto.
  - unfold StorePackageRegistry_Unix.
    destruct find_directory as [dir|].
    + destruct (Hfile (dir +:+ "/cmake/packages/" +:+ package))
        as (? & ? & ? & ? & ? & ?).
      repeat split; try done.
    + destruct Hsame as (? & ? & ? & ?). repeat split; done.
  - unfold StorePackageRegistry_Unix. cbv zeta.
    destruct (Home (Sys s)) as [home|] eqn:Hhome.
    + destruct (Hfile ((ConvertToUnixSlashes home +:+ "/.cmake/packages/")
                         +:+ package))
        as (? & ? & ? & ? & ? & ?).
      repeat split; try done; congruence.
    + destruct Hsame as (? & ? & ? & ?). repeat split; try done.
Qed.

End Stored.

(** *** The bindings of file names to generators *)

Section Bindings.
Context `{Collaborators}.

Lemma same_bindings (s s' : State) :
  Generators s' = Generators s →
  BuildExportSets s' = BuildExportSets s →
  BuildExportExportSets s' = BuildExportExportSets s →
  BindingsWellFormed s → BindingsWellFormed s' ∧ GeneratorsKept s s'.
Proof.
  unfold BindingsWellFormed, GeneratorsKept. intros -> -> ->. eauto 10.
Qed.

Lemma GatherExports_Return (args0 : string) (arguments : Arguments)
    (fname : string) (result : bool) (s s' : State) :
  GatherExports args0 arguments fname s = Return result s' →
  (∃ e, s' = SetError e s) ∨
  (∃ targets i,
     s' = set_Generators (alter (AppendTargets targets) i (Generators s)) s).
Proof.
  unfold GatherExports.
  repeat case_match; intros Heq; simplify_eq; eauto.
Qed.

Lemma BindFileGenerator_true (arguments : Arguments) (fname : string)
    (android : bool) (exportSet : option string) (targets : list TargetExport)
    (s : State) :
  let r := BindFileGenerator arguments fname android exportSet targets s in
  r.1 = true →
  ∃ g, ExportFile g = fname ∧ GenExportSet g = exportSet ∧
       AppendMode g = Append arguments ∧
       Generators r.2 = Generators s ++ [g] ∧
       BuildExportSets r.2 = <[fname := length (Generators s)]> (BuildExportSets s) ∧
       BuildExportExportSets r.2 =
         match exportSet with
         | Some _ => <[fname := length (Generators s)]> (BuildExportExportSets s)
         | None => BuildExportExportSets s
         end.
Proof.
  intros r. subst r. unfold BindFileGenerator.
  destruct s.
  repeat case_match; simplify_eq; cbn [fst snd]; try done; intros _;
    eexists; repeat split; reflexivity.
Qed.

Lemma alter_bindings (targets : list TargetExport) (i : nat) (s : State) :
  BindingsWellFormed s →
  let s' := set_Generators (alter (AppendTargets targets) i (Generators s)) s in
  BindingsWellFormed s' ∧ GeneratorsKept s s'.
Proof.
  intros [Hfile Hset] s'.
  assert (GeneratorsKept s s') as Hkept.
  { intros j g Hg. subst s'. cbn.
    rewrite list_lookup_alter.
    case_decide; simplify_eq; rewrite Hg;
      [by exists (AppendTargets targets g)|eauto 10]. }
  split; [|done]. split.
  - intros f j Hf. destruct (Hfile f j Hf) as (g & Hg & <-).
    destruct (Hkept j g Hg) as (g' & ? & ? & _). eauto.
  - intros f j Hf. destruct (Hset f j Hf) as (g & Hg & <- & Hsome).
    destruct (Hkept j g Hg) as (g' & ? & ? & _ & Heq).
    exists g'. by rewrite Heq.
Qed.

Lemma bound_bindings (fname : string) (g : cmExportBuildFileGenerator)
    (s s' : State) :
  ExportFile g = fname →
  Generators s' = Generators s ++ [g] →
  BuildExportSets s' = <[fname := length (Generators s)]> (BuildExportSets s) →
  BuildExportExportSets s' =
    match GenExportSet g with
    | Some _ => <[fname := length (Generators s)]> (BuildExportExportSets s)
    | None => BuildExportExportSets s
    end →
  BindingsWellFormed s → BindingsWellFormed s' ∧ GeneratorsKept s s'.
Proof.
  intros Hname Hgens Hfiles Hsets [Hfile Hset].
  assert (GeneratorsKept s s') as Hkept.
  { intros j g0 Hg. rewrite Hgens, lookup_app_l; [eauto|].
    by eapply lookup_lt_Some. }
  assert (Generators s' !! length (Generators s) = Some g) as Hnew.
  { by rewrite Hgens, list_lookup_middle. }
  split; [|done]. split.
  - intros f j. rewrite Hfiles.
    destruct (decide (fname = f)) as [<-|Hne].
    + rewrite lookup_insert_eq. intros [= <-]. eauto.
    + rewrite lookup_insert_ne by done. intros Hf.
      destruct (Hfile f j Hf) as (g0 & Hg & <-).
      destruct (Hkept j g0 Hg) as (g' & ? & ? & _). eauto.
  - intros f j. rewrite Hsets.
    assert (BuildExportExportSets s !! f = Some j →
            ∃ g0, Generators s' !! j = Some g0 ∧ ExportFile g0 = f ∧
                  is_Some (GenExportSet g0)) as Hold.
    { intros Hf. destruct (Hset f j Hf) as (g0 & Hg & <- & Hsome).
      destruct (Hkept j g0 Hg) as (g' & ? & ? & _ & Heq).
      exists g'. by rewrite Heq. }
    destruct (GenExportSet g) eqn:Hg; [|done].
    destruct (decide (fname = f)) as [<-|Hne].
    + rewrite lookup_insert_eq. intros [= <-].
      exists g. by rewrite Hg.
    + by rewrite lookup_insert_ne.
Qed.

(** X17. The bindings of the global generator stay well formed under every
    call of the command: a file name bound before or by the call refers to a
    generator the makefile owns which writes this file, and a binding of an
    export set to a generator of an export set.  No call drops a generator
    or changes the file, the kind or the export set of one. *)
Theorem bindings_stay_well_formed (args : list string) (s : State) :
  BindingsWellFormed s →
  BindingsWellFormed (cmExportCommand args s).2 ∧
  GeneratorsKept s (cmExportCommand args s).2.
Proof.
  intros Hwf. unfold cmExportCommand.
  destruct args as [|args0 [|a1 rest]]; [by apply same_bindings..|].
  destruct (bool_decide (args0 = "PACKAGE")).
  { rewrite (HandlePackage_shape (args0 :: a1 :: rest) s).
    by apply same_bindings. }
  destruct (Parse _ _) as [arguments [|u unknownArgs]];
    [|by apply same_bindings].
  destruct (bool_decide (args0 = "SETUP")).
  { rewrite (HandleSetup_shape arguments s). by apply same_bindings. }
  destruct (ResolveFile _ _ _) as [e|[fname android]];
    [by apply same_bindings|].
  destruct (GatherExports _ _ _ _) as [[exportSet targets]|result s'] eqn:Hg.
  - destruct (BindFileGenerator arguments fname android exportSet targets s).1
      eqn:Hresult.
    + apply BindFileGenerator_true in Hresult
        as (g & Hname & Hset & _ & Hgens & Hfiles & Hsets).
      eapply bound_bindings; [done..| |done]. by rewrite Hset.
    + apply BindFileGenerator_false in Hresult as [e ->].
      by apply same_bindings.
  - cbn [snd]. apply GatherExports_Return in Hg as [[e ->]|(t & i & ->)].
    + by apply same_bindings.
    + by apply alter_bindings.
Qed.

End Bindings.

(** Two calls one after the other: the first binds a file, the second
    appends to it. *)
Lemma bindings_stay_well_formed_witness :
  let bound :=
    (cmExportCommand ["TARGETS"; "mylib"; "FILE"; "out.cmake"]
                     ExportSample.project).2 in
  let s' :=
    (cmExportCommand ["TARGETS"; "app"; "APPEND"; "FILE"; "out.cmake"] bound).2 in
  BindingsWellFormed s' ∧ GeneratorsKept bound s'.
Proof.
  intros bound s'.
  apply (bindings_stay_well_formed (H := ExportSample.collaborators)).
  apply (bindings_stay_well_formed (H := ExportSample.collaborators)).
  split; intros f i; vm_compute; discriminate.
Defined.

(** *** The PACKAGE form takes one name *)

Section OneName.
Context `{Collaborators}.

(** X18. The PACKAGE form succeeds exactly when it is given one argument
    and that argument matches the expression for package names.  A second
    argument is refused as unknown before the name is looked at, whatever
    the name is. *)
Theorem package_takes_one_name (rest : list string) (s : State) :
  ((cmExportCommand ("PACKAGE" :: rest) s).1 = true ↔
   ∃ name, rest = [name] ∧ packageRegex_find name = true) ∧
  (∀ name extra more,
     rest = name :: extra :: more →
     cmExportCommand ("PACKAGE" :: rest) s =
     (false, SetError ("PACKAGE given unknown argument: " +:+ extra) s)).
Proof.
  split.
  - destruct rest as [|name [|extra more]].
    + cbn. split; [done|]. by intros (name & [=] & _).
    + change (cmExportCommand ["PACKAGE"; name] s)
        with (HandlePackage ["PACKAGE"; name] s).
      unfold HandlePackage. cbn [tail ParsePackageMode].
      unfold packageRegex_find at 1.
      destruct (Str.empty name) eqn:Hempty; cbn [negb andb fst].
      * split; [done|]. intros (n & [= <-] & Hfind).
        unfold packageRegex_find in Hfind. by rewrite Hempty in Hfind.
      * destruct (all_chars package_char name) eqn:Hall; cbn [negb fst].
        -- split; [|by repeat case_match].
           intros _. exists name. split; [done|].
           unfold packageRegex_find. by rewrite Hempty, Hall.
        -- split; [done|]. intros (n & [= <-] & Hfind).
           unfold packageRegex_find in Hfind.
           by rewrite Hempty, Hall in Hfind.
    + cbn. split; [done|]. by intros (n & [=] & _).
  - intros name extra more ->. reflexivity.
Qed.

End OneName.

(** *** The file an export is written to *)

Section File.
Context `{Collaborators}.

(** X19. The file of a TARGETS or EXPORT call that gets past the checks of
    the file.  An ANDROID_MK file wins over FILE and is not asked for an
    extension; without it the FILE name must end in .cmake, and only the
    EXPORT form may leave it out, where the name of the export set with
    .cmake is taken.  A full path is kept as it is and must be writable; any
    other name is placed in the current binary directory. *)
Theorem resolved_file (args0 : string) (arguments : Arguments) (s : State)
    (fname : string) (android : bool) :
  ResolveFile args0 arguments s = inr (fname, android) →
  let name :=
    if android then AndroidMKFile arguments
    else if Str.empty (Filename arguments)
         then ExportSetName arguments +:+ ".cmake"
         else Filename arguments in
  android = negb (Str.empty (AndroidMKFile arguments)) ∧
  (android = false →
   if Str.empty (Filename arguments) then args0 = "EXPORT"
   else GetFilenameLastExtension (Filename arguments) = ".cmake") ∧
  (if FileIsFullPath name
   then fname = name ∧ CanIWriteThisFile name s = true
   else fname = CurrentBinaryDirectory s +:+ "/" +:+ name).
Proof.
  unfold ResolveFile.
  destruct (Str.empty (AndroidMKFile arguments)) eqn:Handroid; cbn [negb].
  - replace (Str.empty "") with true by done. rewrite andb_true_r.
    destruct (Str.empty (Filename arguments)) eqn:Hfile.
    + destruct (bool_decide (args0 = "EXPORT")) eqn:Hexport; [|done].
      apply bool_decide_eq_true in Hexport. cbn [negb].
      destruct (FileIsFullPath _) eqn:Hfull.
      * destruct (CanIWriteThisFile _ s) eqn:Hwrite; [|done].
        intros [= <- <-]. cbv beta iota zeta. by rewrite ?Hfile, ?Hfull.
      * intros [= <- <-]. cbv beta iota zeta. by rewrite ?Hfile, ?Hfull.
    + destruct (bool_decide (_ = ".cmake")) eqn:Hext; [|done].
      apply bool_decide_eq_true in Hext. cbn [negb].
      destruct (FileIsFullPath _) eqn:Hfull.
      * destruct (CanIWriteThisFile _ s) eqn:Hwrite; [|done].
        intros [= <- <-]. cbv beta iota zeta. by rewrite ?Hfile, ?Hfull.
      * intros [= <- <-]. cbv beta iota zeta. by rewrite ?Hfile, ?Hfull.
  - rewrite Handroid, andb_false_r.
    destruct (FileIsFullPath _) eqn:Hfull.
    + destruct (CanIWriteThisFile _ s) eqn:Hwrite; [|done].
      intros [= <- <-]. cbv beta iota zeta. by rewrite ?Handroid, ?Hfull.
    + intros [= <- <-]. cbv beta iota zeta. by rewrite ?Handroid, ?Hfull.
Qed.

End File.

Lemma resolved_file_witness :
  let arguments :=
    mkArguments "" (Some ["mylib"]) "" "ignored.txt" "Android.mk" "" false
                false [] false [] in
  true = negb (Str.empty (AndroidMKFile arguments)) ∧
  (true = false →
   if Str.empty (Filename arguments) then "TARGETS" = "EXPORT"
   else GetFilenameLastExtension (Filename arguments) = ".cmake") ∧
  (if FileIsFullPath (AndroidMKFile arguments)
   then "/build/Android.mk" = AndroidMKFile arguments ∧
        CanIWriteThisFile (AndroidMKFile arguments) ExportSample.project = true
   else "/build/Android.mk" =
        CurrentBinaryDirectory ExportSample.project +:+ "/"
        +:+ AndroidMKFile arguments).
Proof.
  intros arguments.
  apply (resolved_file (H := ExportSample.collaborators) "TARGETS" arguments
           ExportSample.project "/build/Android.mk" true).
  reflexivity.
Defined.

(** *** APPEND *)

Section Appending.
Context `{Collaborators}.

(** X20. With APPEND the TARGETS form never trips over policy CMP0103:
    whatever the policy, the command succeeds without a message.  When a
    generator is bound to the file the targets are merged into it and
    nothing else changes, no generator is created and no binding moves;
    when none is bound a generator in append mode is created for the listed
    targets and bound to the file. *)
Theorem append_bypasses_policy (args0 a1 : string) (rest names : list string)
    (s : State) (arguments : Arguments) (fname : string) (android : bool) :
  args0 ≠ "PACKAGE" →
  args0 ≠ "SETUP" →
  args0 ≠ "EXPORT" →
  Parse (BoundKeywords args0 s) (args0 :: a1 :: rest) = (arguments, []) →
  ResolveFile args0 arguments s = inr (fname, android) →
  ArgTargets arguments = Some names →
  forallb (ordinary s) names = true →
  Append arguments = true →
  let r := cmExportCommand (args0 :: a1 :: rest) s in
  r.1 = true ∧ Messages r.2 = Messages s ∧ StatusError r.2 = StatusError s ∧
  match GetExportedTargetsFile fname s with
  | Some index =>
      r.2 = set_Generators
              (alter (AppendTargets (exported <$> names)) index (Generators s)) s
  | None =>
      ∃ g, Generators r.2 = Generators s ++ [g] ∧
           AppendMode g = true ∧ GenTargets g = exported <$> names ∧
           ExportFile g = fname ∧ GenExportSet g = None ∧
           BuildExportSets r.2 =
             <[fname := length (Generators s)]> (BuildExportSets s) ∧
           BuildExportExportSets r.2 = BuildExportExportSets s
  end.
Proof.
  intros Hp Hs He Hparse Hfile Hnames Hok Happ r.
  assert (r = match GatherExports args0 arguments fname s with
              | Return result s => (result, s)
              | Proceed (exportSet, targets) =>
                  BindFileGenerator arguments fname android exportSet targets s
              end) as ->.
  { subst r. unfold cmExportCommand.
    by rewrite (bool_decide_eq_false_2 _ Hp), Hparse,
      (bool_decide_eq_false_2 _ Hs), Hfile. }
  destruct (GetExportedTargetsFile fname s) as [index|] eqn:Hbound.
  - rewrite (GatherExports_append args0 arguments fname names index s)
      by done.
    by repeat split.
  - assert (GatherExports args0 arguments fname s =
            Proceed (None, exported <$> names)) as ->.
    { unfold GatherExports.
      rewrite (bool_decide_eq_false_2 _ He), Hnames, Happ, Hbound.
      rewrite <- (app_nil_r names) at 1. by rewrite CollectTargets_app. }
    unfold BindFileGenerator. rewrite Hbound, Happ. cbn [fst snd].
    destruct android; (repeat split; [done..|]); eexists; by repeat split.
Qed.

End Appending.

Lemma append_bypasses_policy_witness :
  let bound :=
    (cmExportCommand ["TARGETS"; "mylib"; "FILE"; "out.cmake"]
                     ExportSample.project).2 in
  let r :=
    cmExportCommand ["TARGETS"; "app"; "APPEND"; "FILE"; "out.cmake"] bound in
  r.1 = true ∧ Messages r.2 = Messages bound ∧
  StatusError r.2 = StatusError bound ∧
  r.2 = set_Generators
          (alter (AppendTargets [exported "app"]) 0%nat (Generators bound)) bound.
Proof.
  intros bound r.
  apply (append_bypasses_policy (H := ExportSample.collaborators)
           "TARGETS" "app" ["APPEND"; "FILE"; "out.cmake"] ["app"] bound
           (mkArguments "" (Some ["app"]) "" "out.cmake" "" "" true false []
                        false [])
           "/build/out.cmake" false);
    first [discriminate | reflexivity].
Defined.

(** *** The export set of a SETUP call *)

Section SetupSets.
Context `{Collaborators}.

Lemma RecordFor_WithRecord (package front : string) (d : PackageDependency)
    (e : cmExportSet) :
  RecordFor package (WithRecord front d e) =
  if bool_decide (front = package) then d else RecordFor package e.
Proof.
  unfold RecordFor, WithRecord. cbn. rewrite lookup_insert.
  case_decide; case_bool_decide; simplify_eq; done.
Qed.

(** One group that is in order: the record of its package gains the extra
    arguments, every other record stays as it is. *)
Lemma SetupPackageDependency_success (group : list string) (e e' : cmExportSet)
    (package : string) :
  SetupPackageDependency group e = (None, e') →
  ExtraArguments (RecordFor package e') =
    ExtraArguments (RecordFor package e) ++ ExtraFor package [group] ∧
  TargetExports e' = TargetExports e.
Proof.
  destruct group as [|front rest]; cbn [SetupPackageDependency ExtraFor].
  { intros [= <-]. by rewrite app_nil_r. }
  destruct (ParsePackageDependency rest) as [pda [|u unknown]] eqn:Hparse;
    [|done].
  rewrite GetPackageDependencyForSetup_insert. cbn [fst].
  assert (∀ d,
            ExtraArguments d = ExtraArguments (RecordFor front e) →
            ExtraArguments
              (RecordFor package
                 (AppendExtraArguments front (ExtraArgs pda)
                    (WithRecord front d e))) =
            ExtraArguments (RecordFor package e) ++
              ((if bool_decide (front = package) then ExtraArgs pda else [])
               ++ []) ∧
            TargetExports (AppendExtraArguments front (ExtraArgs pda)
                             (WithRecord front d e)) = TargetExports e)
    as Hrecord.
  { intros d Hd. rewrite AppendExtraArguments_WithRecord, RecordFor_WithRecord.
    split; [|done]. rewrite app_nil_r.
    case_bool_decide; [|by rewrite app_nil_r].
    subst. cbn. by rewrite Hd. }
  destruct (negb (Str.empty (ArgEnabled pda))).
  - destruct (bool_decide (ArgEnabled pda = "AUTO"));
      [|destruct (cmIsOff (ArgEnabled pda));
        [|destruct (cmIsOn (ArgEnabled pda)); [|done]]];
      intros [= <-]; rewrite SetEnabled_WithRecord; by apply Hrecord.
  - intros [= <-]. by apply Hrecord.
Qed.

(** The groups of the loop add up. *)
Lemma SetupPackageDependencies_accumulate (groups : list (list string))
    (e e' : cmExportSet) (package : string) :
  SetupPackageDependencies groups e = (None, e') →
  ExtraArguments (RecordFor package e') =
    ExtraArguments (RecordFor package e) ++ ExtraFor package groups ∧
  TargetExports e' = TargetExports e.
Proof.
  revert e. induction groups as [|group groups IH]; intros e.
  - cbn. intros [= <-]. by rewrite app_nil_r.
  - cbn [SetupPackageDependencies].
    destruct (SetupPackageDependency group e) as [[err|] e1] eqn:Hgroup;
      [done|].
    intros Hrest.
    destruct (SetupPackageDependency_success group e e1 package Hgroup)
      as [Hextra Htargets].
    destruct (IH e1 Hrest) as [Hextra' Htargets'].
    split; [|congruence].
    rewrite Hextra', Hextra, <- app_assoc. f_equal.
    destruct group as [|front rest]; cbn [ExtraFor]; [done|].
    by rewrite app_nil_r.
Qed.

Lemma SetupTargets_PackageDependencies (groups : list (list string))
    (e : cmExportSet) :
  (∀ name location e0,
     PackageDependencies (SetXcFrameworkLocation name location e0) =
     PackageDependencies e0) →
  PackageDependencies (SetupTargets groups e).2 = PackageDependencies e.
Proof.
  intros Hkeep. revert e.
  induction groups as [|group groups IH]; intros e; [done|].
  cbn [SetupTargets]. destruct group as [|front rest]; [apply IH|].
  destruct (ParseTarget rest) as [targetArguments [|u unknown]]; [|done].
  rewrite IH. apply Hkeep.
Qed.

(** X21. The PACKAGE_DEPENDENCY groups of a SETUP call that succeeds add up
    in the export set the call records: provided setting a framework
    location leaves the package dependencies alone, the record of a package
    in the export set stored under the name of the set ends with the extra
    arguments it had before the call, followed by those of every group that
    names the package, in the order of the groups and with repetitions kept.
    Without target groups the targets of the export set are as they were. *)
Theorem setup_groups_accumulate (a1 : string) (more : list string) (s : State)
    (arguments : Arguments) (package : string) :
  Parse (BoundKeywords "SETUP" s) ("SETUP" :: a1 :: more) = (arguments, []) →
  (cmExportCommand ("SETUP" :: a1 :: more) s).1 = true →
  (∀ name location e,
     PackageDependencies (SetXcFrameworkLocation name location e) =
     PackageDependencies e) →
  let s' := (cmExportCommand ("SETUP" :: a1 :: more) s).2 in
  let before :=
    default (mkExportSet [] ∅) (ExportSets s !! ExportSetName arguments) in
  ∃ after,
    ExportSets s' !! ExportSetName arguments = Some after ∧
    ExtraArguments (RecordFor package after) =
      ExtraArguments (RecordFor package before) ++
      ExtraFor package (PackageDependencyArgs arguments) ∧
    (TargetArgs arguments = [] → TargetExports after = TargetExports before).
Proof.
  intros Hcall Hresult Hkeep. revert Hresult. unfold cmExportCommand.
  rewrite bool_decide_eq_false_2 by done. rewrite Hcall.
  rewrite bool_decide_eq_true_2 by done. unfold HandleSetup. cbv zeta.
  destruct (SetupPackageDependencies _ _) as [[err|] e1] eqn:Hgroups; [done|].
  destruct (SetupPackageDependencies_accumulate _ _ e1 package Hgroups)
    as [Hextra Htargets].
  pose proof (SetupTargets_PackageDependencies (TargetArgs arguments) e1 Hkeep)
    as Hdeps.
  destruct (SetupTargets (TargetArgs arguments) e1) as [[err|] e2] eqn:Hsetup;
    [done|].
  intros _. cbn [fst snd] in *. exists e2.
  cbn. rewrite lookup_insert_eq. split; [done|]. split.
  - rewrite <- Hextra. unfold RecordFor. by rewrite Hdeps.
  - intros Hnone. rewrite Hnone in Hsetup. cbn in Hsetup.
    injection Hsetup as <-. exact Htargets.
Qed.

(** X22. A SETUP call whose arguments parse leaves the export set it names
    defined, also when it fails in one of its groups, and touches no other
    export set. *)
Theorem setup_defines_the_set (a1 : string) (rest : list string) (s : State)
    (arguments : Arguments) :
  Parse (BoundKeywords "SETUP" s) ("SETUP" :: a1 :: rest) = (arguments, []) →
  let s' := (cmExportCommand ("SETUP" :: a1 :: rest) s).2 in
  is_Some (ExportSets s' !! ExportSetName arguments) ∧
  (∀ name, name ≠ ExportSetName arguments →
           ExportSets s' !! name = ExportSets s !! name).
Proof.
  intros Hparse s'. subst s'. unfold cmExportCommand.
  rewrite bool_decide_eq_false_2 by done. rewrite Hparse.
  rewrite bool_decide_eq_true_2 by done.
  unfold HandleSetup. cbv zeta.
  destruct (SetupPackageDependencies _ _) as [[err|] e1];
    [|destruct (SetupTargets _ _) as [[err|] e2]];
    cbn; (split; [by rewrite lookup_insert_eq|]);
    intros name Hname; by rewrite lookup_insert_ne.
Qed.

End SetupSets.

(** Three groups, two of them for Foo, on an export set that has a record
    for Foo already. *)
Lemma setup_groups_accumulate_witness :
  let s := set_ExportSets
             (<["myset" :=
                  mkExportSet []
                    (<["Foo" := mkPackageDependency Off ["x"]]> ∅)]> ∅)
             ExportSample.project in
  let s' :=
    (cmExportCommand
       ["SETUP"; "myset";
        "PACKAGE_DEPENDENCY"; "Foo"; "EXTRA_ARGS"; "a";
        "PACKAGE_DEPENDENCY"; "Bar"; "ENABLED"; "ON"; "EXTRA_ARGS"; "b";
        "PACKAGE_DEPENDENCY"; "Foo"; "ENABLED"; "AUTO"; "EXTRA_ARGS"; "x"; "a"]
       s).2 in
  ∃ after,
    ExportSets s' !! "myset" = Some after ∧
    ExtraArguments (RecordFor (H := ExportSample.collaborators) "Foo" after) =
      ["x"] ++ ["a"; "x"; "a"] ∧
    (@nil (list string) = [] → TargetExports after = []).
Proof.
  intros s s'.
  apply (setup_groups_accumulate (H := ExportSample.collaborators)
           "myset"
           ["PACKAGE_DEPENDENCY"; "Foo"; "EXTRA_ARGS"; "a";
            "PACKAGE_DEPENDENCY"; "Bar"; "ENABLED"; "ON"; "EXTRA_ARGS"; "b";
            "PACKAGE_DEPENDENCY"; "Foo"; "ENABLED"; "AUTO"; "EXTRA_ARGS"; "x";
            "a"]
           s
           (mkArguments "myset" None "" "" "" "" false false
              [["Foo"; "EXTRA_ARGS"; "a"];
               ["Bar"; "ENABLED"; "ON"; "EXTRA_ARGS"; "b"];
               ["Foo"; "ENABLED"; "AUTO"; "EXTRA_ARGS"; "x"; "a"]] false [])
           "Foo");
    first [reflexivity | intros; reflexivity].
Defined.

Lemma setup_defines_the_set_witness :
  let args := ["SETUP"; "myset"; "PACKAGE_DEPENDENCY"; "Foo"; "ENABLED"; "maybe"] in
  let s' := (cmExportCommand args ExportSample.project).2 in
  is_Some (ExportSets s' !! "myset") ∧
  (∀ name, name ≠ "myset" →
           ExportSets s' !! name = ExportSets ExportSample.project !! name).
Proof.
  intros args s'.
  apply (setup_defines_the_set (H := ExportSample.collaborators)
           "myset" ["PACKAGE_DEPENDENCY"; "Foo"; "ENABLED"; "maybe"]
           ExportSample.project
           (mkArguments "myset" None "" "" "" "" false false
                        [["Foo"; "ENABLED"; "maybe"]] false [])).
  reflexivity.
Defined.

(** *** When a TARGETS or EXPORT call succeeds, and what it creates *)

Section Success.
Context `{Collaborators}.

Lemma CollectTargets_all (names : list string) (s : State) :
  CollectTargets names [] s =
  if forallb (ordinary s) names then inr (exported <$> names)
  else CollectTargets names [] s.
Proof.
  destruct (forallb (ordinary s) names) eqn:Hok; [|done].
  rewrite <- (app_nil_r names) at 1. by rewrite CollectTargets_app.
Qed.

Lemma command_after_file (args0 a1 : string) (rest : list string) (s : State)
    (arguments : Arguments) (fname : string) (android : bool) :
  args0 ≠ "PACKAGE" →
  args0 ≠ "SETUP" →
  Parse (BoundKeywords args0 s) (args0 :: a1 :: rest) = (arguments, []) →
  ResolveFile args0 arguments s = inr (fname, android) →
  cmExportCommand (args0 :: a1 :: rest) s =
  match GatherExports args0 arguments fname s with
  | Return result s => (result, s)
  | Proceed (exportSet, targets) =>
      BindFileGenerator arguments fname android exportSet targets s
  end.
Proof.
  intros Hp Hs Hparse Hfile. unfold cmExportCommand.
  by rewrite (bool_decide_eq_false_2 _ Hp), Hparse,
    (bool_decide_eq_false_2 _ Hs), Hfile.
Qed.

Lemma BindFileGenerator_result (arguments : Arguments) (fname : string)
    (android : bool) (exportSet : option string) (targets : list TargetExport)
    (s : State) :
  (BindFileGenerator arguments fname android exportSet targets s).1 = true ↔
  GetExportedTargetsFile fname s = None ∨ GetPolicyStatus CMP0103_id s ≠ NEW.
Proof.
  unfold BindFileGenerator.
  destruct (GetExportedTargetsFile fname s) as [index|];
    [|cbn; split; auto].
  destruct (GetPolicyStatus CMP0103_id s); cbn; split;
    first [ done | intros _; right; discriminate | intros [[=]|Hne]; done ].
Qed.

(** X23. When a call in the TARGETS or EXPORT form succeeds, the file being
    in order.  The EXPORT form needs the export set to be defined; the
    TARGETS form needs a list of targets, all of them libraries or
    executables of the project.  Beyond that a generator already bound to the
    file stands in the way only under policy CMP0103 NEW, and for the TARGETS
    form not even then when APPEND is given. *)
Theorem export_succeeds_iff (args0 a1 : string) (rest : list string) (s : State)
    (arguments : Arguments) (fname : string) (android : bool) :
  args0 ≠ "PACKAGE" →
  args0 ≠ "SETUP" →
  Parse (BoundKeywords args0 s) (args0 :: a1 :: rest) = (arguments, []) →
  ResolveFile args0 arguments s = inr (fname, android) →
  let free :=
    GetExportedTargetsFile fname s = None ∨ GetPolicyStatus CMP0103_id s ≠ NEW in
  (cmExportCommand (args0 :: a1 :: rest) s).1 = true ↔
  if bool_decide (args0 = "EXPORT") then
    is_Some (ExportSets s !! ExportSetName arguments) ∧ free
  else
    ∃ names, ArgTargets arguments = Some names ∧
             forallb (ordinary s) names = true ∧
             (free ∨ Append arguments = true).
Proof.
  intros Hp Hs Hparse Hfile free.
  rewrite (command_after_file args0 a1 rest s arguments fname android)
    by done.
  unfold GatherExports.
  destruct (bool_decide (args0 = "EXPORT")).
  { destruct (ExportSets s !! ExportSetName arguments) as [e|].
    - rewrite BindFileGenerator_result. split; [by eauto|by intros [_ ?]].
    - cbn. split; [done|]. by intros [[? [=]] _]. }
  destruct (ArgTargets arguments) as [names|];
    [|cbn; split; [done|by intros (? & [=] & _)]].
  rewrite CollectTargets_all.
  destruct (forallb (ordinary s) names) eqn:Hok.
  2:{ destruct (CollectTargets names [] s) as [e|targets] eqn:Hcollect.
      - cbn. split; [done|]. intros (names' & [= <-] & Hok' & _). congruence.
      - apply CollectTargets_inr in Hcollect. congruence. }
  destruct (Append arguments) eqn:Happ.
  - destruct (GetExportedTargetsFile fname s) as [index|] eqn:Hbound.
    + cbn. split; [by eauto 10|done].
    + rewrite BindFileGenerator_result. split; [|by auto].
      intros _. exists names. subst free. by auto.
  - rewrite BindFileGenerator_result. split.
    + intros Hfree. exists names. by auto.
    + by intros (names' & _ & _ & [?|[=]]).
Qed.

(** X24. What a successful call creates when it does not append to a bound
    generator: exactly one generator, added after those of the makefile and
    bound to the file in the global generator.  It is an Android generator
    exactly when ANDROID_MK was given, and then the settings for old exports
    and package dependencies are not passed on; it carries the namespace, the
    module directory and the configurations of the makefile.  In the EXPORT
    form it refers to the export set, lists no targets and is bound as an
    export set as well; in the TARGETS form it lists the targets in the order
    given and the bindings of export sets are untouched. *)
Theorem export_creates_generator (args0 a1 : string) (rest : list string)
    (s : State) (arguments : Arguments) (fname : string) (android : bool) :
  args0 ≠ "PACKAGE" →
  args0 ≠ "SETUP" →
  Parse (BoundKeywords args0 s) (args0 :: a1 :: rest) = (arguments, []) →
  ResolveFile args0 arguments s = inr (fname, android) →
  (cmExportCommand (args0 :: a1 :: rest) s).1 = true →
  args0 = "EXPORT" ∨ Append arguments = false ∨
    GetExportedTargetsFile fname s = None →
  let s' := (cmExportCommand (args0 :: a1 :: rest) s).2 in
  let index := length (Generators s) in
  ∃ g,
    Generators s' = Generators s ++ [g] ∧
    BuildExportSets s' = <[fname := index]> (BuildExportSets s) ∧
    Kind g = (if android then AndroidMK else CMakeConfig) ∧
    GenExportOld g = (if android then false else ExportOld arguments) ∧
    GenExportPackageDependencies g =
      (if android then false else ExportPackageDependencies arguments) ∧
    ExportFile g = fname ∧ AppendMode g = Append arguments ∧
    GenNamespace g = Namespace arguments ∧
    CxxModuleDirectory g = CxxModulesDirectory arguments ∧
    Configurations g = GeneratorConfigs s ∧
    if bool_decide (args0 = "EXPORT") then
      GenExportSet g = Some (ExportSetName arguments) ∧ GenTargets g = [] ∧
      BuildExportExportSets s' = <[fname := index]> (BuildExportExportSets s)
    else
      GenExportSet g = None ∧
      ArgTargets arguments = Some (TargetName <$> GenTargets g) ∧
      GenTargets g = exported <$> (TargetName <$> GenTargets g) ∧
      BuildExportExportSets s' = BuildExportExportSets s.
Proof.
  intros Hp Hs Hparse Hfile.
  rewrite (command_after_file args0 a1 rest s arguments fname android)
    by done.
  assert (∀ exportSet targets,
            (BindFileGenerator arguments fname android exportSet targets s).1
              = true →
            let s' :=
              (BindFileGenerator arguments fname android exportSet targets s).2 in
            ∃ g,
              Generators s' = Generators s ++ [g] ∧
              BuildExportSets s' =
                <[fname := length (Generators s)]> (BuildExportSets s) ∧
              Kind g = (if android then AndroidMK else CMakeConfig) ∧
              GenExportOld g = (if android then false else ExportOld arguments) ∧
              GenExportPackageDependencies g =
                (if android then false
                 else ExportPackageDependencies arguments) ∧
              ExportFile g = fname ∧ AppendMode g = Append arguments ∧
              GenNamespace g = Namespace arguments ∧
              CxxModuleDirectory g = CxxModulesDirectory arguments ∧
              Configurations g = GeneratorConfigs s ∧
              GenExportSet g = exportSet ∧
              GenTargets g = (if exportSet is Some _ then [] else targets) ∧
              BuildExportExportSets s' =
                (if exportSet is Some _
                 then <[fname := length (Generators s)]>
                        (BuildExportExportSets s)
                 else BuildExportExportSets s)) as Hbind.
  { intros exportSet targets. unfold BindFileGenerator.
    destruct s.
    repeat case_match; simplify_eq; cbn [fst snd]; try done; intros _;
      eexists; repeat split; reflexivity. }
  unfold GatherExports.
  destruct (bool_decide (args0 = "EXPORT")) eqn:Hexport.
  { destruct (ExportSets s !! ExportSetName arguments) as [e|]; [|done].
    intros Hresult _.
    destruct (Hbind _ _ Hresult)
      as (g & ? & ? & ? & ? & ? & ? & ? & ? & ? & ? & ? & ? & ?).
    exists g. by repeat split. }
  apply bool_decide_eq_false in Hexport.
  destruct (ArgTargets arguments) as [names|]; [|done].
  rewrite CollectTargets_all.
  destruct (forallb (ordinary s) names) eqn:Hok.
  2:{ destruct (CollectTargets names [] s) as [e|targets] eqn:Hcollect;
        [done|].
      apply CollectTargets_inr in Hcollect. congruence. }
  assert (TargetName <$> (exported <$> names) = names) as Hnames.
  { rewrite <- list_fmap_compose. apply list_fmap_id. }
  assert (match
            (if Append arguments
             then match GetExportedTargetsFile fname s with
                  | Some ebfg =>
                      Some (set_Generators
                              (alter (AppendTargets (exported <$> names)) ebfg
                                     (Generators s)) s)
                  | None => None
                  end
             else None)
          with
          | Some _ => Append arguments = true ∧
                      is_Some (GetExportedTargetsFile fname s)
          | None => True
          end) as Happended.
  { destruct (Append arguments); [|done].
    by destruct (GetExportedTargetsFile fname s). }
  destruct (if Append arguments then _ else _) as [appended|].
  { destruct Happended as [Happ [index Hbound]].
    intros _ [?|[?|?]]; congruence. }
  intros Hresult _.
  destruct (Hbind _ _ Hresult)
    as (g & ? & ? & ? & ? & ? & ? & ? & ? & ? & ? & ? & Htargets & ?).
  exists g. cbn in Htargets. rewrite Htargets, Hnames. by repeat split.
Qed.

End Success.

Lemma export_succeeds_iff_witness :
  (cmExportCommand ["EXPORT"; "myset"; "FILE"; "set.cmake"]
                   ExportSample.project).1 = true ↔
  is_Some (ExportSets ExportSample.project !! "myset") ∧
  (GetExportedTargetsFile "/build/set.cmake" ExportSample.project = None ∨
   GetPolicyStatus CMP0103_id ExportSample.project ≠ NEW).
Proof.
  apply (export_succeeds_iff (H := ExportSample.collaborators)
           "EXPORT" "myset" ["FILE"; "set.cmake"] ExportSample.project
           (mkArguments "myset" None "" "set.cmake" "" "" false false [] false [])
           "/build/set.cmake" false);
    first [discriminate | reflexivity].
Defined.

Lemma export_creates_generator_witness :
  let s' := (cmExportCommand
               ["TARGETS"; "mylib"; "app"; "NAMESPACE"; "My::";
                "ANDROID_MK"; "Android.mk"; "EXPORT_LINK_INTERFACE_LIBRARIES"]
               ExportSample.project).2 in
  ∃ g,
    Generators s' = [g] ∧
    BuildExportSets s' = {["/build/Android.mk" := 0%nat]} ∧
    Kind g = AndroidMK ∧ GenExportOld g = false ∧
    GenExportPackageDependencies g = false ∧
    ExportFile g = "/build/Android.mk" ∧ AppendMode g = false ∧
    GenNamespace g = "My::" ∧ CxxModuleDirectory g = "" ∧
    Configurations g = [""] ∧
    GenExportSet g = None ∧
    Some ["mylib"; "app"] = Some (TargetName <$> GenTargets g) ∧
    GenTargets g = exported <$> (TargetName <$> GenTargets g) ∧
    BuildExportExportSets s' = ∅.
Proof.
  intros s'.
  apply (export_creates_generator (H := ExportSample.collaborators)
           "TARGETS" "mylib"
           ["app"; "NAMESPACE"; "My::"; "ANDROID_MK"; "Android.mk";
            "EXPORT_LINK_INTERFACE_LIBRARIES"]
           ExportSample.project
           (mkArguments "" (Some ["mylib"; "app"]) "My::" "" "Android.mk" ""
                        false false [] false [])
           "/build/Android.mk" true);
    first [discriminate | reflexivity | by right; left].
Defined.

End ExportExtra.
